(** * mtracker: the nutrition resolution and logging pipeline

    A shallow embedding of the calorie and macro tracker:

    - [src/main.py]                the simple pipeline (log, today's summary);
    - [src/src/mtracker/main.py]   the extended pipeline (persisted summary,
                                   per-date summary, remove last entry);
    - [src/src/mtracker/cache.py]  the nutrition fact cache;
    - [src/history.py]             the per-date meal listing.

    Python values are the values [json.loads] produces; a Python [float] is a
    binary64 number, modelled by Rocq's primitive floats, so every product
    and quotient below is the one the interpreter computes.  A Python [str]
    is modelled by its bytes ([string]); the text the program handles itself
    (fences, key names, the confirmation answer, dates) is ASCII.

    The three SQLite tables and the console are the fields of [World]; a
    function of the program is a computation in the monad [M], which threads
    the world and carries a raised exception to the nearest handler. *)

From Stdlib Require Import ZArith String Ascii List Bool Lia.
From Stdlib Require Import Floats.
From stdpp Require Import base option list gmap strings pretty.

Open Scope string_scope.
Open Scope Z_scope.

(** ** Python values and exceptions *)

#[warnings="-register-all"]
Inductive pyval : Type :=
| PyNone
| PyBool (b : bool)
| PyInt (z : Z)
| PyFloat (f : float)
| PyStr (s : string)
| PyList (l : list pyval)
| PyDict (d : list (string * pyval)).

(** The exceptions that can reach the [except Exception] of [log_food] or
    leave one of the other functions.  [ChainError] stands for whatever
    [chain.invoke] raises (network, authentication). *)
Inductive exn : Type :=
| ChainError
| JSONDecodeError
| KeyError (k : string)
| IndexError
| TypeError
| OverflowError
| EOFError
| ValueError
| InterfaceError      (* sqlite3: parameter of an unsupported type *)
| IntegrityError.     (* sqlite3: NOT NULL constraint failed *)

Inductive outcome (A : Type) : Type :=
| Ok (a : A)
| Raise (e : exn).
Arguments Ok {A} a.
Arguments Raise {A} e.

(** Sequencing of steps that may raise. *)
Definition and_then {A B} (o : outcome A) (k : A -> outcome B) : outcome B :=
  match o with
  | Ok a => k a
  | Raise e => Raise e
  end.

Declare Scope out_scope.
Delimit Scope out_scope with out.
Bind Scope out_scope with outcome.
Notation "x <- c ;; k" := (and_then c (fun x => k))
  (at level 100, c at next level, right associativity) : out_scope.

(** A Python number: an [int] (or a [bool], which is one) or a [float]. *)
Inductive number : Type :=
| Int (z : Z)
| Float (f : float).

Module Py.

(** [bool(v)], as [if cached_nutrition:] evaluates it. *)
Definition truthy (v : pyval) : bool :=
  match v with
  | PyNone => false
  | PyBool b => b
  | PyInt z => negb (Z.eqb z 0)
  | PyFloat f => negb (PrimFloat.eqb f 0)
  | PyStr s => negb (String.eqb s "")
  | PyList l => match l with [] => false | _ => true end
  | PyDict d => match d with [] => false | _ => true end
  end.

(** Lookup in a dict whose keys are in insertion order. *)
Fixpoint assoc (k : string) (d : list (string * pyval)) : option pyval :=
  match d with
  | [] => None
  | (k', v) :: d' => if String.eqb k k' then Some v else assoc k d'
  end.

(** [d[k] = v]: an existing key keeps its place. *)
Fixpoint setitem (k : string) (v : pyval) (d : list (string * pyval))
  : list (string * pyval) :=
  match d with
  | [] => [(k, v)]
  | (k', v') :: d' =>
      if String.eqb k k' then (k, v) :: d' else (k', v') :: setitem k v d'
  end.

(** [v[k]] for a string [k]: only a dict accepts it. *)
Definition getitem (v : pyval) (k : string) : outcome pyval :=
  match v with
  | PyDict d => match assoc k d with Some x => Ok x | None => Raise (KeyError k) end
  | _ => Raise TypeError
  end.

(** The binary64 number nearest to [z], ties to even. *)
Definition nearest_float (z : Z) : float :=
  SF2Prim (binary_normalize prec emax z 0 false).

(** The operand of [/] or [*] whose other operand is a float: an int, a
    bool (a subclass of int) or a float; anything else is a [TypeError]. *)
Definition as_number (v : pyval) : outcome number :=
  match v with
  | PyBool b => Ok (Int (if b then 1 else 0))
  | PyInt z => Ok (Int z)
  | PyFloat f => Ok (Float f)
  | _ => Raise TypeError
  end.

(** Its conversion to float: an int too large for a finite float is an
    [OverflowError]. *)
Definition to_float (n : number) : outcome float :=
  match n with
  | Int z =>
      let f := nearest_float z in
      if PrimFloat.is_infinity f then Raise OverflowError else Ok f
  | Float f => Ok f
  end.

Definition as_float (v : pyval) : outcome float :=
  match as_number v with
  | Ok n => to_float n
  | Raise e => Raise e
  end.

(** [v / d] for a non-zero float [d]. *)
Definition truediv (v : pyval) (d : float) : outcome float :=
  match as_float v with
  | Ok f => Ok (f / d)%float
  | Raise e => Raise e
  end.

(** [v * m] for a float [m]. *)
Definition mul (v : pyval) (m : float) : outcome float :=
  match as_float v with
  | Ok f => Ok (f * m)%float
  | Raise e => Raise e
  end.

(** [l[i]]. *)
Definition item (l : list string) (i : nat) : outcome string :=
  match nth_error l i with
  | Some x => Ok x
  | None => Raise IndexError
  end.

(** *** Strings *)

(** [sub in s]. *)
Fixpoint contains (sub s : string) : bool :=
  String.prefix sub s ||
  match s with
  | EmptyString => false
  | String _ s' => contains sub s'
  end.

(** [s.split(sep)] for a non-empty [sep]: the pieces between the
    occurrences of [sep], found from the left without overlap.  [skip]
    counts the bytes of a separator still to pass, [acc] holds the
    current piece reversed. *)
Fixpoint split_go (sep : string) (skip : nat) (acc : string) (s : string)
  : list string :=
  match s with
  | EmptyString => [String.rev acc]
  | String c s' =>
      match skip with
      | S k => split_go sep k acc s'
      | O =>
          if String.prefix sep s
          then String.rev acc :: split_go sep (Nat.pred (String.length sep)) "" s'
          else split_go sep 0 (String c acc) s'
      end
  end.

Definition split (s sep : string) : list string := split_go sep 0 "" s.

(** The ASCII characters [str.isspace] accepts. *)
Definition isspace (c : ascii) : bool :=
  let n := nat_of_ascii c in
  ((9 <=? n) && (n <=? 13) || (28 <=? n) && (n <=? 32))%nat.

(** [s.strip()]. *)
Fixpoint lstrip (s : string) : string :=
  match s with
  | String c s' => if isspace c then lstrip s' else s
  | EmptyString => EmptyString
  end.

Definition strip (s : string) : string :=
  String.rev (lstrip (String.rev (lstrip s))).

(** [s.lower()], on the ASCII letters. *)
Definition lower_ascii (c : ascii) : ascii :=
  let n := nat_of_ascii c in
  if ((65 <=? n) && (n <=? 90))%nat then ascii_of_nat (n + 32) else c.

Fixpoint lower (s : string) : string :=
  match s with
  | EmptyString => EmptyString
  | String c s' => String (lower_ascii c) (lower s')
  end.

End Py.

(** ** [json.loads]

    The decoder of Python's [json] module on a [str]: the JSON grammar, plus
    the constants [NaN], [Infinity] and [-Infinity] it accepts by default.
    A number without fraction and exponent is an [int], any other a [float].
    Every failure is a [JSONDecodeError].  The limits of the interpreter
    (recursion depth, digits of an int) are not modelled. *)
Module Json.

Definition is_ws (c : ascii) : bool :=
  match nat_of_ascii c with
  | 32%nat | 9%nat | 10%nat | 13%nat => true
  | _ => false
  end.

Fixpoint skip_ws (s : string) : string :=
  match s with
  | String c s' => if is_ws c then skip_ws s' else s
  | EmptyString => EmptyString
  end.

Definition digit (c : ascii) : option Z :=
  let n := Z.of_nat (nat_of_ascii c) in
  if (48 <=? n) && (n <=? 57) then Some (n - 48) else None.

Definition hexdigit (c : ascii) : option Z :=
  let n := Z.of_nat (nat_of_ascii c) in
  if (48 <=? n) && (n <=? 57) then Some (n - 48)
  else if (97 <=? n) && (n <=? 102) then Some (n - 87)
  else if (65 <=? n) && (n <=? 70) then Some (n - 55)
  else None.

(** Reads the longest run of digits: the number read after [acc], how many
    digits there were, and the rest. *)
Fixpoint read_digits (acc : Z) (count : Z) (s : string) : Z * Z * string :=
  match s with
  | String c s' =>
      match digit c with
      | Some d => read_digits (10 * acc + d) (count + 1) s'
      | None => (acc, count, s)
      end
  | EmptyString => (acc, count, s)
  end.

Definition starts_with_digit (s : string) : bool :=
  match s with
  | String c _ => match digit c with Some _ => true | None => false end
  | EmptyString => false
  end.

(** [float(numstr)]: the binary64 number nearest to [m * 10^e] (ties to
    even), for a non-negative [m]; [neg] is the sign of the literal.  For a
    negative exponent the quotient is taken with over sixty-four
    significant bits and a sticky last bit, which rounds as the exact
    quotient does. *)
Definition float_of_decimal (neg : bool) (m e : Z) : float :=
  let sgn (z : Z) := if neg then Z.opp z else z in
  if Z.eqb m 0 then (if neg then (-0)%float else 0%float)
  else if 0 <=? e
  then SF2Prim (binary_normalize prec emax (sgn (m * 10 ^ e)) 0 false)
  else
    let d := 10 ^ (- e) in
    let k := Z.max 0 (Z.log2 d - Z.log2 m + 66) in
    let n := m * 2 ^ k in
    let q := n / d in
    let q := if Z.eqb (n mod d) 0 then q else Z.lor q 1 in
    SF2Prim (binary_normalize prec emax (sgn q) (- k) true).

(** The number at the head of [s]: an optional minus sign; a zero, or a
    non-zero digit and any digits; then, each optional and taken only when
    complete, a point with one digit or more, and an [e] or [E] with an
    optional sign and one digit or more. *)
Definition number (s : string) : option (pyval * string) :=
  let '(neg, s1) :=
    match s with String "-" r => (true, r) | _ => (false, s) end in
  let int_part :=
    match s1 with
    | String "0" r => Some (0, r)
    | _ => if starts_with_digit s1
           then let '(v, _, r) := read_digits 0 0 s1 in Some (v, r)
           else None
    end in
  match int_part with
  | None => None
  | Some (v, r) =>
      let '(m, fd, r1, frac) :=
        match r with
        | String "." r' =>
            if starts_with_digit r'
            then let '(m, n, r'') := read_digits v 0 r' in (m, n, r'', true)
            else (v, 0, r, false)
        | _ => (v, 0, r, false)
        end in
      let '(e, r2, expo) :=
        match r1 with
        | String c r' =>
            if Ascii.eqb c "e" || Ascii.eqb c "E"
            then
              let '(eneg, r'') :=
                match r' with
                | String "-" x => (true, x)
                | String "+" x => (false, x)
                | _ => (false, r')
                end in
              if starts_with_digit r''
              then let '(ev, _, r3) := read_digits 0 0 r'' in
                   ((if eneg then - ev else ev), r3, true)
              else (0, r1, false)
            else (0, r1, false)
        | EmptyString => (0, r1, false)
        end in
      if frac || expo
      then Some (PyFloat (float_of_decimal neg m (e - fd)), r2)
      else Some (PyInt (if neg then - m else m), r2)
  end.

Definition byte (n : Z) : ascii := ascii_of_nat (Z.to_nat n).

(** The double quote. *)
Definition quote : ascii := byte 34.

(** The UTF-8 bytes of a code point (a lone surrogate keeps its three-byte form). *)
Definition utf8 (cp : Z) : string :=
  if cp <? 128 then String (byte cp) ""
  else if cp <? 2048
  then String (byte (192 + cp / 64)) (String (byte (128 + cp mod 64)) "")
  else if cp <? 65536
  then String (byte (224 + cp / 4096))
         (String (byte (128 + (cp / 64) mod 64))
            (String (byte (128 + cp mod 64)) ""))
  else String (byte (240 + cp / 262144))
         (String (byte (128 + (cp / 4096) mod 64))
            (String (byte (128 + (cp / 64) mod 64))
               (String (byte (128 + cp mod 64)) ""))).

Definition hex4 (a b c d : ascii) : option Z :=
  match hexdigit a, hexdigit b, hexdigit c, hexdigit d with
  | Some x, Some y, Some z, Some w => Some (((x * 16 + y) * 16 + z) * 16 + w)
  | _, _, _, _ => None
  end.

(** The string literal whose opening quote has been read: its text
    (collected in [acc], reversed) and what follows the closing quote. *)
Fixpoint scanstring (acc : string) (s : string) : option (string * string) :=
  match s with
  | EmptyString => None
  | String "\" (String "u" (String a (String b (String c (String d r))))) =>
      match hex4 a b c d with
      | None => None
      | Some hi =>
          let lone := scanstring (String.rev (utf8 hi) ++ acc) r in
          if (55296 <=? hi) && (hi <=? 56319)
          then
            match r with
            | String "\" (String "u" (String a' (String b' (String c' (String d' r'))))) =>
                match hex4 a' b' c' d' with
                | Some lo =>
                    if (56320 <=? lo) && (lo <=? 57343)
                    then scanstring
                           (String.rev (utf8 (65536 + (hi - 55296) * 1024 + (lo - 56320))) ++ acc) r'
                    else lone
                | None => lone
                end
            | _ => lone
            end
          else lone
      end
  | String "\" (String e r) =>
      let plain (n : Z) := scanstring (String (byte n) acc) r in
      match nat_of_ascii e with
      | 34%nat => plain 34     (* quote *)
      | 92%nat => plain 92     (* backslash *)
      | 47%nat => plain 47     (* slash *)
      | 98%nat => plain 8      (* b *)
      | 102%nat => plain 12    (* f *)
      | 110%nat => plain 10    (* n *)
      | 114%nat => plain 13    (* r *)
      | 116%nat => plain 9     (* t *)
      | _ => None
      end
  | String c r =>
      if Ascii.eqb c quote then Some (String.rev acc, r)
      else if (nat_of_ascii c <? 32)%nat || Ascii.eqb c "\" then None
      else scanstring (String c acc) r
  end.

Fixpoint value (fuel : nat) (s : string) {struct fuel} : option (pyval * string) :=
  match fuel with
  | O => None
  | S n =>
      let lit (w : string) (v : pyval) (k : option (pyval * string)) :=
        if String.prefix w s
        then Some (v, String.substring (String.length w) (String.length s) s)
        else k in
      let scalar :=
        lit "null" PyNone
          (lit "true" (PyBool true)
             (lit "false" (PyBool false)
                (lit "NaN" (PyFloat nan)
                   (lit "Infinity" (PyFloat infinity)
                      (lit "-Infinity" (PyFloat neg_infinity)
                         (number s)))))) in
      match s with
      | String "{" r =>
          match skip_ws r with
          | String "}" r' => Some (PyDict [], r')
          | r' => members n [] r'
          end
      | String "[" r =>
          match skip_ws r with
          | String "]" r' => Some (PyList [], r')
          | r' => elements n [] r'
          end
      | String c r =>
          if Ascii.eqb c quote
          then match scanstring "" r with
               | Some (x, r') => Some (PyStr x, r')
               | None => None
               end
          else scalar
      | EmptyString => None
      end
  end
with elements (fuel : nat) (acc : list pyval) (s : string) {struct fuel}
  : option (pyval * string) :=
  match fuel with
  | O => None
  | S n =>
      match value n s with
      | None => None
      | Some (v, r) =>
          match skip_ws r with
          | String "]" r' => Some (PyList (List.rev (v :: acc)), r')
          | String "," r' => elements n (v :: acc) (skip_ws r')
          | _ => None
          end
      end
  end
with members (fuel : nat) (acc : list (string * pyval)) (s : string) {struct fuel}
  : option (pyval * string) :=
  match fuel with
  | O => None
  | S n =>
      match s with
      | String c r =>
          if Ascii.eqb c quote
          then
            match scanstring "" r with
            | None => None
            | Some (k, r1) =>
                match skip_ws r1 with
                | String ":" r2 =>
                    match value n (skip_ws r2) with
                    | None => None
                    | Some (v, r3) =>
                        let acc' := Py.setitem k v acc in
                        match skip_ws r3 with
                        | String "}" r' => Some (PyDict acc', r')
                        | String "," r' => members n acc' (skip_ws r')
                        | _ => None
                        end
                    end
                | _ => None
                end
            end
          else None
      | EmptyString => None
      end
  end.

(** [json.loads(s)]: one value, with nothing but whitespace around it.
    The fuel bounds the nesting and the number of items, and twice the
    length of the text is more than either. *)
Definition loads (s : string) : outcome pyval :=
  match value (2 * String.length s + 2) (skip_ws s) with
  | Some (v, r) =>
      match skip_ws r with
      | EmptyString => Ok v
      | _ => Raise JSONDecodeError
      end
  | None => Raise JSONDecodeError
  end.

End Json.

(** ** [datetime]

    Calendar days, instants, their ISO renderings and [strptime] for the
    format [%Y-%m-%d]. *)
Module Datetime.

Record date : Type := { year : Z; month : Z; day : Z }.

Record datetime : Type :=
  { on : date; hour : Z; minute : Z; second : Z; microsecond : Z }.

Definition is_leap (y : Z) : bool :=
  (y mod 4 =? 0) && (negb (y mod 100 =? 0) || (y mod 400 =? 0)).

Definition days_in_month (y m : Z) : Z :=
  if m =? 2 then (if is_leap y then 29 else 28)
  else if (m =? 4) || (m =? 6) || (m =? 9) || (m =? 11) then 30
  else 31.

(** The days [datetime.date] can hold. *)
Definition valid_date (d : date) : bool :=
  (1 <=? year d) && (year d <=? 9999) &&
  (1 <=? month d) && (month d <=? 12) &&
  (1 <=? day d) && (day d <=? days_in_month (year d) (month d)).

Definition valid (t : datetime) : bool :=
  valid_date (on t) &&
  (0 <=? hour t) && (hour t <? 24) &&
  (0 <=? minute t) && (minute t <? 60) &&
  (0 <=? second t) && (second t <? 60) &&
  (0 <=? microsecond t) && (microsecond t <? 1000000).

Definition digit_char (n : Z) : ascii := ascii_of_nat (Z.to_nat (48 + n)).

(** [n] in [w] decimal digits, zero-filled. *)
Fixpoint pad (w : nat) (n : Z) : string :=
  match w with
  | O => EmptyString
  | S w' =>
      let p := 10 ^ Z.of_nat w' in
      String (digit_char (n / p)) (pad w' (n mod p))
  end.

(** [date.isoformat()], and [strftime] with [%Y-%m-%d] (the year in four
    digits, as the library documents it). *)
Definition date_isoformat (d : date) : string :=
  pad 4 (year d) ++ "-" ++ pad 2 (month d) ++ "-" ++ pad 2 (day d).

Definition strftime_Ymd (t : datetime) : string := date_isoformat (on t).

(** [datetime.isoformat()]: the microseconds are written only when they
    are not zero. *)
Definition isoformat (t : datetime) : string :=
  date_isoformat (on t) ++ "T" ++
  pad 2 (hour t) ++ ":" ++ pad 2 (minute t) ++ ":" ++ pad 2 (second t) ++
  (if microsecond t =? 0 then "" else "." ++ pad 6 (microsecond t)).

(** [t.replace(hour=0, minute=0, second=0, microsecond=0)], which is also
    [datetime.combine(d, time.min)]. *)
Definition midnight (d : date) : datetime :=
  {| on := d; hour := 0; minute := 0; second := 0; microsecond := 0 |}.

(** [datetime.combine(d, time.max)]. *)
Definition last_instant (d : date) : datetime :=
  {| on := d; hour := 23; minute := 59; second := 59; microsecond := 999999 |}.

(** [t + timedelta(days=1)] on the date: the last day [date] can hold has
    no successor. *)
Definition next_day (d : date) : outcome date :=
  if day d <? days_in_month (year d) (month d)
  then Ok {| year := year d; month := month d; day := day d + 1 |}
  else if month d <? 12
  then Ok {| year := year d; month := month d + 1; day := 1 |}
  else if year d <? 9999
  then Ok {| year := year d + 1; month := 1; day := 1 |}
  else Raise OverflowError.

(** The field readers of [strptime]: [%Y] is four digits; [%m] is
    [1[0-2]], [0[1-9]] or [[1-9]]; [%d] is [3[01]], [[12][0-9]], [0[1-9]],
    [[1-9]], or a space and [[1-9]]. *)
Definition field_Y (s : string) : option Z :=
  match s with
  | String a (String b (String c (String d EmptyString))) =>
      match Json.digit a, Json.digit b, Json.digit c, Json.digit d with
      | Some x, Some y, Some z, Some w => Some (((x * 10 + y) * 10 + z) * 10 + w)
      | _, _, _, _ => None
      end
  | _ => None
  end.

Definition field_m (s : string) : option Z :=
  match s with
  | String a EmptyString =>
      match Json.digit a with
      | Some x => if 1 <=? x then Some x else None
      | None => None
      end
  | String a (String b EmptyString) =>
      match Json.digit a, Json.digit b with
      | Some 1, Some y => if y <=? 2 then Some (10 + y) else None
      | Some 0, Some y => if 1 <=? y then Some y else None
      | _, _ => None
      end
  | _ => None
  end.

Definition field_d (s : string) : option Z :=
  match s with
  | String a EmptyString =>
      match Json.digit a with
      | Some x => if 1 <=? x then Some x else None
      | None => None
      end
  | String a (String b EmptyString) =>
      match Json.digit a, Json.digit b with
      | Some 3, Some y => if y <=? 1 then Some (30 + y) else None
      | Some 0, Some y => if 1 <=? y then Some y else None
      | Some x, Some y => if x <=? 2 then Some (10 * x + y) else None
      | None, Some y => if Ascii.eqb a " " && (1 <=? y) then Some y else None
      | _, None => None
      end
  | _ => None
  end.

(** [datetime.strptime(s, fmt).date()] for [fmt = %Y-%m-%d]: the text must
    be three fields joined by hyphens, and name a day that exists. *)
Definition strptime_Ymd (s : string) : outcome date :=
  match Py.split s "-" with
  | [y; m; d] =>
      match field_Y y, field_m m, field_d d with
      | Some y, Some m, Some d =>
          let r := {| year := y; month := m; day := d |} in
          if valid_date r then Ok r else Raise ValueError
      | _, _, _ => Raise ValueError
      end
  | _ => Raise ValueError
  end.

End Datetime.
Import Datetime.

(** ** The stores and the console *)

(** A row of [food_log].  The columns are typed as the rows [save_entry]
    writes: text for the label and the unit, a real for the numbers. *)
Record LogRow : Type :=
  { row_id : Z;
    row_timestamp : string;
    row_food_item : string;
    row_quantity : float;
    row_quantity_unit : string;
    row_calories : float;
    row_protein : float;
    row_carbs : float;
    row_fat : float }.

(** A row of [daily_summary], without its date (the key of the table) and
    without its id, which no statement reads. *)
Record SummaryRow : Type :=
  { total_calories : float;
    total_protein : float;
    total_carbs : float;
    total_fat : float }.

(** The dict [calculated_nutrition] of [log_food].  Its quantity has been
    divided by [100.0], so it is a number; its macro fields are products
    with a float, so they are floats. *)
Record Nutrition : Type :=
  { food_item : pyval;
    quantity : number;
    quantity_unit : pyval;
    calories : float;
    protein : float;
    carbs : float;
    fat : float }.

(** The statements the program sends to SQLite. *)
Inductive statement : Type :=
| SelectCache          (* SELECT nutrition_data FROM cache WHERE food_item=? *)
| ReplaceCache         (* INSERT OR REPLACE INTO cache ... *)
| InsertFoodLog        (* INSERT INTO food_log ... *)
| ReplaceDailySummary  (* INSERT OR REPLACE INTO daily_summary ... *)
| SelectDailySummary   (* SELECT total_... FROM daily_summary WHERE date = ? *)
| SelectSums           (* SELECT SUM(calories), ... FROM food_log WHERE ... *)
| SelectLast           (* SELECT id, ... ORDER BY id DESC LIMIT 1 *)
| DeleteFoodLog        (* DELETE FROM food_log WHERE id = ? *)
| SelectMeals.         (* SELECT timestamp, ... ORDER BY timestamp *)

(** What the program prints, one constructor for each message; a float is
    kept as the number it is, not as its two-decimal rendering.  [Paged]
    is a text handed to [paginate_output]. *)
#[warnings="-register-all"]
Inductive line : Type :=
| LlmNotInitialized
| CacheHit
| Estimation (c : Nutrition)
| EntrySaved
| EntryDiscarded
| CouldNotProcess (e : exn)
| TodaysSummary
| TotalCalories (x : float)
| TotalProtein (x : float)
| TotalCarbs (x : float)
| TotalFat (x : float)
| NoEntriesForToday
| EndOfSummary
| InvalidDateFormat
| Paged (text : list line)
| SummaryFor (d : date)
| NoSummaryFound (d : date)
| MealsFor (d : date)
| Meal (r : LogRow)
| NoMealsFound (d : date)
| RemovingLastEntry (item : string) (amount : float) (unit : string)
| EntryRemoved
| UpdatingSummary
| NoEntriesToRemove.

(** The state the program runs in: the tables of [food_log.db], the table
    of [food_cache.db], the statements executed so far, and the console.
    [food_log] is in rowid order and [food_log_seq] is the largest id the
    table has handed out (its AUTOINCREMENT counter).  [daily_summary] is
    keyed by its unique date.  [cache] is keyed by its primary key and
    holds, for each label, the value its [nutrition_data] text decodes to
    ([json.loads] of the [json.dumps] written); a row whose key is NULL is
    kept apart in [cache_null], since no key ever equals NULL.  The
    [timestamp] column of the cache, which no statement reads, is left out. *)
Record World : Type :=
  { food_log : list LogRow;
    food_log_seq : Z;
    daily_summary : gmap string SummaryRow;
    cache : gmap string pyval;
    cache_null : list pyval;
    executed : list statement;
    stdout : list line }.

(** ** The monad of the program *)

Definition M (A : Type) : Type := World -> World * outcome A.

Definition ret {A} (a : A) : M A := fun w => (w, Ok a).

Definition raise {A} (e : exn) : M A := fun w => (w, Raise e).

Definition bind {A B} (c : M A) (k : A -> M B) : M B :=
  fun w =>
    match c w with
    | (w', Ok a) => k a w'
    | (w', Raise e) => (w', Raise e)
    end.

Declare Scope prog_scope.
Delimit Scope prog_scope with prog.
Bind Scope prog_scope with M.
Notation "x <- c ;; k" := (bind c (fun x => k))
  (at level 100, c at next level, right associativity) : prog_scope.
Notation "c ;; k" := (bind c (fun _ => k))
  (at level 100, right associativity) : prog_scope.
Open Scope prog_scope.

(** A pure step that may raise. *)
Definition lift {A} (o : outcome A) : M A := fun w => (w, o).

Definition get {A} (f : World -> A) : M A := fun w => (w, Ok (f w)).

Definition modify (f : World -> World) : M unit := fun w => (f w, Ok tt).

(** [try: body except Exception as e: handler(e)]. *)
Definition try_except (body : M unit) (handler : exn -> M unit) : M unit :=
  fun w =>
    match body w with
    | (w', Ok u) => (w', Ok u)
    | (w', Raise e) => handler e w'
    end.

Definition set_food_log (rows : list LogRow) (seq : Z) (w : World) : World :=
  {| food_log := rows; food_log_seq := seq;
     daily_summary := daily_summary w;
     cache := cache w; cache_null := cache_null w;
     executed := executed w; stdout := stdout w |}.

Definition set_daily_summary (m : gmap string SummaryRow) (w : World) : World :=
  {| food_log := food_log w; food_log_seq := food_log_seq w;
     daily_summary := m;
     cache := cache w; cache_null := cache_null w;
     executed := executed w; stdout := stdout w |}.

Definition set_cache (m : gmap string pyval) (nulls : list pyval) (w : World) : World :=
  {| food_log := food_log w; food_log_seq := food_log_seq w;
     daily_summary := daily_summary w;
     cache := m; cache_null := nulls;
     executed := executed w; stdout := stdout w |}.

Definition add_executed (q : statement) (w : World) : World :=
  {| food_log := food_log w; food_log_seq := food_log_seq w;
     daily_summary := daily_summary w;
     cache := cache w; cache_null := cache_null w;
     executed := executed w ++ [q]; stdout := stdout w |}.

Definition add_stdout (l : line) (w : World) : World :=
  {| food_log := food_log w; food_log_seq := food_log_seq w;
     daily_summary := daily_summary w;
     cache := cache w; cache_null := cache_null w;
     executed := executed w; stdout := stdout w ++ [l] |}.

(** [cursor.execute] of a statement: recorded before its effect. *)
Definition execute (q : statement) : M unit := modify (add_executed q).

Definition print (l : line) : M unit := modify (add_stdout l).

(** ** What SQLite does with a parameter *)

Inductive sqlval : Type :=
| SqlNull
| SqlInteger (z : Z)
| SqlReal (f : float)
| SqlText (s : string).

(** The binding of a Python value by [sqlite3]: [None], ints within
    sixty-four bits, floats and strings are accepted.  A NaN is bound as
    NULL.  ([InterfaceError] is what older versions of the module raise for
    an unsupported type; recent ones raise [ProgrammingError].) *)
Definition adapt (v : pyval) : outcome sqlval :=
  match v with
  | PyNone => Ok SqlNull
  | PyBool b => Ok (SqlInteger (if b then 1 else 0))
  | PyInt z =>
      if (- 2 ^ 63 <=? z) && (z <? 2 ^ 63) then Ok (SqlInteger z)
      else Raise OverflowError
  | PyFloat f => Ok (if PrimFloat.is_nan f then SqlNull else SqlReal f)
  | PyStr s => Ok (SqlText s)
  | PyList _ | PyDict _ => Raise InterfaceError
  end.

Definition adapt_number (n : number) : outcome sqlval :=
  match n with
  | Int z => adapt (PyInt z)
  | Float f => adapt (PyFloat f)
  end.

(** A NOT NULL column refuses NULL. *)
Definition not_null {A} (o : option A) : outcome A :=
  match o with
  | Some a => Ok a
  | None => Raise IntegrityError
  end.

(** The value a column of REAL affinity keeps for a bound number: an
    integer becomes the nearest real. *)
Definition as_real (v : sqlval) : option float :=
  match v with
  | SqlInteger z => Some (Py.nearest_float z)
  | SqlReal f => Some f
  | SqlNull | SqlText _ => None
  end.

(** [WHERE timestamp >= lo AND timestamp < hi], texts compared byte by byte. *)
Definition in_range (lo hi : string) (r : LogRow) : bool :=
  String.leb lo (row_timestamp r) && String.ltb (row_timestamp r) hi.

(** The rows of [food_log] a range selects, in table order. *)
Definition rows_in (lo hi : string) (w : World) : list LogRow :=
  List.filter (in_range lo hi) (food_log w).

(** [ORDER BY id DESC LIMIT 1]. *)
Fixpoint last_by_id (rows : list LogRow) : option LogRow :=
  match rows with
  | [] => None
  | r :: rest =>
      match last_by_id rest with
      | Some r' => if row_id r <? row_id r' then Some r' else Some r
      | None => Some r
      end
  end.

(** [ORDER BY timestamp]: rows of equal timestamp stay in table order. *)
Fixpoint insert_by_timestamp (r : LogRow) (rows : list LogRow) : list LogRow :=
  match rows with
  | [] => [r]
  | r' :: rest =>
      if String.leb (row_timestamp r) (row_timestamp r')
      then r :: rows
      else r' :: insert_by_timestamp r rest
  end.

Definition order_by_timestamp (rows : list LogRow) : list LogRow :=
  fold_right insert_by_timestamp [] rows.

Definition max_id (rows : list LogRow) : Z :=
  fold_right (fun r m => Z.max (row_id r) m) 0 rows.

(** The id AUTOINCREMENT gives the next row: one more than the largest it
    has given and than any in the table. *)
Definition fresh_id (w : World) : Z :=
  Z.max (food_log_seq w) (max_id (food_log w)) + 1.

(** [DELETE FROM food_log WHERE id = ?]. *)
Definition without_id (i : Z) (rows : list LogRow) : list LogRow :=
  List.filter (fun r' => negb (row_id r' =? i)) rows.

(** [f"{x:.2f}"]: [None] has no such format. *)
Definition format_2f (x : option float) : outcome float :=
  match x with
  | Some f => Ok f
  | None => Raise TypeError
  end.

(** [paginate_output(text)] of [utils.py] shows the text ten lines at a
    time and waits for the Enter key between two pages. *)
Definition paginate_output (text : list line) : M unit := print (Paged text).

Section Program.

(** Two functions of SQLite are left open, and everything below holds for
    each choice of them: the text a column of TEXT affinity keeps for a
    real, and the sum [SUM] returns for the reals of a non-empty column
    (its rounding differs between versions of the library). *)
Variable real_to_text : float -> string.
Variable sql_sum : list float -> float.

(** The value a column of TEXT affinity keeps for a bound parameter, and
    the value a parameter is compared as against such a column. *)
Definition as_text (v : sqlval) : option string :=
  match v with
  | SqlNull => None
  | SqlInteger z => Some (pretty z)
  | SqlReal f => Some (real_to_text f)
  | SqlText s => Some s
  end.

(** [SUM(col)] over the selected rows: NULL when there is none, and a sum
    that is not a number is NULL as well. *)
Definition sum_of (col : LogRow -> float) (rows : list LogRow) : option float :=
  match rows with
  | [] => None
  | _ => let s := sql_sum (map col rows) in
         if PrimFloat.is_nan s then None else Some s
  end.

(** *** [cache.py] *)

Definition get_from_cache (food_item : pyval) : M pyval :=
  key <- lift (adapt food_item) ;;
  execute SelectCache ;;
  result <- get (fun w => k ← as_text key; cache w !! k) ;;
  match result with
  | Some nutrition_data => ret nutrition_data
  | None => ret PyNone
  end.

Definition add_to_cache (food_item : pyval) (nutrition_data : pyval) : M unit :=
  key <- lift (adapt food_item) ;;
  execute ReplaceCache ;;
  modify (fun w =>
    match as_text key with
    | Some k => set_cache (<[k := nutrition_data]> (cache w)) (cache_null w) w
    | None => set_cache (cache w) (cache_null w ++ [nutrition_data]) w
    end).

(** *** [main.py], both copies *)

(** [now] is the reading of the clock that stamps the row. *)
Definition save_entry (now : datetime) (data : Nutrition) : M unit :=
  fi <- lift (adapt (food_item data)) ;;
  q <- lift (adapt_number (quantity data)) ;;
  qu <- lift (adapt (quantity_unit data)) ;;
  cal <- lift (adapt (PyFloat (calories data))) ;;
  pro <- lift (adapt (PyFloat (protein data))) ;;
  car <- lift (adapt (PyFloat (carbs data))) ;;
  fa <- lift (adapt (PyFloat (fat data))) ;;
  execute InsertFoodLog ;;
  fi <- lift (not_null (as_text fi)) ;;
  q <- lift (not_null (as_real q)) ;;
  qu <- lift (not_null (as_text qu)) ;;
  cal <- lift (not_null (as_real cal)) ;;
  pro <- lift (not_null (as_real pro)) ;;
  car <- lift (not_null (as_real car)) ;;
  fa <- lift (not_null (as_real fa)) ;;
  modify (fun w =>
    let i := fresh_id w in
    set_food_log
      (food_log w ++
         [{| row_id := i; row_timestamp := isoformat now;
             row_food_item := fi; row_quantity := q; row_quantity_unit := qu;
             row_calories := cal; row_protein := pro;
             row_carbs := car; row_fat := fa |}])
      i w).

(** The [try] of [log_food], cut into the steps it takes one after the
    other.  [chain] answers the prompt ([chain.invoke]); [answer] is what
    [input] returns at the confirmation prompt. *)

(** The fence around the reply is removed when the reply has the opening
    [```json]. *)
Definition strip_fence (response_str : string) : outcome string :=
  (if Py.contains "```json" response_str
   then
     after <- Py.item (Py.split response_str "```json") 1 ;;
     inside <- Py.item (Py.split after "```") 0 ;;
     Ok (Py.strip inside)
   else Ok response_str)%out.

(** From the call of the chain to the three fields every run reads: the
    decoded reply, [food_item], [quantity] and [quantity_unit]. *)
Definition extract (chain : string -> outcome string) (text_input : string)
  : outcome (pyval * pyval * pyval * pyval) :=
  (response_str <- chain text_input ;;
   response_str <- strip_fence response_str ;;
   response_data <- Json.loads response_str ;;
   food_item <- Py.getitem response_data "food_item" ;;
   quantity <- Py.getitem response_data "quantity" ;;
   quantity_unit <- Py.getitem response_data "quantity_unit" ;;
   Ok (response_data, food_item, quantity, quantity_unit))%out.

(** The cache is asked first; the estimates of the reply are read, and
    stored, only when it has nothing for the label. *)
Definition resolve_profile (response_data food_item : pyval) : M pyval :=
  cached_nutrition <- get_from_cache food_item ;;
  if Py.truthy cached_nutrition
  then
    print CacheHit ;;
    ret cached_nutrition
  else
    c <- lift (Py.getitem response_data "calories_per_100g") ;;
    p <- lift (Py.getitem response_data "protein_per_100g") ;;
    cb <- lift (Py.getitem response_data "carbs_per_100g") ;;
    f <- lift (Py.getitem response_data "fat_per_100g") ;;
    let nutrition_per_100g :=
      PyDict [("calories", c); ("protein", p); ("carbs", cb); ("fat", f)] in
    add_to_cache food_item nutrition_per_100g ;;
    ret nutrition_per_100g.

(** The nutrition for the given quantity. *)
Definition calculate (food_item quantity quantity_unit nutrition_per_100g : pyval)
  : outcome Nutrition :=
  (multiplier <- Py.truediv quantity 100 ;;
   quantity <- Py.as_number quantity ;;
   c <- Py.getitem nutrition_per_100g "calories" ;;
   calories <- Py.mul c multiplier ;;
   p <- Py.getitem nutrition_per_100g "protein" ;;
   protein <- Py.mul p multiplier ;;
   cb <- Py.getitem nutrition_per_100g "carbs" ;;
   carbs <- Py.mul cb multiplier ;;
   f <- Py.getitem nutrition_per_100g "fat" ;;
   fat <- Py.mul f multiplier ;;
   Ok {| food_item := food_item; quantity := quantity;
         quantity_unit := quantity_unit;
         calories := calories; protein := protein;
         carbs := carbs; fat := fat |})%out.

(** The estimation is shown, and saved on the answer [y] or [Y] alone. *)
Definition confirm (answer : outcome string) (now : datetime)
    (calculated_nutrition : Nutrition) : M unit :=
  print (Estimation calculated_nutrition) ;;
  confirm <- lift answer ;;
  let confirm := Py.lower confirm in
  if String.eqb confirm "y"
  then
    save_entry now calculated_nutrition ;;
    print EntrySaved
  else print EntryDiscarded.

Definition log_food_try (chain : string -> outcome string) (text_input : string)
    (answer : outcome string) (now : datetime) : M unit :=
  draft <- lift (extract chain text_input) ;;
  let '(response_data, food_item, quantity, quantity_unit) := draft in
  nutrition_per_100g <- resolve_profile response_data food_item ;;
  calculated_nutrition <-
    lift (calculate food_item quantity quantity_unit nutrition_per_100g) ;;
  confirm answer now calculated_nutrition.

End Program.

(** *** [src/main.py] *)
Module Main.
Section Main.

Variable real_to_text : float -> string.
Variable sql_sum : list float -> float.

Definition log_food (chain : string -> outcome string) (text_input : string)
    (answer : outcome string) (now : datetime) : M unit :=
  try_except
    (log_food_try real_to_text chain text_input answer now)
    (fun e => print (CouldNotProcess e)).

Definition get_todays_summary (now : datetime) : M unit :=
  let today_start := midnight (on now) in
  tomorrow <- lift (next_day (on now)) ;;
  let today_end := midnight tomorrow in
  execute SelectSums ;;
  rows <- get (rows_in (isoformat today_start) (isoformat today_end)) ;;
  let summary :=
    (sum_of sql_sum row_calories rows, sum_of sql_sum row_protein rows,
     sum_of sql_sum row_carbs rows, sum_of sql_sum row_fat rows) in
  print TodaysSummary ;;
  match summary with
  | (Some c, p, cb, f) =>
      print (TotalCalories c) ;;
      p <- lift (format_2f p) ;;
      print (TotalProtein p) ;;
      cb <- lift (format_2f cb) ;;
      print (TotalCarbs cb) ;;
      f <- lift (format_2f f) ;;
      print (TotalFat f)
  | (None, _, _, _) => print NoEntriesForToday
  end ;;
  print EndOfSummary.

End Main.
End Main.

(** *** [src/src/mtracker/main.py] *)
Module Mtracker.
Section Mtracker.

Variable real_to_text : float -> string.
Variable sql_sum : list float -> float.

(** [chain] is [None] when no API key is configured. *)
Definition log_food (chain : option (string -> outcome string))
    (text_input : string) (answer : outcome string) (now : datetime) : M unit :=
  match chain with
  | None => print LlmNotInitialized
  | Some chain =>
      try_except
        (log_food_try real_to_text chain text_input answer now)
        (fun e => print (CouldNotProcess e))
  end.

(** [now] is the reading of the clock that dates the row. *)
Definition save_todays_summary (now : datetime)
    (summary_data : option float * option float * option float * option float)
  : M unit :=
  let today_date := strftime_Ymd now in
  let '(c, p, cb, f) := summary_data in
  execute ReplaceDailySummary ;;
  c <- lift (not_null c) ;;
  p <- lift (not_null p) ;;
  cb <- lift (not_null cb) ;;
  f <- lift (not_null f) ;;
  modify (fun w =>
    set_daily_summary
      (<[today_date :=
           {| total_calories := c; total_protein := p;
              total_carbs := cb; total_fat := f |}]> (daily_summary w))
      w).

Definition get_summary_for_date (date_str : string) : M unit :=
  match strptime_Ymd date_str with
  | Raise _ => print InvalidDateFormat
  | Ok date =>
      execute SelectDailySummary ;;
      summary <- get (fun w => daily_summary w !! date_isoformat date) ;;
      match summary with
      | Some r =>
          paginate_output
            [SummaryFor date;
             TotalCalories (total_calories r); TotalProtein (total_protein r);
             TotalCarbs (total_carbs r); TotalFat (total_fat r)]
      | None => print (NoSummaryFound date)
      end
  end.

(** [now] is the clock read by the function itself, [now_save] the clock
    read by [save_todays_summary]. *)
Definition get_todays_summary (now now_save : datetime) : M unit :=
  let today_start := midnight (on now) in
  tomorrow <- lift (next_day (on now)) ;;
  let today_end := midnight tomorrow in
  execute SelectSums ;;
  rows <- get (rows_in (isoformat today_start) (isoformat today_end)) ;;
  let summary :=
    (sum_of sql_sum row_calories rows, sum_of sql_sum row_protein rows,
     sum_of sql_sum row_carbs rows, sum_of sql_sum row_fat rows) in
  print TodaysSummary ;;
  match summary with
  | (Some c, p, cb, f) =>
      save_todays_summary now_save summary ;;
      print (TotalCalories c) ;;
      p <- lift (format_2f p) ;;
      print (TotalProtein p) ;;
      cb <- lift (format_2f cb) ;;
      print (TotalCarbs cb) ;;
      f <- lift (format_2f f) ;;
      print (TotalFat f)
  | (None, _, _, _) => print NoEntriesForToday
  end ;;
  print EndOfSummary.

(** [now] is the clock read by the function itself, [now_summary] and
    [now_save] the clocks read while the summary is updated. *)
Definition remove_last_entry (now now_summary now_save : datetime) : M unit :=
  let today_start := midnight (on now) in
  tomorrow <- lift (next_day (on now)) ;;
  let today_end := midnight tomorrow in
  execute SelectLast ;;
  last_entry <- get (fun w =>
    last_by_id (rows_in (isoformat today_start) (isoformat today_end) w)) ;;
  match last_entry with
  | Some r =>
      let entry_id := row_id r in
      print (RemovingLastEntry (row_food_item r) (row_quantity r) (row_quantity_unit r)) ;;
      execute DeleteFoodLog ;;
      modify (fun w =>
        set_food_log (without_id entry_id (food_log w)) (food_log_seq w) w) ;;
      print EntryRemoved ;;
      print UpdatingSummary ;;
      get_todays_summary now_summary now_save
  | None => print NoEntriesToRemove
  end.

End Mtracker.
End Mtracker.

(** *** [src/history.py] *)
Module History.

Definition get_meals_for_date (date_str : string) : M unit :=
  match strptime_Ymd date_str with
  | Raise _ => print InvalidDateFormat
  | Ok date =>
      let start_date := isoformat (midnight date) in
      let end_date := isoformat (last_instant date) in
      execute SelectMeals ;;
      meals <- get (fun w => order_by_timestamp (rows_in start_date end_date w)) ;;
      match meals with
      | _ :: _ => paginate_output (MealsFor date :: map Meal meals)
      | [] => print (NoMealsFound date)
      end
  end.

End History.

(** * Words for the statements *)

(** The answers [log_food] takes for a yes. *)
Definition affirmative (answer : outcome string) : bool :=
  match answer with
  | Ok a => String.eqb (Py.lower a) "y"
  | Raise _ => false
  end.

(** The numbers [save_entry] can store: an int within sixty-four bits, a
    float that is a number. *)
Definition number_fits (n : number) : bool :=
  match n with
  | Int z => (- 2 ^ 63 <=? z) && (z <? 2 ^ 63)
  | Float f => negb (PrimFloat.is_nan f)
  end.

(** The real such a number is stored as. *)
Definition number_real (n : number) : float :=
  match n with
  | Int z => Py.nearest_float z
  | Float f => f
  end.

(** The row a computation is stored as. *)
Definition row_of (i : Z) (now : datetime) (fi qu : string) (c : Nutrition) : LogRow :=
  {| row_id := i; row_timestamp := isoformat now;
     row_food_item := fi; row_quantity := number_real (quantity c);
     row_quantity_unit := qu;
     row_calories := calories c; row_protein := protein c;
     row_carbs := carbs c; row_fat := fat c |}.

(** The rows of the day of [now], as the summary and the removal select
    them; [tomorrow] is the day after. *)
Definition todays_rows (now : datetime) (tomorrow : date) (w : World) : list LogRow :=
  rows_in (isoformat (midnight (on now))) (isoformat (midnight tomorrow)) w.

(** The rows [get_meals_for_date] lists for a day. *)
Definition meals_of (d : date) (w : World) : list LogRow :=
  order_by_timestamp
    (rows_in (isoformat (midnight d)) (isoformat (last_instant d)) w).

(** Texts without a hyphen, and without a backtick. *)
Fixpoint no_hyphen (s : string) : bool :=
  match s with
  | EmptyString => true
  | String c s' => negb (Ascii.eqb c "-") && no_hyphen s'
  end.

Fixpoint no_backtick (s : string) : bool :=
  match s with
  | EmptyString => true
  | String c s' => negb (Ascii.eqb c "`") && no_backtick s'
  end.

Definition starts_with_backtick (s : string) : bool :=
  match s with
  | String c _ => Ascii.eqb c "`"
  | EmptyString => false
  end.

(** * Examples *)

(** Replies are written below with an apostrophe where the text has a double
    quote. *)
Definition json_text (s : string) : string :=
  let fix go (s : string) : string :=
    match s with
    | EmptyString => EmptyString
    | String c s' => String (if Ascii.eqb c "'" then Json.quote else c) (go s')
    end in
  go s.

(** The examples bind text labels only and never ask SQLite for the text of
    a real; they run with this stand-in. *)
Definition text_of_no_real (f : float) : string := "".

(** [SUM] as a running binary64 sum. *)
Definition running_sum (xs : list float) : float := fold_left PrimFloat.add xs 0%float.

Definition empty_world : World :=
  {| food_log := []; food_log_seq := 0; daily_summary := ∅;
     cache := ∅; cache_null := []; executed := []; stdout := [] |}.

Definition leap_day : date := {| year := 2024; month := 2; day := 29 |}.

Definition morning : datetime :=
  {| on := leap_day; hour := 9; minute := 5; second := 0; microsecond := 1500 |}.

Definition evening : datetime :=
  {| on := leap_day; hour := 21; minute := 30; second := 12; microsecond := 0 |}.

(** The reply of the worked example of the prompt, in a fence. *)
Definition banana_cake_reply : string :=
  json_text "Here is the result: ```json
{'food_item': 'banana cake', 'quantity': 175, 'quantity_unit': 'g', 'calories_per_100g': 300, 'protein_per_100g': 4, 'carbs_per_100g': 40, 'fat_per_100g': 14}
```".

Definition banana_cake_data : pyval :=
  PyDict [("food_item", PyStr "banana cake"); ("quantity", PyInt 175);
          ("quantity_unit", PyStr "g"); ("calories_per_100g", PyInt 300);
          ("protein_per_100g", PyInt 4); ("carbs_per_100g", PyInt 40);
          ("fat_per_100g", PyInt 14)].

Definition banana_cake_profile : pyval :=
  PyDict [("calories", PyInt 300); ("protein", PyInt 4);
          ("carbs", PyInt 40); ("fat", PyInt 14)].

Definition banana_cake_row : LogRow :=
  {| row_id := 1; row_timestamp := "2024-02-29T09:05:00.001500";
     row_food_item := "banana cake"; row_quantity := 175;
     row_quantity_unit := "g";
     row_calories := 525; row_protein := 7; row_carbs := 70; row_fat := 24.5 |}.

(** The banana cake in a fence that does not name its language, and a reply
    that leaves the estimates out. *)
Definition plain_fence_reply : string :=
  json_text "```
{'food_item': 'banana cake', 'quantity': 175, 'quantity_unit': 'g', 'calories_per_100g': 300, 'protein_per_100g': 4, 'carbs_per_100g': 40, 'fat_per_100g': 14}
```".

Definition plain_fence_inside : string :=
  json_text "{'food_item': 'banana cake', 'quantity': 175, 'quantity_unit': 'g', 'calories_per_100g': 300, 'protein_per_100g': 4, 'carbs_per_100g': 40, 'fat_per_100g': 14}".

Definition bare_reply : string :=
  json_text "{'food_item': 'banana cake', 'quantity': 100, 'quantity_unit': 'g'}".

(** The cache after the banana cake has been resolved once. *)
Definition cached_world : World :=
  fst (Main.log_food text_of_no_real (fun _ => Ok banana_cake_reply)
         "175g of banana cake" (Ok "n") morning empty_world).

(** The banana cake logged and summed, before it is removed. *)
Definition summed_world : World :=
  let w1 := fst (Mtracker.log_food text_of_no_real (Some (fun _ => Ok banana_cake_reply))
                   "175g of banana cake" (Ok "y") morning empty_world) in
  fst (Mtracker.get_todays_summary running_sum morning morning w1).


(** A day on which nothing but water was logged. *)
Definition water_row : LogRow :=
  {| row_id := 1; row_timestamp := "2024-02-29T08:00:00";
     row_food_item := "water"; row_quantity := 250; row_quantity_unit := "ml";
     row_calories := 0; row_protein := 0; row_carbs := 0; row_fat := 0 |}.

Definition water_world : World :=
  {| food_log := [water_row]; food_log_seq := 1; daily_summary := ∅;
     cache := ∅; cache_null := []; executed := []; stdout := [] |}.

(** A log with a supper of the day before and two meals of the day. *)
Definition supper_row : LogRow :=
  {| row_id := 1; row_timestamp := "2024-02-28T20:15:00";
     row_food_item := "lasagne"; row_quantity := 400; row_quantity_unit := "g";
     row_calories := 540; row_protein := 28; row_carbs := 60; row_fat := 20 |}.

Definition rice_row : LogRow :=
  {| row_id := 3; row_timestamp := "2024-02-29T13:00:00.250000";
     row_food_item := "rice"; row_quantity := 200; row_quantity_unit := "g";
     row_calories := 260; row_protein := 5.5; row_carbs := 56.5; row_fat := 0.5 |}.

Definition two_meals_world : World :=
  {| food_log :=
       [supper_row;
        {| row_id := 2; row_timestamp := "2024-02-29T09:05:00.001500";
           row_food_item := "banana cake"; row_quantity := 175;
           row_quantity_unit := "g";
           row_calories := 525; row_protein := 7; row_carbs := 70; row_fat := 24.5 |};
        rice_row];
     food_log_seq := 3; daily_summary := ∅;
     cache := ∅; cache_null := []; executed := []; stdout := [] |}.

(** * The rest of the program *)

(** ** [src/src/mtracker/utils.py]

    [paginate_output] on the text itself: what it shows, and what it reads
    from the keyboard. *)
Module Utils.

(** What reaches the console: a page, or the prompt that waits for the
    Enter key. *)
Inductive shown : Type :=
| Page (text : string)
| PressEnter.

Definition newline : string := String "010" "".

Definition page_length : nat := 10.

(** The loop [for i in range(0, len(lines), page_length)], at index [i].
    [stdin] holds the lines the keyboard still has to give: [input] takes
    the first, and raises [EOFError] when there is none, which ends the
    loop.  A turn of the loop moves [i] forward, so [fuel] turns are enough
    when [fuel] is the number of lines. *)
Fixpoint pages (fuel : nat) (i : nat) (lines stdin : list string)
  : list shown * list string :=
  match fuel with
  | O => ([], stdin)
  | S fuel =>
      if (i <? length lines)%nat
      then
        let page := firstn page_length (skipn i lines) in
        let out := Page (String.concat newline page) in
        if (i + page_length <? length lines)%nat
        then
          match stdin with
          | [] => ([out; PressEnter], [])
          | _ :: stdin =>
              let '(outs, stdin) := pages fuel (i + page_length) lines stdin in
              (out :: PressEnter :: outs, stdin)
          end
        else
          let '(outs, stdin) := pages fuel (i + page_length) lines stdin in
          (out :: outs, stdin)
      else ([], stdin)
  end.

Definition paginate_output (text : string) (stdin : list string)
  : list shown * list string :=
  let lines := Py.split text newline in
  pages (length lines) 0 lines stdin.

End Utils.

(** ** [main], both copies

    A run of [main] is given what the outside supplies while it runs: the
    lines typed at its prompts, the replies of the chain, the readings of
    the clock.  [init_db] creates the tables that are missing and leaves
    the others as they are; a [World] has all of them, so it is not a step
    of its own here. *)
Module Console.

(** What the outside supplies during one call of a function of the
    program: the chain's reply to a prompt, the answer at the confirmation,
    and the readings of the clock in the order they are taken. *)
Record Outside : Type :=
  { reply : string -> outcome string;
    answer : outcome string;
    reading1 : datetime;
    reading2 : datetime;
    reading3 : datetime }.

(** One turn of the menu: the choice typed at the prompt, the line typed at
    the prompt that follows it (the food entry or the date), and what the
    function called needs. *)
Record Turn : Type :=
  { choice : outcome string;
    typed : outcome string;
    outside : Outside }.

(** The three lines [setup_environment] asks for. *)
Record Setup : Type :=
  { api_key : outcome string;
    base_url : outcome string;
    model_name : outcome string }.

(** The command line as [argparse] returns it. *)
Record Args : Type :=
  { setup : bool;
    remove : option string;
    food_input : option string }.

(** What [main] and [setup_environment] print themselves, beside what the
    functions they call print ([Said]).  [Menu] is the question and its
    numbered choices. *)
Inductive shown : Type :=
| Said (l : line)
| Menu
| InvalidChoice
| UnsupportedRemoveArgument (arg : string)
| EnvFileNotFound
| PleaseProvide
| EnvFileCreated
| PleaseRestart.

(** The tables, the file [.env] (its text, when it exists) and the console. *)
Record Session : Type :=
  { world : World;
    env_file : option string;
    console : list shown }.

(** How a run ends: it returns, an exception leaves it, [sys.exit] is
    called, or it waits at a prompt for a line that has not been typed. *)
Inductive ending : Type :=
| Returned
| Raised (e : exn)
| Exited (status : Z)
| Waiting.

Definition say (x : shown) (s : Session) : Session :=
  {| world := world s; env_file := env_file s; console := console s ++ [x] |}.

Definition write_env (text : string) (s : Session) : Session :=
  {| world := world s; env_file := Some text; console := console s |}.

(** A call of a function of the program: it runs on the tables, and what
    it prints goes to the console. *)
Definition call (f : M unit) (s : Session) : Session * outcome unit :=
  let '(w, r) := f (world s) in
  ({| world := w; env_file := env_file s;
      console := console s ++ map Said (skipn (length (stdout (world s))) (stdout w)) |},
   r).

(** What follows a call: the rest of the caller, unless an exception
    leaves the call. *)
Definition and_on (r : Session * outcome unit) (k : Session -> Session * ending)
  : Session * ending :=
  match r with
  | (s, Ok _) => k s
  | (s, Raise e) => (s, Raised e)
  end.

(** [if a:] for an optional text: [None] and the empty text are false. *)
Definition given (a : option string) : option string :=
  match a with
  | Some s => if String.eqb s "" then None else Some s
  | None => None
  end.

End Console.

(** *** [src/main.py] *)
Module MainMenu.
Import Console.
Section MainMenu.

Variable real_to_text : float -> string.
Variable sql_sum : list float -> float.

(** The loop of [main]. *)
Fixpoint menu (turns : list Turn) (s : Session) : Session * ending :=
  let s := say Menu s in
  match turns with
  | [] => (s, Waiting)
  | t :: turns =>
      match choice t with
      | Raise e => (s, Raised e)
      | Ok choice =>
          if String.eqb choice "1"
          then
            match typed t with
            | Raise e => (s, Raised e)
            | Ok food_input =>
                and_on
                  (call (Main.log_food real_to_text (reply (outside t)) food_input
                           (answer (outside t)) (reading1 (outside t))) s)
                  (menu turns)
            end
          else if String.eqb choice "2"
          then
            and_on (call (Main.get_todays_summary sql_sum (reading1 (outside t))) s)
              (menu turns)
          else if String.eqb choice "3"
          then (s, Returned)
          else menu turns (say InvalidChoice s)
      end
  end.

Definition main (turns : list Turn) (s : Session) : Session * ending :=
  menu turns s.

End MainMenu.
End MainMenu.

(** *** [src/src/mtracker/main.py] *)
Module MtrackerMenu.
Import Console.
Section MtrackerMenu.

Variable real_to_text : float -> string.
Variable sql_sum : list float -> float.

(** [configured] tells whether the environment holds an API key: without
    one the module leaves [chain] at [None]. *)
Variable configured : bool.

Definition chain (o : Outside) : option (string -> outcome string) :=
  if configured then Some (reply o) else None.

Definition setup_environment (keys : Setup) (s : Session) : Session * ending :=
  match env_file s with
  | Some _ => (s, Returned)
  | None =>
      let s := say PleaseProvide (say EnvFileNotFound s) in
      match api_key keys with
      | Raise e => (s, Raised e)
      | Ok openai_api_key =>
          match base_url keys with
          | Raise e => (s, Raised e)
          | Ok openai_base_url =>
              match model_name keys with
              | Raise e => (s, Raised e)
              | Ok openai_model =>
                  let text :=
                    ("OPENAI_API_KEY=" ++ openai_api_key ++ Utils.newline) ++
                    (if String.eqb openai_base_url "" then ""
                     else "OPENAI_BASE_URL=" ++ openai_base_url ++ Utils.newline) ++
                    (if String.eqb openai_model "" then ""
                     else "OPENAI_MODEL=" ++ openai_model ++ Utils.newline) in
                  let s := write_env text s in
                  let s := say PleaseRestart (say EnvFileCreated s) in
                  (s, Exited 0)
              end
          end
      end
  end.

(** The interactive mode. *)
Fixpoint menu (turns : list Turn) (s : Session) : Session * ending :=
  let s := say Menu s in
  match turns with
  | [] => (s, Waiting)
  | t :: turns =>
      match choice t with
      | Raise e => (s, Raised e)
      | Ok choice =>
          if String.eqb choice "1"
          then
            match typed t with
            | Raise e => (s, Raised e)
            | Ok food_input =>
                and_on
                  (call (Mtracker.log_food real_to_text (chain (outside t)) food_input
                           (answer (outside t)) (reading1 (outside t))) s)
                  (menu turns)
            end
          else if String.eqb choice "2"
          then
            and_on
              (call (Mtracker.get_todays_summary sql_sum (reading1 (outside t))
                       (reading2 (outside t))) s)
              (menu turns)
          else if String.eqb choice "3"
          then
            match typed t with
            | Raise e => (s, Raised e)
            | Ok date_input =>
                and_on (call (Mtracker.get_summary_for_date date_input) s) (menu turns)
            end
          else if String.eqb choice "4"
          then
            match typed t with
            | Raise e => (s, Raised e)
            | Ok date_input =>
                and_on (call (History.get_meals_for_date date_input) s) (menu turns)
            end
          else if String.eqb choice "5"
          then (s, Returned)
          else menu turns (say InvalidChoice s)
      end
  end.

(** [main]: [o] is what the outside supplies to the one function a command
    line with arguments calls, [turns] what is typed in the interactive
    mode. *)
Definition main (args : Args) (keys : Setup) (o : Outside) (turns : list Turn)
    (s : Session) : Session * ending :=
  if setup args
  then setup_environment keys s
  else
    match given (remove args) with
    | Some item =>
        if String.eqb item "last"
        then
          and_on
            (call (Mtracker.remove_last_entry sql_sum (reading1 o) (reading2 o)
                     (reading3 o)) s)
            (fun s => (s, Returned))
        else (say (UnsupportedRemoveArgument item) s, Returned)
    | None =>
        match given (food_input args) with
        | Some text =>
            and_on
              (call (Mtracker.log_food real_to_text (chain o) text (answer o)
                       (reading1 o)) s)
              (fun s => (s, Returned))
        | None => menu turns s
        end
    end.

End MtrackerMenu.
End MtrackerMenu.

(** ** More words for the statements *)

(** The texts of the pages among what [paginate_output] shows, and the
    number of its prompts. *)
Fixpoint page_texts (l : list Utils.shown) : list string :=
  match l with
  | [] => []
  | Utils.Page text :: l => text :: page_texts l
  | Utils.PressEnter :: l => page_texts l
  end.

Fixpoint prompts (l : list Utils.shown) : nat :=
  match l with
  | [] => O
  | Utils.Page _ :: l => prompts l
  | Utils.PressEnter :: l => S (prompts l)
  end.

(** The ids of the log grow along the table, and none is above the
    counter: what a table with an AUTOINCREMENT key looks like. *)
Fixpoint increasing (ids : list Z) : Prop :=
  match ids with
  | [] => True
  | i :: rest => Forall (fun j => i < j) rest /\ increasing rest
  end.

Definition well_keyed (w : World) : Prop :=
  increasing (map row_id (food_log w)) /\
  Forall (fun r => row_id r <= food_log_seq w) (food_log w).

(** A profile [calculate] can use: the four macro fields are there and hold
    numbers that floats can take. *)
Definition field_usable (profile : pyval) (k : string) : bool :=
  match Py.getitem profile k with
  | Ok v => match Py.as_float v with Ok _ => true | Raise _ => false end
  | Raise _ => false
  end.

Definition usable (profile : pyval) : bool :=
  field_usable profile "calories" && field_usable profile "protein" &&
  field_usable profile "carbs" && field_usable profile "fat".

(** Timestamps in order. *)
Fixpoint by_timestamp (rows : list LogRow) : Prop :=
  match rows with
  | [] => True
  | r :: rest =>
      match rest with
      | [] => True
      | r' :: _ => String.leb (row_timestamp r) (row_timestamp r') = true
      end /\
      by_timestamp rest
  end.

(** A row stamped at [t]. *)
Definition stamped (t : datetime) (r : LogRow) : Prop := row_timestamp r = isoformat t.

(** The last instant of its day. *)
Definition is_last_instant (t : datetime) : bool :=
  (hour t =? 23) && (minute t =? 59) && (second t =? 59) && (microsecond t =? 999999).

(** The tables are what they were. *)
Definition same_tables (w w' : World) : Prop :=
  food_log w' = food_log w /\ food_log_seq w' = food_log_seq w /\
  daily_summary w' = daily_summary w /\
  cache w' = cache w /\ cache_null w' = cache_null w.

(** The lines of a text, and the number of prompts they call for: one
    after each page that has lines behind it. *)
Definition lines_of (text : string) : list string := Py.split text Utils.newline.

Definition waits_from (i : nat) (lines : list string) : nat :=
  ((length lines - i - 1) / 10)%nat.

Definition waits (text : string) : nat := waits_from 0 (lines_of text).

(** What a session must not undo: the log keeps its rows, in their order,
    at its head ([grown]); it stays well keyed, and a profile the cache
    holds stays the profile of its label ([kept]). *)
Definition grown (w w' : World) : Prop :=
  exists more, food_log w' = (food_log w ++ more)%list.

Definition kept (w w' : World) : Prop :=
  (well_keyed w -> well_keyed w') /\
  (forall s v, cache w !! s = Some v -> Py.truthy v = true -> cache w' !! s = Some v).

(** What a session of the menu respects, in the extended copy and in the
    simple one, which has no function that writes a summary. *)
Definition safe (w w' : World) : Prop := grown w w' /\ kept w w'.

Definition simple_safe (w w' : World) : Prop :=
  grown w w' /\ kept w w' /\ daily_summary w' = daily_summary w.

(** ** More examples *)

(** A reply that gives the calories of the banana cake as a text. *)
Definition worded_reply : string :=
  json_text "{'food_item': 'banana cake', 'quantity': 175, 'quantity_unit': 'g', 'calories_per_100g': '300 kcal', 'protein_per_100g': 4, 'carbs_per_100g': 40, 'fat_per_100g': 14}".

Definition worded_data : pyval :=
  PyDict [("food_item", PyStr "banana cake"); ("quantity", PyInt 175);
          ("quantity_unit", PyStr "g"); ("calories_per_100g", PyStr "300 kcal");
          ("protein_per_100g", PyInt 4); ("carbs_per_100g", PyInt 40);
          ("fat_per_100g", PyInt 14)].

Definition worded_profile : pyval :=
  PyDict [("calories", PyStr "300 kcal"); ("protein", PyInt 4);
          ("carbs", PyInt 40); ("fat", PyInt 14)].

(** The cache after that reply has been processed once. *)
Definition worded_world : World :=
  fst (Main.log_food text_of_no_real (fun _ => Ok worded_reply)
         "175g of banana cake" (Ok "y") morning empty_world).

(** The day after the leap day, and the two instants around the midnight
    between them. *)
Definition first_of_march : date := {| year := 2024; month := 3; day := 1 |}.

Definition before_midnight : datetime := last_instant leap_day.

Definition after_midnight : datetime := midnight first_of_march.

(** A log with one entry, stamped at the last instant of the leap day. *)
Definition late_row : LogRow :=
  {| row_id := 1; row_timestamp := "2024-02-29T23:59:59.999999";
     row_food_item := "tea"; row_quantity := 200; row_quantity_unit := "ml";
     row_calories := 2; row_protein := 0; row_carbs := 0.5; row_fat := 0 |}.

Definition late_world : World :=
  {| food_log := [late_row]; food_log_seq := 1; daily_summary := ∅;
     cache := ∅; cache_null := []; executed := []; stdout := [] |}.

(** A text of twelve lines. *)
Definition twelve_lines : string :=
  "line 1
line 2
line 3
line 4
line 5
line 6
line 7
line 8
line 9
line 10
line 11
line 12".

(** * Properties *)

(** ** Texts compared byte by byte *)

Lemma ascii_compare_refl (c : ascii) : Ascii.compare c c = Eq.
Proof. unfold Ascii.compare. apply N.compare_refl. Qed.

Lemma string_compare_refl (s : string) : String.compare s s = Eq.
Proof. induction s as [|c s IH]; simpl; [reflexivity|]. now rewrite ascii_compare_refl. Qed.

(** Two texts that begin with fields of one length are ordered by the
    fields, and by what follows when the fields are equal. *)
Lemma string_compare_app (a b s t : string) :
  String.length a = String.length b ->
  String.compare (a ++ s) (b ++ t) =
    match String.compare a b with
    | Eq => String.compare s t
    | c => c
    end.
Proof.
  revert b. induction a as [|x a IH]; intros [|y b] Hlen; simpl in *;
    try discriminate; [reflexivity|].
  destruct (Ascii.compare x y); try reflexivity.
  apply IH. now injection Hlen.
Qed.

Lemma string_app_cons (c : ascii) (s t : string) : String c s ++ t = String c (s ++ t).
Proof. reflexivity. Qed.

Lemma string_app_nil (t : string) : "" ++ t = t.
Proof. reflexivity. Qed.

Lemma string_length_app (s t : string) :
  String.length (s ++ t) = (String.length s + String.length t)%nat.
Proof. induction s as [|c s IH]; [reflexivity|]. rewrite string_app_cons. simpl. now rewrite IH. Qed.

Lemma pad_length (w : nat) (n : Z) : String.length (pad w n) = w.
Proof. revert n. induction w as [|w IH]; intros n; simpl; [reflexivity|]. now rewrite IH. Qed.

Lemma digit_cases (a : Z) :
  0 <= a < 10 ->
  a = 0 \/ a = 1 \/ a = 2 \/ a = 3 \/ a = 4 \/ a = 5 \/ a = 6 \/ a = 7 \/ a = 8 \/ a = 9.
Proof. lia. Qed.

Lemma digit_char_compare (a b : Z) :
  0 <= a < 10 -> 0 <= b < 10 ->
  Ascii.compare (digit_char a) (digit_char b) = Z.compare a b.
Proof.
  intros Ha Hb.
  destruct (digit_cases a Ha) as [->|[->|[->|[->|[->|[->|[->|[->|[->| ->]]]]]]]]];
    destruct (digit_cases b Hb) as [->|[->|[->|[->|[->|[->|[->|[->|[->| ->]]]]]]]]];
    reflexivity.
Qed.

Lemma pow10_pos (w : nat) : 0 < 10 ^ Z.of_nat w.
Proof. apply Z.pow_pos_nonneg; lia. Qed.

(** Zero-filled numbers of one width are ordered as the numbers. *)
Lemma pad_compare (w : nat) (a b : Z) :
  0 <= a < 10 ^ Z.of_nat w -> 0 <= b < 10 ^ Z.of_nat w ->
  String.compare (pad w a) (pad w b) = Z.compare a b.
Proof.
  revert a b. induction w as [|w IH]; intros a b Ha Hb.
  - simpl in *. assert (a = 0) by lia. assert (b = 0) by lia. now subst.
  - cbn [pad String.compare].
    pose proof (pow10_pos w) as Hp.
    set (p := 10 ^ Z.of_nat w) in *.
    assert (Hs : 10 ^ Z.of_nat (S w) = 10 * p).
    { unfold p. rewrite Nat2Z.inj_succ, Z.pow_succ_r; lia. }
    rewrite Hs in Ha, Hb.
    assert (Hqa : 0 <= a / p < 10).
    { split; [apply Z.div_pos; lia | apply Z.div_lt_upper_bound; lia]. }
    assert (Hqb : 0 <= b / p < 10).
    { split; [apply Z.div_pos; lia | apply Z.div_lt_upper_bound; lia]. }
    pose proof (Z.mod_pos_bound a p Hp) as Hra.
    pose proof (Z.mod_pos_bound b p Hp) as Hrb.
    pose proof (Z.div_mod a p ltac:(lia)) as Ea.
    pose proof (Z.div_mod b p ltac:(lia)) as Eb.
    rewrite digit_char_compare by assumption.
    destruct (Z.compare_spec (a / p) (b / p)) as [E|L|G].
    + rewrite IH by assumption.
      destruct (Z.compare_spec (a mod p) (b mod p)); symmetry;
        [apply Z.compare_eq_iff | apply Z.compare_lt_iff | apply Z.compare_gt_iff]; nia.
    + symmetry. apply Z.compare_lt_iff. nia.
    + symmetry. apply Z.compare_gt_iff. nia.
Qed.

Lemma date_isoformat_length (d : date) : String.length (date_isoformat d) = 10%nat.
Proof.
  unfold date_isoformat. rewrite !string_length_app, !pad_length. reflexivity.
Qed.

Lemma next_day_valid (d d' : date) :
  valid_date d = true -> next_day d = Ok d' -> valid_date d' = true.
Proof.
  unfold valid_date, next_day. intros Hv.
  repeat (apply andb_prop in Hv as [Hv ?]).
  destruct (day d <? days_in_month (year d) (month d)) eqn:E1.
  - intros [= <-]. simpl. 
    repeat (apply andb_true_intro; split); lia.
  - destruct (month d <? 12) eqn:E2.
    + intros [= <-]. simpl.
      assert (1 <= days_in_month (year d) (month d + 1)).
      { unfold days_in_month. repeat match goal with |- context [if ?b then _ else _] => destruct b end; lia. }
      repeat (apply andb_true_intro; split); lia.
    + destruct (year d <? 9999) eqn:E3; [|discriminate].
      intros [= <-]. simpl.
      repeat (apply andb_true_intro; split); try lia. reflexivity.
Qed.

(** The day after is written later. *)
Lemma next_day_later (d d' : date) :
  valid_date d = true -> next_day d = Ok d' ->
  String.compare (date_isoformat d) (date_isoformat d') = Lt.
Proof.
  intros Hv Hn. pose proof (next_day_valid _ _ Hv Hn) as Hv'.
  unfold valid_date in Hv, Hv'.
  repeat (apply andb_prop in Hv as [Hv ?]).
  repeat (apply andb_prop in Hv' as [Hv' ?]).
  assert (Hdim : forall y m, days_in_month y m <= 31).
  { intros y m. unfold days_in_month.
    repeat match goal with |- context [if ?b then _ else _] => destruct b end; lia. }
  pose proof (Hdim (year d) (month d)). pose proof (Hdim (year d') (month d')).
  unfold date_isoformat.
  rewrite string_compare_app by (now rewrite !pad_length).
  rewrite pad_compare by (simpl; lia).
  rewrite (string_compare_app "-" "-") by reflexivity. simpl (String.compare "-" "-").
  rewrite string_compare_app by (now rewrite !pad_length).
  rewrite pad_compare by (simpl; lia).
  rewrite (string_compare_app "-" "-") by reflexivity. simpl (String.compare "-" "-").
  rewrite pad_compare by (simpl; lia).
  unfold next_day in Hn.
  destruct (day d <? days_in_month (year d) (month d)) eqn:E1.
  - injection Hn as <-. simpl. rewrite !Z.compare_refl. apply Z.compare_lt_iff. lia.
  - destruct (month d <? 12) eqn:E2.
    + injection Hn as <-. simpl. rewrite Z.compare_refl.
      assert ((month d ?= month d + 1) = Lt) as -> by (apply Z.compare_lt_iff; lia).
      reflexivity.
    + destruct (year d <? 9999) eqn:E3; [|discriminate].
      injection Hn as <-. simpl.
      assert ((year d ?= year d + 1) = Lt) as -> by (apply Z.compare_lt_iff; lia).
      reflexivity.
Qed.

Lemma valid_on (t : datetime) : valid t = true -> valid_date (on t) = true.
Proof. unfold valid. rewrite !andb_true_iff. tauto. Qed.

(** An instant lies in the range of its own day: not before the midnight
    that opens it, and before the midnight that opens the next. *)
Lemma instant_in_its_day (t : datetime) (tomorrow : date) :
  valid t = true -> next_day (on t) = Ok tomorrow ->
  String.leb (isoformat (midnight (on t))) (isoformat t) = true /\
  String.ltb (isoformat t) (isoformat (midnight tomorrow)) = true.
Proof.
  intros Hv Hn.
  pose proof (valid_on _ Hv) as Hd.
  unfold valid in Hv.
  repeat (apply andb_prop in Hv as [Hv ?]).
  split.
  - unfold String.leb, isoformat, midnight. cbn [on hour minute second microsecond].
    rewrite string_compare_app by reflexivity. rewrite string_compare_refl.
    rewrite (string_compare_app "T" "T") by reflexivity. simpl (String.compare "T" "T").
    rewrite string_compare_app by (now rewrite !pad_length).
    rewrite pad_compare by (simpl; lia).
    rewrite (string_compare_app ":" ":") by reflexivity. simpl (String.compare ":" ":").
    rewrite string_compare_app by (now rewrite !pad_length).
    rewrite pad_compare by (simpl; lia).
    rewrite (string_compare_app ":" ":") by reflexivity. simpl (String.compare ":" ":").
    rewrite string_compare_app by (now rewrite !pad_length).
    rewrite pad_compare by (simpl; lia).
    destruct (Z.compare_spec 0 (hour t)); try lia; try reflexivity.
    destruct (Z.compare_spec 0 (minute t)); try lia; try reflexivity.
    destruct (Z.compare_spec 0 (second t)); try lia; try reflexivity.
    simpl (0 =? 0).
    destruct (microsecond t =? 0); reflexivity.
  - unfold String.ltb, isoformat, midnight. cbn [on].
    rewrite string_compare_app by (now rewrite !date_isoformat_length).
    now rewrite (next_day_later _ _ Hd Hn).
Qed.

(** ** A written date is read back *)

Lemma split_go_last (s acc : string) :
  no_hyphen s = true ->
  Py.split_go "-" 0 acc s = [String.rev_app acc s].
Proof.
  revert acc. induction s as [|c s IH]; intros acc Hs; [reflexivity|].
  simpl in Hs. apply andb_prop in Hs as [Hc Hs].
  cbn [Py.split_go String.prefix].
  destruct (ascii_dec "-" c) as [<-|_]; [discriminate|].
  now rewrite IH.
Qed.

Lemma split_go_field (s acc rest : string) :
  no_hyphen s = true ->
  Py.split_go "-" 0 acc (s ++ String "-" rest) =
    String.rev_app acc s :: Py.split_go "-" 0 "" rest.
Proof.
  revert acc. induction s as [|c s IH]; intros acc Hs.
  - rewrite string_app_nil. cbn [Py.split_go String.prefix].
    destruct (ascii_dec "-" "-") as [_|N]; [|now elim N].
    destruct rest; reflexivity.
  - simpl in Hs. apply andb_prop in Hs as [Hc Hs].
    rewrite string_app_cons. cbn [Py.split_go String.prefix].
    destruct (ascii_dec "-" c) as [<-|_]; [discriminate|].
    now rewrite IH.
Qed.

Lemma split_three_fields (a b c : string) :
  no_hyphen a = true -> no_hyphen b = true -> no_hyphen c = true ->
  Py.split (a ++ "-" ++ b ++ "-" ++ c) "-" = [a; b; c].
Proof.
  intros Ha Hb Hc. unfold Py.split.
  change ("-" ++ b ++ "-" ++ c) with (String "-" (b ++ String "-" c)).
  rewrite (split_go_field a) by assumption.
  rewrite (split_go_field b) by assumption.
  now rewrite split_go_last.
Qed.

Lemma digit_char_no_hyphen (q : Z) :
  0 <= q < 10 -> Ascii.eqb (digit_char q) "-" = false.
Proof.
  intros Hq.
  destruct (digit_cases q Hq) as [->|[->|[->|[->|[->|[->|[->|[->|[->| ->]]]]]]]]];
    reflexivity.
Qed.

Lemma pad_no_hyphen (w : nat) (n : Z) :
  0 <= n < 10 ^ Z.of_nat w -> no_hyphen (pad w n) = true.
Proof.
  revert n. induction w as [|w IH]; intros n Hn; [reflexivity|].
  cbn [pad no_hyphen].
  pose proof (pow10_pos w) as Hp.
  set (p := 10 ^ Z.of_nat w) in *.
  assert (Hs : 10 ^ Z.of_nat (S w) = 10 * p).
  { unfold p. rewrite Nat2Z.inj_succ, Z.pow_succ_r; lia. }
  rewrite Hs in Hn.
  rewrite digit_char_no_hyphen, IH; try reflexivity.
  - apply Z.mod_pos_bound; lia.
  - split; [apply Z.div_pos; lia | apply Z.div_lt_upper_bound; lia].
Qed.

Lemma digit_of_digit_char (q : Z) :
  0 <= q < 10 -> Json.digit (digit_char q) = Some q.
Proof.
  intros Hq.
  destruct (digit_cases q Hq) as [->|[->|[->|[->|[->|[->|[->|[->|[->| ->]]]]]]]]];
    reflexivity.
Qed.

(** The year is read back digit by digit. *)
Lemma field_Y_pad (y : Z) : 0 <= y < 10000 -> field_Y (pad 4 y) = Some y.
Proof.
  intros Hy. cbn [pad field_Y].
  change (10 ^ Z.of_nat 3) with 1000. change (10 ^ Z.of_nat 2) with 100.
  change (10 ^ Z.of_nat 1) with 10. change (10 ^ Z.of_nat 0) with 1.
  rewrite !digit_of_digit_char by (Z.div_mod_to_equations; lia).
  f_equal. Z.div_mod_to_equations. lia.
Qed.

(** The month and the day are checked over the whole of their ranges. *)
Lemma field_m_pad (m : Z) : 1 <= m <= 12 -> field_m (pad 2 m) = Some m.
Proof.
  intros Hm.
  assert (H : forallb (fun n => match field_m (pad 2 (Z.of_nat n)) with
                                | Some v => v =? Z.of_nat n
                                | None => false
                                end) (List.seq 1 12) = true)
    by (vm_compute; reflexivity).
  rewrite forallb_forall in H.
  specialize (H (Z.to_nat m)). rewrite Z2Nat.id in H by lia.
  destruct (field_m (pad 2 m)) as [v|].
  - f_equal. apply Z.eqb_eq, H, in_seq. lia.
  - discriminate H. apply in_seq. lia.
Qed.

Lemma field_d_pad (d : Z) : 1 <= d <= 31 -> field_d (pad 2 d) = Some d.
Proof.
  intros Hd.
  assert (H : forallb (fun n => match field_d (pad 2 (Z.of_nat n)) with
                                | Some v => v =? Z.of_nat n
                                | None => false
                                end) (List.seq 1 31) = true)
    by (vm_compute; reflexivity).
  rewrite forallb_forall in H.
  specialize (H (Z.to_nat d)). rewrite Z2Nat.id in H by lia.
  destruct (field_d (pad 2 d)) as [v|].
  - f_equal. apply Z.eqb_eq, H, in_seq. lia.
  - discriminate H. apply in_seq. lia.
Qed.

Lemma days_in_month_le (y m : Z) : days_in_month y m <= 31.
Proof.
  unfold days_in_month.
  repeat match goal with |- context [if ?b then _ else _] => destruct b end; lia.
Qed.

Lemma strptime_isoformat (d : date) :
  valid_date d = true -> strptime_Ymd (date_isoformat d) = Ok d.
Proof.
  intros Hv. pose proof Hv as Hv'. unfold valid_date in Hv'.
  rewrite !andb_true_iff in Hv'.
  pose proof (days_in_month_le (year d) (month d)).
  unfold strptime_Ymd, date_isoformat.
  rewrite split_three_fields by (apply pad_no_hyphen; simpl; lia).
  rewrite field_Y_pad, field_m_pad, field_d_pad by lia.
  destruct d as [y m dd]. simpl in *. now rewrite Hv.
Qed.

(** ** Running the program *)

Ltac unfold_prog :=
  unfold bind, lift, ret, raise, get, modify, print, execute, try_except,
    paginate_output, and_then in *.

(** Case analysis on whatever the run branches on next. *)
Ltac any_step :=
  match goal with
  | |- context [match ?o with Ok _ => _ | Raise _ => _ end] =>
      let E := fresh "E" in destruct o eqn:E
  | |- context [match ?o with Some _ => _ | None => _ end] =>
      let E := fresh "E" in destruct o eqn:E
  | |- context [if ?b then _ else _] =>
      let E := fresh "E" in destruct b eqn:E
  end.

(** [save_entry] writes to [food_log] alone, and only when it returns. *)
Lemma save_entry_frame rt now c w w' r :
  save_entry rt now c w = (w', r) ->
  stdout w' = stdout w /\ cache w' = cache w /\
  daily_summary w' = daily_summary w /\
  (forall e, r = Raise e -> food_log w' = food_log w).
Proof.
  unfold save_entry. unfold_prog. cbn.
  repeat (any_step; cbn);
    intros [= <- <-]; cbn; repeat split; try reflexivity; try discriminate.
Qed.

Lemma save_entry_ok rt now c w fi qu :
  food_item c = PyStr fi -> quantity_unit c = PyStr qu ->
  number_fits (quantity c) = true ->
  PrimFloat.is_nan (calories c) = false -> PrimFloat.is_nan (protein c) = false ->
  PrimFloat.is_nan (carbs c) = false -> PrimFloat.is_nan (fat c) = false ->
  save_entry rt now c w =
    (set_food_log (food_log w ++ [row_of (fresh_id w) now fi qu c]) (fresh_id w)
       (add_executed InsertFoodLog w), Ok tt).
Proof.
  intros Hfi Hqu Hq Hc Hp Hcb Hf.
  unfold save_entry. unfold_prog. cbn.
  rewrite Hfi, Hqu, Hc, Hp, Hcb, Hf. cbn.
  destruct (quantity c) as [z|f] eqn:Eq; cbn in Hq |- *.
  - rewrite Hq. cbn. unfold row_of, fresh_id. rewrite Eq. reflexivity.
  - apply negb_true_iff in Hq. rewrite Hq. cbn. unfold row_of, fresh_id. rewrite Eq. reflexivity.
Qed.

Lemma get_from_cache_text rt s w :
  get_from_cache rt (PyStr s) w =
    (add_executed SelectCache w,
     Ok (match cache w !! s with Some v => v | None => PyNone end)).
Proof.
  unfold get_from_cache. unfold_prog. cbn.
  destruct (cache w !! s); reflexivity.
Qed.

Lemma add_to_cache_text rt s v w :
  add_to_cache rt (PyStr s) v w =
    (set_cache (<[s := v]> (cache w)) (cache_null w) (add_executed ReplaceCache w),
     Ok tt).
Proof. reflexivity. Qed.

(** A label the cache knows: its profile is returned, the reply is not read. *)
Lemma resolve_profile_hit rt data s v w :
  cache w !! s = Some v -> Py.truthy v = true ->
  resolve_profile rt data (PyStr s) w =
    (add_stdout CacheHit (add_executed SelectCache w), Ok v).
Proof.
  intros Hc Ht. unfold resolve_profile, bind at 1.
  rewrite get_from_cache_text, Hc, Ht. reflexivity.
Qed.

(** A label the cache does not know: the estimates of the reply are the
    profile, and are stored. *)
Lemma resolve_profile_miss rt data s w vc vp vcb vf :
  cache w !! s = None ->
  Py.getitem data "calories_per_100g" = Ok vc ->
  Py.getitem data "protein_per_100g" = Ok vp ->
  Py.getitem data "carbs_per_100g" = Ok vcb ->
  Py.getitem data "fat_per_100g" = Ok vf ->
  let profile :=
    PyDict [("calories", vc); ("protein", vp); ("carbs", vcb); ("fat", vf)] in
  resolve_profile rt data (PyStr s) w =
    (set_cache (<[s := profile]> (cache w)) (cache_null w)
       (add_executed ReplaceCache (add_executed SelectCache w)),
     Ok profile).
Proof.
  intros Hc H1 H2 H3 H4 profile. unfold resolve_profile, bind at 1.
  rewrite get_from_cache_text, Hc. cbn [Py.truthy].
  unfold bind, lift. rewrite H1, H2, H3, H4.
  rewrite add_to_cache_text. reflexivity.
Qed.

(** The cache step leaves the log and the summaries alone. *)
Lemma resolve_profile_frame rt data label w w1 r :
  resolve_profile rt data label w = (w1, r) ->
  food_log w1 = food_log w /\ food_log_seq w1 = food_log_seq w /\
  daily_summary w1 = daily_summary w.
Proof.
  unfold resolve_profile, get_from_cache, add_to_cache. unfold_prog.
  repeat (any_step; cbn); intros [= <- <-]; cbn; auto.
Qed.

(** The two copies of [log_food] are one function once the chain is there. *)
Lemma log_food_copies rt chain text answer now :
  Mtracker.log_food rt (Some chain) text answer now =
  Main.log_food rt chain text answer now.
Proof. reflexivity. Qed.

(** A run that has its draft and its profile goes on to the calculation. *)
Lemma log_food_resolved rt chain text answer now w data label q u w1 profile :
  extract chain text = Ok (data, label, q, u) ->
  resolve_profile rt data label w = (w1, Ok profile) ->
  Main.log_food rt chain text answer now w =
    match calculate label q u profile with
    | Ok c =>
        try_except (confirm rt answer now c) (fun e => print (CouldNotProcess e)) w1
    | Raise e => (add_stdout (CouldNotProcess e) w1, Ok tt)
    end.
Proof.
  intros He Hr. unfold Main.log_food, log_food_try, try_except, bind, lift.
  rewrite He, Hr. destruct (calculate label q u profile); reflexivity.
Qed.

Lemma confirm_rejected rt answer now c w :
  affirmative answer = false ->
  exists l,
    try_except (confirm rt answer now c) (fun e => print (CouldNotProcess e)) w =
      (add_stdout l (add_stdout (Estimation c) w), Ok tt) /\
    (forall a, answer = Ok a -> l = EntryDiscarded).
Proof.
  intros Ha. unfold confirm. unfold_prog.
  destruct answer as [a|e]; cbn in *.
  - rewrite Ha. exists EntryDiscarded. split; [reflexivity|auto].
  - exists (CouldNotProcess e). split; [reflexivity|discriminate].
Qed.


(** Without the answer [y], no run writes to the log. *)
Lemma log_food_rejected rt chain text answer now w :
  affirmative answer = false ->
  food_log (fst (Main.log_food rt chain text answer now w)) = food_log w.
Proof.
  intros Ha.
  destruct (extract chain text) as [[[[data label] q] u]|e] eqn:He.
  - destruct (resolve_profile rt data label w) as [w1 [profile|e]] eqn:Hr.
    + rewrite (log_food_resolved _ _ _ _ _ _ _ _ _ _ _ _ He Hr).
      apply resolve_profile_frame in Hr as (Hl & _).
      destruct (calculate label q u profile) as [c|e]; [|exact Hl].
      destruct (confirm_rejected rt answer now c w1 Ha) as (l & -> & _).
      exact Hl.
    + unfold Main.log_food, log_food_try, try_except, bind, lift.
      rewrite He, Hr. now apply resolve_profile_frame in Hr as (Hl & _).
  - unfold Main.log_food, log_food_try, try_except, bind, lift.
    now rewrite He.
Qed.

(** The confirmation step prints the estimation first and touches neither
    the cache nor the summaries. *)
Lemma confirm_frame rt answer now c w w' r :
  try_except (confirm rt answer now c) (fun e => print (CouldNotProcess e)) w = (w', r) ->
  cache w' = cache w /\ daily_summary w' = daily_summary w /\
  exists rest, stdout w' = (stdout w ++ Estimation c :: rest)%list.
Proof.
  destruct (affirmative answer) eqn:Ha.
  - destruct answer as [a|e]; [|discriminate]. cbn in Ha.
    unfold confirm, try_except, bind at 1. unfold print at 1, modify.
    unfold bind at 1, lift. rewrite Ha. unfold bind at 1.
    destruct (save_entry rt now c (add_stdout (Estimation c) w)) as [w2 [[]|e]] eqn:Hs;
      apply save_entry_frame in Hs as (H1 & H2 & H3 & _);
      intros [= <- <-]; cbn; rewrite H1, H2, H3; cbn;
      (repeat split; [eexists; now rewrite <- app_assoc]).
  - destruct (confirm_rejected rt answer now c w Ha) as (l & -> & _).
    intros [= <- <-]. cbn. repeat split. eexists. now rewrite <- app_assoc.
Qed.

Lemma log_food_cache rt chain text answer now w data label q u w1 profile :
  extract chain text = Ok (data, label, q, u) ->
  resolve_profile rt data label w = (w1, Ok profile) ->
  cache (fst (Main.log_food rt chain text answer now w)) = cache w1.
Proof.
  intros He Hr. rewrite (log_food_resolved _ _ _ _ _ _ _ _ _ _ _ _ He Hr).
  destruct (calculate label q u profile) as [c|e]; [|reflexivity].
  destruct (try_except _ _ w1) as [w' r] eqn:Hc.
  now apply confirm_frame in Hc as (Hc & _).
Qed.

(** The calculation on numbers: each macro field is the profile's value
    times the hundredth of the quantity. *)
Lemma calculate_scaled label q unit profile n qf vc pc vp pp vcb pcb vf pf :
  Py.as_number q = Ok n -> Py.to_float n = Ok qf ->
  Py.getitem profile "calories" = Ok vc -> Py.as_float vc = Ok pc ->
  Py.getitem profile "protein" = Ok vp -> Py.as_float vp = Ok pp ->
  Py.getitem profile "carbs" = Ok vcb -> Py.as_float vcb = Ok pcb ->
  Py.getitem profile "fat" = Ok vf -> Py.as_float vf = Ok pf ->
  calculate label q unit profile =
    Ok {| food_item := label; quantity := n; quantity_unit := unit;
          calories := (pc * (qf / 100))%float;
          protein := (pp * (qf / 100))%float;
          carbs := (pcb * (qf / 100))%float;
          fat := (pf * (qf / 100))%float |}.
Proof.
  intros Hn Hq Hc Hc' Hp Hp' Hcb Hcb' Hf Hf'.
  assert (Hm : Py.truediv q 100 = Ok (qf / 100)%float).
  { unfold Py.truediv, Py.as_float. now rewrite Hn, Hq. }
  unfold calculate, Py.mul.
  rewrite Hm, Hn, Hc, Hp, Hcb, Hf. cbn [and_then].
  rewrite Hc'. cbn [and_then]. rewrite Hp'. cbn [and_then].
  rewrite Hcb'. cbn [and_then]. rewrite Hf'. reflexivity.
Qed.

(** ** The claims *)

(** C1. Scaling: when a run has its draft and its profile, and they hold
    numbers, the entry it computes and shows has, for each macro field, the
    profile's value times the hundredth of the quantity; both copies of
    [log_food] do so.  In particular the reply of the banana cake example
    (175 g; 300, 4, 40 and 14 per 100 g), on an empty cache and confirmed,
    leaves the row 525.0, 7.0, 70.0, 24.5 in the log and the unscaled
    profile in the cache. *)
Theorem scaling_correct :
  (forall rt chain text answer now w data label q unit w1 profile
          n qf vc pc vp pp vcb pcb vf pf,
      extract chain text = Ok (data, label, q, unit) ->
      resolve_profile rt data label w = (w1, Ok profile) ->
      Py.as_number q = Ok n -> Py.to_float n = Ok qf ->
      Py.getitem profile "calories" = Ok vc -> Py.as_float vc = Ok pc ->
      Py.getitem profile "protein" = Ok vp -> Py.as_float vp = Ok pp ->
      Py.getitem profile "carbs" = Ok vcb -> Py.as_float vcb = Ok pcb ->
      Py.getitem profile "fat" = Ok vf -> Py.as_float vf = Ok pf ->
      let c :=
        {| food_item := label; quantity := n; quantity_unit := unit;
           calories := (pc * (qf / 100))%float;
           protein := (pp * (qf / 100))%float;
           carbs := (pcb * (qf / 100))%float;
           fat := (pf * (qf / 100))%float |} in
      calculate label q unit profile = Ok c /\
      (exists rest,
          stdout (fst (Main.log_food rt chain text answer now w)) =
            (stdout w1 ++ Estimation c :: rest)%list) /\
      Mtracker.log_food rt (Some chain) text answer now w =
        Main.log_food rt chain text answer now w)
  /\
  (let w := fst (Main.log_food text_of_no_real (fun _ => Ok banana_cake_reply)
                   "175g of banana cake" (Ok "y") morning empty_world) in
   food_log w = [banana_cake_row] /\
   cache w !! "banana cake" = Some banana_cake_profile).
Proof.
  split.
  - intros rt chain text answer now w data label q unit w1 profile
      n qf vc pc vp pp vcb pcb vf pf He Hr Hn Hq Hc Hc' Hp Hp' Hcb Hcb' Hf Hf' c.
    pose proof (calculate_scaled label q unit profile n qf vc pc vp pp vcb pcb vf pf
                  Hn Hq Hc Hc' Hp Hp' Hcb Hcb' Hf Hf') as Hcalc.
    fold c in Hcalc. split; [exact Hcalc|]. split; [|reflexivity].
    rewrite (log_food_resolved _ _ _ _ _ _ _ _ _ _ _ _ He Hr), Hcalc.
    destruct (try_except _ _ w1) as [w' r] eqn:Hrun.
    apply confirm_frame in Hrun as (_ & _ & rest & Hout).
    exists rest. exact Hout.
  - vm_compute. split; reflexivity.
Qed.

Lemma scaling_correct_witness :
  exists rest,
    stdout (fst (Main.log_food text_of_no_real (fun _ => Ok banana_cake_reply)
                   "175g of banana cake" (Ok "n") morning empty_world)) =
      ([] ++ Estimation
         {| food_item := PyStr "banana cake"; quantity := Int 175;
            quantity_unit := PyStr "g";
            calories := (300 * (175 / 100))%float;
            protein := (4 * (175 / 100))%float;
            carbs := (40 * (175 / 100))%float;
            fat := (14 * (175 / 100))%float |} :: rest)%list.
Proof.
  refine (proj1 (proj2 (proj1 scaling_correct text_of_no_real
            (fun _ => Ok banana_cake_reply) "175g of banana cake" (Ok "n") morning
            empty_world banana_cake_data (PyStr "banana cake") (PyInt 175) (PyStr "g")
            (fst (resolve_profile text_of_no_real banana_cake_data
                    (PyStr "banana cake") empty_world))
            banana_cake_profile (Int 175) 175%float
            (PyInt 300) 300%float (PyInt 4) 4%float (PyInt 40) 40%float
            (PyInt 14) 14%float _ _ _ _ _ _ _ _ _ _ _ _)));
    vm_compute; reflexivity.
Defined.

(** C2. Cache fill: on a miss the estimates of the reply are the profile and
    are stored under the label; the entry outlives the run that wrote it,
    whatever the answer; and a later resolution of the same label, right
    after that run or in any later world that still holds the entry, gets
    that profile from the cache, whatever its own reply holds. *)
Theorem cache_takes_precedence rt s w data vc vp vcb vf :
  cache w !! s = None ->
  Py.getitem data "calories_per_100g" = Ok vc ->
  Py.getitem data "protein_per_100g" = Ok vp ->
  Py.getitem data "carbs_per_100g" = Ok vcb ->
  Py.getitem data "fat_per_100g" = Ok vf ->
  let profile :=
    PyDict [("calories", vc); ("protein", vp); ("carbs", vcb); ("fat", vf)] in
  (exists w1,
      resolve_profile rt data (PyStr s) w = (w1, Ok profile) /\
      cache w1 = <[s := profile]> (cache w)) /\
  (forall chain text q u answer now data2,
      extract chain text = Ok (data, PyStr s, q, u) ->
      let w2 := fst (Main.log_food rt chain text answer now w) in
      cache w2 !! s = Some profile /\
      resolve_profile rt data2 (PyStr s) w2 =
        (add_stdout CacheHit (add_executed SelectCache w2), Ok profile)) /\
  (forall w3 data3,
      cache w3 !! s = Some profile ->
      resolve_profile rt data3 (PyStr s) w3 =
        (add_stdout CacheHit (add_executed SelectCache w3), Ok profile)).
Proof.
  intros Hc H1 H2 H3 H4 profile.
  pose proof (resolve_profile_miss rt data s w vc vp vcb vf Hc H1 H2 H3 H4) as Hr.
  fold profile in Hr. split; [|split].
  - eexists. split; [exact Hr|reflexivity].
  - intros chain text q u answer now data2 He w2.
    assert (Hw2 : cache w2 !! s = Some profile).
    { unfold w2. rewrite (log_food_cache _ _ _ _ _ _ _ _ _ _ _ _ He Hr).
      cbn. apply lookup_insert_eq. }
    split; [exact Hw2|].
    now apply resolve_profile_hit.
  - intros w3 data3 Hw3. now apply resolve_profile_hit.
Qed.

Lemma cache_takes_precedence_witness :
  let w2 := fst (Main.log_food text_of_no_real (fun _ => Ok banana_cake_reply)
                   "175g of banana cake" (Ok "n") morning empty_world) in
  cache w2 !! "banana cake" = Some banana_cake_profile /\
  resolve_profile text_of_no_real (PyDict []) (PyStr "banana cake") w2 =
    (add_stdout CacheHit (add_executed SelectCache w2), Ok banana_cake_profile).
Proof.
  refine (proj1 (proj2 (cache_takes_precedence text_of_no_real "banana cake" empty_world
            banana_cake_data (PyInt 300) (PyInt 4) (PyInt 40) (PyInt 14)
            _ _ _ _ _))
            (fun _ => Ok banana_cake_reply) "175g of banana cake"
            (PyInt 175) (PyStr "g") (Ok "n") morning (PyDict []) _);
    vm_compute; reflexivity.
Defined.



(** C4. A rejected entry stays in the cache: when the label was not cached
    and the reply holds the four estimates, a run whose answer is not [y]
    ends with the cache mapping the label to those estimates, and with the
    log as it was. *)
Theorem rejection_keeps_cache_write rt chain text answer now w
    data s q u vc vp vcb vf :
  extract chain text = Ok (data, PyStr s, q, u) ->
  cache w !! s = None ->
  Py.getitem data "calories_per_100g" = Ok vc ->
  Py.getitem data "protein_per_100g" = Ok vp ->
  Py.getitem data "carbs_per_100g" = Ok vcb ->
  Py.getitem data "fat_per_100g" = Ok vf ->
  affirmative answer = false ->
  let w' := fst (Main.log_food rt chain text answer now w) in
  cache w' !! s =
    Some (PyDict [("calories", vc); ("protein", vp); ("carbs", vcb); ("fat", vf)]) /\
  food_log w' = food_log w /\
  Mtracker.log_food rt (Some chain) text answer now w =
    Main.log_food rt chain text answer now w.
Proof.
  intros He Hc H1 H2 H3 H4 Ha w'.
  pose proof (resolve_profile_miss rt data s w vc vp vcb vf Hc H1 H2 H3 H4) as Hr.
  cbv zeta in Hr. unfold w'. split; [|split].
  - rewrite (log_food_cache _ _ _ _ _ _ _ _ _ _ _ _ He Hr). cbn.
    apply lookup_insert_eq.
  - now apply log_food_rejected.
  - reflexivity.
Qed.

Lemma rejection_keeps_cache_write_witness :
  let w' := fst (Main.log_food text_of_no_real (fun _ => Ok banana_cake_reply)
                   "175g of banana cake" (Ok "no") morning empty_world) in
  cache w' !! "banana cake" = Some banana_cake_profile /\
  food_log w' = [] /\
  Mtracker.log_food text_of_no_real (Some (fun _ => Ok banana_cake_reply))
    "175g of banana cake" (Ok "no") morning empty_world =
  Main.log_food text_of_no_real (fun _ => Ok banana_cake_reply)
    "175g of banana cake" (Ok "no") morning empty_world.
Proof.
  refine (rejection_keeps_cache_write text_of_no_real (fun _ => Ok banana_cake_reply)
            "175g of banana cake" (Ok "no") morning empty_world
            banana_cake_data "banana cake" (PyInt 175) (PyStr "g")
            (PyInt 300) (PyInt 4) (PyInt 40) (PyInt 14) _ _ _ _ _ _ _);
    vm_compute; reflexivity.
Defined.

(** ** The summaries *)

Lemma sum_of_cons sql_sum col r rows :
  PrimFloat.is_nan (sql_sum (map col (r :: rows))) = false ->
  sum_of sql_sum col (r :: rows) = Some (sql_sum (map col (r :: rows))).
Proof. unfold sum_of. now intros ->. Qed.

(** A day without rows: the simple copy prints that there is none. *)
Lemma simple_summary_empty sql_sum now tomorrow w :
  next_day (on now) = Ok tomorrow ->
  todays_rows now tomorrow w = [] ->
  Main.get_todays_summary sql_sum now w =
    (add_stdout EndOfSummary
       (add_stdout NoEntriesForToday
          (add_stdout TodaysSummary (add_executed SelectSums w))),
     Ok tt).
Proof.
  intros Hn Hrows. unfold Main.get_todays_summary. unfold_prog.
  rewrite Hn. cbn. unfold todays_rows, rows_in in Hrows. unfold rows_in. cbn.
  rewrite Hrows. reflexivity.
Qed.

(** The extended copy, on such a day, does as the simple one: nothing is
    sent to [daily_summary]. *)
Lemma summary_empty sql_sum now now_save tomorrow w :
  next_day (on now) = Ok tomorrow ->
  todays_rows now tomorrow w = [] ->
  Mtracker.get_todays_summary sql_sum now now_save w =
    (add_stdout EndOfSummary
       (add_stdout NoEntriesForToday
          (add_stdout TodaysSummary (add_executed SelectSums w))),
     Ok tt).
Proof.
  intros Hn Hrows. unfold Mtracker.get_todays_summary. unfold_prog.
  rewrite Hn. cbn. unfold todays_rows, rows_in in Hrows. unfold rows_in. cbn.
  rewrite Hrows. reflexivity.
Qed.

Lemma simple_summary_totals sql_sum now tomorrow w c p cb f :
  next_day (on now) = Ok tomorrow ->
  sum_of sql_sum row_calories (todays_rows now tomorrow w) = Some c ->
  sum_of sql_sum row_protein (todays_rows now tomorrow w) = Some p ->
  sum_of sql_sum row_carbs (todays_rows now tomorrow w) = Some cb ->
  sum_of sql_sum row_fat (todays_rows now tomorrow w) = Some f ->
  Main.get_todays_summary sql_sum now w =
    (add_stdout EndOfSummary
       (add_stdout (TotalFat f)
          (add_stdout (TotalCarbs cb)
             (add_stdout (TotalProtein p)
                (add_stdout (TotalCalories c)
                   (add_stdout TodaysSummary (add_executed SelectSums w)))))),
     Ok tt).
Proof.
  intros Hn Hc Hp Hcb Hf. unfold Main.get_todays_summary. unfold_prog.
  rewrite Hn. cbn. unfold todays_rows, rows_in in *. cbn.
  rewrite Hc, Hp, Hcb, Hf. reflexivity.
Qed.

Lemma summary_totals sql_sum now now_save tomorrow w c p cb f :
  next_day (on now) = Ok tomorrow ->
  sum_of sql_sum row_calories (todays_rows now tomorrow w) = Some c ->
  sum_of sql_sum row_protein (todays_rows now tomorrow w) = Some p ->
  sum_of sql_sum row_carbs (todays_rows now tomorrow w) = Some cb ->
  sum_of sql_sum row_fat (todays_rows now tomorrow w) = Some f ->
  Mtracker.get_todays_summary sql_sum now now_save w =
    (add_stdout EndOfSummary
       (add_stdout (TotalFat f)
          (add_stdout (TotalCarbs cb)
             (add_stdout (TotalProtein p)
                (add_stdout (TotalCalories c)
                   (set_daily_summary
                      (<[strftime_Ymd now_save :=
                           {| total_calories := c; total_protein := p;
                              total_carbs := cb; total_fat := f |}]>
                         (daily_summary w))
                      (add_executed ReplaceDailySummary
                         (add_stdout TodaysSummary
                            (add_executed SelectSums w)))))))),
     Ok tt).
Proof.
  intros Hn Hc Hp Hcb Hf.
  unfold Mtracker.get_todays_summary, Mtracker.save_todays_summary. unfold_prog.
  rewrite Hn. cbn. unfold todays_rows, rows_in in *. cbn.
  rewrite Hc, Hp, Hcb, Hf. reflexivity.
Qed.

(** Whatever it finds, the summary leaves the log alone. *)
Lemma summary_frame sql_sum now now_save w w' r :
  Mtracker.get_todays_summary sql_sum now now_save w = (w', r) ->
  food_log w' = food_log w /\ food_log_seq w' = food_log_seq w /\ cache w' = cache w.
Proof.
  unfold Mtracker.get_todays_summary, Mtracker.save_todays_summary. unfold_prog.
  cbn. repeat (any_step; cbn); intros [= <- <-]; cbn; auto.
Qed.

Lemma get_summary_for_date_today d w :
  valid_date d = true ->
  Mtracker.get_summary_for_date (date_isoformat d) w =
    match daily_summary w !! date_isoformat d with
    | Some r =>
        (add_stdout
           (Paged [SummaryFor d;
                   TotalCalories (total_calories r); TotalProtein (total_protein r);
                   TotalCarbs (total_carbs r); TotalFat (total_fat r)])
           (add_executed SelectDailySummary w), Ok tt)
    | None =>
        (add_stdout (NoSummaryFound d) (add_executed SelectDailySummary w), Ok tt)
    end.
Proof.
  intros Hv. unfold Mtracker.get_summary_for_date.
  rewrite (strptime_isoformat d Hv). unfold_prog. cbn.
  destruct (daily_summary w !! date_isoformat d); reflexivity.
Qed.

(** C7. Empty is not zero: over a day without log rows both copies of
    [get_todays_summary] print that there are no entries and no total;
    over a day with rows whose sums are numbers they print the four totals,
    zero or not. *)
Theorem empty_day_is_not_zero sql_sum now now_save tomorrow w :
  next_day (on now) = Ok tomorrow ->
  (todays_rows now tomorrow w = [] ->
   stdout (fst (Main.get_todays_summary sql_sum now w)) =
     (stdout w ++ [TodaysSummary; NoEntriesForToday; EndOfSummary])%list /\
   stdout (fst (Mtracker.get_todays_summary sql_sum now now_save w)) =
     (stdout w ++ [TodaysSummary; NoEntriesForToday; EndOfSummary])%list)
  /\
  (forall c p cb f,
      sum_of sql_sum row_calories (todays_rows now tomorrow w) = Some c ->
      sum_of sql_sum row_protein (todays_rows now tomorrow w) = Some p ->
      sum_of sql_sum row_carbs (todays_rows now tomorrow w) = Some cb ->
      sum_of sql_sum row_fat (todays_rows now tomorrow w) = Some f ->
      stdout (fst (Main.get_todays_summary sql_sum now w)) =
        (stdout w ++ [TodaysSummary; TotalCalories c; TotalProtein p;
                      TotalCarbs cb; TotalFat f; EndOfSummary])%list /\
      stdout (fst (Mtracker.get_todays_summary sql_sum now now_save w)) =
        (stdout w ++ [TodaysSummary; TotalCalories c; TotalProtein p;
                      TotalCarbs cb; TotalFat f; EndOfSummary])%list).
Proof.
  intros Hn. split.
  - intros Hrows.
    rewrite (simple_summary_empty _ _ _ _ Hn Hrows),
      (summary_empty _ _ now_save _ _ Hn Hrows).
    cbn. rewrite <- !app_assoc. auto.
  - intros c p cb f Hc Hp Hcb Hf.
    rewrite (simple_summary_totals _ _ _ _ _ _ _ _ Hn Hc Hp Hcb Hf),
      (summary_totals _ _ now_save _ _ _ _ _ _ Hn Hc Hp Hcb Hf).
    cbn. rewrite <- !app_assoc. auto.
Qed.

Lemma empty_day_is_not_zero_witness :
  (stdout (fst (Main.get_todays_summary running_sum morning empty_world)) =
     ([] ++ [TodaysSummary; NoEntriesForToday; EndOfSummary])%list /\
   stdout (fst (Mtracker.get_todays_summary running_sum morning morning empty_world)) =
     ([] ++ [TodaysSummary; NoEntriesForToday; EndOfSummary])%list) /\
  (stdout (fst (Main.get_todays_summary running_sum morning water_world)) =
     ([] ++ [TodaysSummary; TotalCalories 0; TotalProtein 0;
             TotalCarbs 0; TotalFat 0; EndOfSummary])%list /\
   stdout (fst (Mtracker.get_todays_summary running_sum morning morning water_world)) =
     ([] ++ [TodaysSummary; TotalCalories 0; TotalProtein 0;
             TotalCarbs 0; TotalFat 0; EndOfSummary])%list).
Proof.
  split.
  - refine (proj1 (empty_day_is_not_zero running_sum morning morning
                     {| year := 2024; month := 3; day := 1 |} empty_world _) _);
      vm_compute; reflexivity.
  - refine (proj2 (empty_day_is_not_zero running_sum morning morning
                     {| year := 2024; month := 3; day := 1 |} water_world _)
              0%float 0%float 0%float 0%float _ _ _ _);
      vm_compute; reflexivity.
Defined.

(** C9. A date that does not parse: the summary for a date and the meals
    for a date print the complaint about the format and stop; no statement
    is executed and no table changes. *)
Theorem invalid_date_aborts date_str e w :
  strptime_Ymd date_str = Raise e ->
  Mtracker.get_summary_for_date date_str w = (add_stdout InvalidDateFormat w, Ok tt) /\
  History.get_meals_for_date date_str w = (add_stdout InvalidDateFormat w, Ok tt) /\
  executed (add_stdout InvalidDateFormat w) = executed w /\
  food_log (add_stdout InvalidDateFormat w) = food_log w /\
  daily_summary (add_stdout InvalidDateFormat w) = daily_summary w /\
  cache (add_stdout InvalidDateFormat w) = cache w.
Proof.
  intros He. unfold Mtracker.get_summary_for_date, History.get_meals_for_date.
  rewrite He. repeat split.
Qed.

Lemma invalid_date_aborts_witness :
  Mtracker.get_summary_for_date "29/02/2024" empty_world =
    (add_stdout InvalidDateFormat empty_world, Ok tt) /\
  History.get_meals_for_date "29/02/2024" empty_world =
    (add_stdout InvalidDateFormat empty_world, Ok tt) /\
  executed (add_stdout InvalidDateFormat empty_world) = executed empty_world /\
  food_log (add_stdout InvalidDateFormat empty_world) = food_log empty_world /\
  daily_summary (add_stdout InvalidDateFormat empty_world) = daily_summary empty_world /\
  cache (add_stdout InvalidDateFormat empty_world) = cache empty_world.
Proof.
  refine (invalid_date_aborts "29/02/2024" ValueError empty_world _).
  vm_compute; reflexivity.
Defined.




(** ** Removing the last entry *)

Lemma remove_last_none sql_sum now now_summary now_save tomorrow w :
  next_day (on now) = Ok tomorrow ->
  todays_rows now tomorrow w = [] ->
  Mtracker.remove_last_entry sql_sum now now_summary now_save w =
    (add_stdout NoEntriesToRemove (add_executed SelectLast w), Ok tt).
Proof.
  intros Hn Hrows. unfold Mtracker.remove_last_entry. unfold_prog.
  rewrite Hn. cbn. unfold todays_rows, rows_in in Hrows. unfold rows_in. cbn.
  rewrite Hrows. reflexivity.
Qed.

Lemma remove_last_some sql_sum now now_summary now_save tomorrow w r :
  next_day (on now) = Ok tomorrow ->
  last_by_id (todays_rows now tomorrow w) = Some r ->
  Mtracker.remove_last_entry sql_sum now now_summary now_save w =
    Mtracker.get_todays_summary sql_sum now_summary now_save
      (add_stdout UpdatingSummary
         (add_stdout EntryRemoved
            (set_food_log (without_id (row_id r) (food_log w)) (food_log_seq w)
               (add_executed DeleteFoodLog
                  (add_stdout
                     (RemovingLastEntry (row_food_item r) (row_quantity r)
                        (row_quantity_unit r))
                     (add_executed SelectLast w)))))).
Proof.
  intros Hn Hlast. unfold Mtracker.remove_last_entry.
  unfold bind at 1, lift. rewrite Hn.
  unfold bind at 1, execute at 1, modify.
  unfold bind at 1, get.
  unfold todays_rows, rows_in in Hlast. unfold rows_in. cbn [food_log add_executed].
  rewrite Hlast. reflexivity.
Qed.

Lemma filter_filter_comm {A} (p q : A -> bool) (l : list A) :
  List.filter p (List.filter q l) = List.filter q (List.filter p l).
Proof.
  induction l as [|x l IH]; [reflexivity|]. cbn.
  destruct (q x) eqn:Hq, (p x) eqn:Hp; cbn; rewrite ?Hq, ?Hp, IH; reflexivity.
Qed.

(** C10. A day without entries leaves [daily_summary] as it is:
    [get_todays_summary] sends it no statement, so it neither writes a row
    of zeros nor removes the row of the day.  Hence, when the last entry of
    the day is removed, the row materialised earlier that day stays, and
    the summary for the date still returns its totals. *)
Theorem empty_day_keeps_summary sql_sum now now_summary now_save tomorrow w :
  valid_date (on now) = true ->
  next_day (on now) = Ok tomorrow ->
  on now_summary = on now ->
  (todays_rows now tomorrow w = [] ->
   let w' := fst (Mtracker.get_todays_summary sql_sum now now_save w) in
   daily_summary w' = daily_summary w /\
   executed w' = (executed w ++ [SelectSums])%list)
  /\
  (forall e r,
      todays_rows now tomorrow w = [e] ->
      daily_summary w !! date_isoformat (on now) = Some r ->
      let w' := fst (Mtracker.remove_last_entry sql_sum now now_summary now_save w) in
      todays_rows now tomorrow w' = [] /\
      daily_summary w' = daily_summary w /\
      Mtracker.get_summary_for_date (date_isoformat (on now)) w' =
        (add_stdout
           (Paged [SummaryFor (on now);
                   TotalCalories (total_calories r); TotalProtein (total_protein r);
                   TotalCarbs (total_carbs r); TotalFat (total_fat r)])
           (add_executed SelectDailySummary w'), Ok tt)).
Proof.
  intros Hv Hn Hs. split.
  - intros Hrows w'. unfold w'.
    rewrite (summary_empty _ _ now_save _ _ Hn Hrows). cbn. auto.
  - intros e r Hrows Hrow w'.
    assert (Hlast : last_by_id (todays_rows now tomorrow w) = Some e)
      by now rewrite Hrows.
    set (w1 := add_stdout UpdatingSummary
         (add_stdout EntryRemoved
            (set_food_log (without_id (row_id e) (food_log w)) (food_log_seq w)
               (add_executed DeleteFoodLog
                  (add_stdout
                     (RemovingLastEntry (row_food_item e) (row_quantity e)
                        (row_quantity_unit e))
                     (add_executed SelectLast w)))))).
    assert (Hgone : todays_rows now_summary tomorrow w1 = []).
    { unfold todays_rows, rows_in, w1, without_id. cbn [food_log add_stdout set_food_log].
      rewrite Hs, filter_filter_comm.
      unfold todays_rows, rows_in in Hrows. rewrite Hrows. cbn.
      now rewrite Z.eqb_refl. }
    assert (Hw' : w' = fst (Mtracker.get_todays_summary sql_sum now_summary now_save w1)).
    { unfold w'. now rewrite (remove_last_some _ _ _ _ _ _ _ Hn Hlast). }
    rewrite <- Hs in Hn.
    rewrite (summary_empty _ _ now_save _ _ Hn Hgone) in Hw'. cbn in Hw'.
    assert (Hd : daily_summary w' = daily_summary w) by now rewrite Hw'.
    split; [|split; [exact Hd|]].
    + unfold todays_rows, rows_in in Hgone |- *. rewrite Hs in Hgone.
      now rewrite Hw'.
    + now rewrite (get_summary_for_date_today _ _ Hv), Hd, Hrow.
Qed.

Lemma empty_day_keeps_summary_witness :
  (let w' := fst (Mtracker.get_todays_summary running_sum evening evening empty_world) in
   daily_summary w' = daily_summary empty_world /\
   executed w' = (executed empty_world ++ [SelectSums])%list) /\
  (let w' := fst (Mtracker.remove_last_entry running_sum evening evening evening
                    summed_world) in
   todays_rows evening {| year := 2024; month := 3; day := 1 |} w' = [] /\
   daily_summary w' = daily_summary summed_world /\
   Mtracker.get_summary_for_date "2024-02-29" w' =
     (add_stdout
        (Paged [SummaryFor leap_day; TotalCalories 525; TotalProtein 7;
                TotalCarbs 70; TotalFat 24.5])
        (add_executed SelectDailySummary w'), Ok tt)).
Proof.
  split.
  - refine (proj1 (empty_day_keeps_summary running_sum evening evening evening
                     {| year := 2024; month := 3; day := 1 |} empty_world _ _ _) _);
      vm_compute; reflexivity.
  - refine (proj2 (empty_day_keeps_summary running_sum evening evening evening
                     {| year := 2024; month := 3; day := 1 |} summed_world _ _ _)
              banana_cake_row
              {| total_calories := 525; total_protein := 7;
                 total_carbs := 70; total_fat := 24.5 |} _ _);
      vm_compute; reflexivity.
Defined.

(** ** Appending, then removing *)

Lemma max_id_bound (rows : list LogRow) (r : LogRow) :
  In r rows -> row_id r <= max_id rows.
Proof.
  induction rows as [|x rows IH]; [intros []|].
  change (max_id (x :: rows)) with (Z.max (row_id x) (max_id rows)).
  intros [<-|Hin]; [lia|]. specialize (IH Hin). lia.
Qed.

Lemma without_id_fresh (i : Z) (rows : list LogRow) :
  (forall r, In r rows -> row_id r < i) -> without_id i rows = rows.
Proof.
  intros H. induction rows as [|x rows IH]; [reflexivity|].
  unfold without_id in *. cbn.
  assert (Hx : (row_id x =? i) = false) by (apply Z.eqb_neq; specialize (H x (or_introl eq_refl)); lia).
  rewrite Hx. cbn. f_equal. apply IH. intros r Hr. apply H. now right.
Qed.

Lemma last_by_id_snoc (rows : list LogRow) (e : LogRow) :
  (forall r, In r rows -> row_id r < row_id e) ->
  last_by_id (rows ++ [e]) = Some e.
Proof.
  intros H. induction rows as [|x rows IH]; [reflexivity|].
  cbn. rewrite IH by (intros r Hr; apply H; now right).
  assert (Hx : (row_id x <? row_id e) = true)
    by (apply Z.ltb_lt, H; now left).
  now rewrite Hx.
Qed.

Lemma in_insert_by_timestamp (r x : LogRow) (rows : list LogRow) :
  In r (insert_by_timestamp x rows) -> r = x \/ In r rows.
Proof.
  induction rows as [|y rows IH]; cbn.
  - intros [<-|[]]. now left.
  - destruct (String.leb (row_timestamp x) (row_timestamp y)); cbn.
    + intros [<-|H]; auto.
    + intros [<-|H]; auto. destruct (IH H); auto.
Qed.

Lemma in_order_by_timestamp (r : LogRow) (rows : list LogRow) :
  In r (order_by_timestamp rows) -> In r rows.
Proof.
  induction rows as [|x rows IH]; cbn; [auto|].
  intros H. apply in_insert_by_timestamp in H as [->|H]; auto.
Qed.

Lemma in_meals_of (r : LogRow) (d : date) (w : World) :
  In r (meals_of d w) -> In r (food_log w).
Proof.
  unfold meals_of, rows_in. intros H.
  apply in_order_by_timestamp, filter_In in H. tauto.
Qed.

Lemma get_meals_for_date_today d w :
  valid_date d = true ->
  History.get_meals_for_date (date_isoformat d) w =
    match meals_of d w with
    | [] => (add_stdout (NoMealsFound d) (add_executed SelectMeals w), Ok tt)
    | meals =>
        (add_stdout (Paged (MealsFor d :: map Meal meals))
           (add_executed SelectMeals w), Ok tt)
    end.
Proof.
  intros Hv. unfold History.get_meals_for_date.
  rewrite (strptime_isoformat d Hv). unfold_prog. cbn.
  unfold meals_of, rows_in, order_by_timestamp. cbn.
  match goal with
  | |- context [match ?l with [] => _ | _ :: _ => _ end] => destruct l
  end; reflexivity.
Qed.

(** C6. Removal round trip: an entry appended and then removed on the same
    day is the entry of today's range with the highest id, so it is the one
    deleted; the log is again what it was, the meals of the day no longer
    list the entry, and on a day that has no other entry a second removal
    reports that there is nothing to remove and returns normally. *)
Theorem removal_round_trip rt sql_sum c fi qu now now_r now_summary now_save
    now_r2 tomorrow w :
  valid now = true ->
  next_day (on now) = Ok tomorrow ->
  on now_r = on now -> on now_r2 = on now ->
  food_item c = PyStr fi -> quantity_unit c = PyStr qu ->
  number_fits (quantity c) = true ->
  PrimFloat.is_nan (calories c) = false -> PrimFloat.is_nan (protein c) = false ->
  PrimFloat.is_nan (carbs c) = false -> PrimFloat.is_nan (fat c) = false ->
  let e := row_of (fresh_id w) now fi qu c in
  let w1 := fst (save_entry rt now c w) in
  let w2 := fst (Mtracker.remove_last_entry sql_sum now_r now_summary now_save w1) in
  food_log w1 = (food_log w ++ [e])%list /\
  last_by_id (todays_rows now_r tomorrow w1) = Some e /\
  food_log w2 = food_log w /\
  ~ In e (meals_of (on now) w2) /\
  History.get_meals_for_date (date_isoformat (on now)) w2 =
    match meals_of (on now) w2 with
    | [] => (add_stdout (NoMealsFound (on now)) (add_executed SelectMeals w2), Ok tt)
    | meals =>
        (add_stdout (Paged (MealsFor (on now) :: map Meal meals))
           (add_executed SelectMeals w2), Ok tt)
    end /\
  (todays_rows now tomorrow w = [] ->
   Mtracker.remove_last_entry sql_sum now_r2 now_summary now_save w2 =
     (add_stdout NoEntriesToRemove (add_executed SelectLast w2), Ok tt)).
Proof.
  intros Hv Hn Hr Hr2 Hfi Hqu Hq H1 H2 H3 H4 e w1 w2.
  assert (Hw1 : food_log w1 = (food_log w ++ [e])%list).
  { unfold w1. now rewrite (save_entry_ok rt now c w fi qu). }
  assert (Hseq : food_log_seq w1 = fresh_id w).
  { unfold w1. now rewrite (save_entry_ok rt now c w fi qu). }
  assert (Hfresh : forall r, In r (food_log w) -> row_id r < row_id e).
  { intros r Hin. apply max_id_bound in Hin. unfold e, row_of, fresh_id. cbn. lia. }
  destruct (instant_in_its_day now tomorrow Hv Hn) as (Hlo & Hhi).
  assert (Hin : in_range (isoformat (midnight (on now)))
                  (isoformat (midnight tomorrow)) e = true).
  { unfold in_range, e, row_of. cbn. now rewrite Hlo, Hhi. }
  assert (Hrows : todays_rows now_r tomorrow w1 =
                  (todays_rows now tomorrow w ++ [e])%list).
  { unfold todays_rows, rows_in. rewrite Hw1, Hr, List.filter_app. cbn.
    now rewrite Hin. }
  assert (Hlast : last_by_id (todays_rows now_r tomorrow w1) = Some e).
  { rewrite Hrows. apply last_by_id_snoc. intros r Hrin.
    apply Hfresh. unfold todays_rows, rows_in in Hrin.
    apply filter_In in Hrin. tauto. }
  assert (Hw2 : food_log w2 = food_log w).
  { unfold w2. rewrite <- Hr in Hn.
    rewrite (remove_last_some _ _ _ _ _ _ _ Hn Hlast).
    destruct (Mtracker.get_todays_summary _ _ _ _) as [w' r] eqn:Hsum.
    apply summary_frame in Hsum as (Hsum & _). cbn [fst]. rewrite Hsum.
    cbn [food_log add_stdout set_food_log]. rewrite Hw1.
    unfold without_id. rewrite List.filter_app. cbn. rewrite Z.eqb_refl. cbn.
    rewrite app_nil_r. now apply without_id_fresh. }
  split; [exact Hw1|]. split; [exact Hlast|]. split; [exact Hw2|].
  split; [|split].
  - intros Hmeal. apply in_meals_of in Hmeal. rewrite Hw2 in Hmeal.
    apply Hfresh in Hmeal. lia.
  - apply get_meals_for_date_today. now apply valid_on.
  - intros Hempty. rewrite <- Hr2 in Hn.
    apply (remove_last_none _ _ _ _ _ _ Hn).
    unfold todays_rows, rows_in in *. now rewrite Hw2, Hr2.
Qed.

Lemma removal_round_trip_witness :
  let c := {| food_item := PyStr "banana cake"; quantity := Int 175;
              quantity_unit := PyStr "g";
              calories := 525; protein := 7; carbs := 70; fat := 24.5 |} in
  let e := row_of (fresh_id empty_world) morning "banana cake" "g" c in
  let w1 := fst (save_entry text_of_no_real morning c empty_world) in
  let w2 := fst (Mtracker.remove_last_entry running_sum evening evening evening w1) in
  food_log w1 = (food_log empty_world ++ [e])%list /\
  last_by_id (todays_rows evening {| year := 2024; month := 3; day := 1 |} w1) =
    Some e /\
  food_log w2 = food_log empty_world /\
  ~ In e (meals_of (on morning) w2) /\
  History.get_meals_for_date (date_isoformat (on morning)) w2 =
    match meals_of (on morning) w2 with
    | [] => (add_stdout (NoMealsFound (on morning)) (add_executed SelectMeals w2), Ok tt)
    | meals =>
        (add_stdout (Paged (MealsFor (on morning) :: map Meal meals))
           (add_executed SelectMeals w2), Ok tt)
    end /\
  (todays_rows morning {| year := 2024; month := 3; day := 1 |} empty_world = [] ->
   Mtracker.remove_last_entry running_sum evening evening evening w2 =
     (add_stdout NoEntriesToRemove (add_executed SelectLast w2), Ok tt)).
Proof.
  exact (removal_round_trip text_of_no_real running_sum
           {| food_item := PyStr "banana cake"; quantity := Int 175;
              quantity_unit := PyStr "g";
              calories := 525; protein := 7; carbs := 70; fat := 24.5 |}
           "banana cake" "g" morning evening evening evening evening
           {| year := 2024; month := 3; day := 1 |} empty_world
           eq_refl eq_refl eq_refl eq_refl eq_refl eq_refl eq_refl
           eq_refl eq_refl eq_refl eq_refl).
Defined.

(** ** The fence *)

Lemma contains_app (sep pre rest : string) :
  String.prefix sep (sep ++ rest) = true ->
  Py.contains sep (pre ++ sep ++ rest) = true.
Proof.
  intros Hp. induction pre as [|c pre IH].
  - rewrite string_app_nil. set (x := sep ++ rest) in *.
    destruct x; cbn [Py.contains]; now rewrite Hp.
  - rewrite string_app_cons. cbn [Py.contains]. rewrite IH. apply orb_true_r.
Qed.

(** Text without a backtick is passed over by a separator that begins with one. *)
Lemma split_go_plain (sep' acc pre s : string) :
  no_backtick pre = true ->
  Py.split_go (String "`" sep') 0 acc (pre ++ s) =
  Py.split_go (String "`" sep') 0 (String.rev_app pre acc) s.
Proof.
  revert acc. induction pre as [|c pre IH]; intros acc Hp; [reflexivity|].
  cbn in Hp. apply andb_prop in Hp as [Hc Hp].
  rewrite string_app_cons. cbn [Py.split_go String.prefix].
  destruct (ascii_dec "`" c) as [<-|_]; [discriminate|].
  now rewrite IH.
Qed.

(** The first piece of a split begins with what has been collected. *)
Lemma split_go_head (sep acc s : string) :
  exists p tl, Py.split_go sep 0 acc s = String.rev_app acc p :: tl.
Proof.
  revert acc. induction s as [|c s IH]; intros acc.
  - exists "", []. reflexivity.
  - cbn [Py.split_go]. destruct (String.prefix sep (String c s)).
    + exists "". eexists. reflexivity.
    + destruct (IH (String c acc)) as (p & tl & ->).
      exists (String c p), tl. reflexivity.
Qed.

Lemma rev_app_rev_app (s a b : string) :
  String.rev_app (String.rev_app s a) b = String.rev_app a (s ++ b).
Proof.
  revert a b. induction s as [|c s IH]; intros a b; [reflexivity|].
  cbn [String.rev_app]. now rewrite IH.
Qed.

Lemma string_app_empty_r (s : string) : s ++ "" = s.
Proof.
  induction s as [|c s IH]; [reflexivity|]. rewrite string_app_cons. now rewrite IH.
Qed.

Lemma rev_app_empty (s : string) : String.rev_app (String.rev_app s "") "" = s.
Proof. rewrite rev_app_rev_app. cbn [String.rev_app]. apply string_app_empty_r. Qed.

Lemma prefix_empty (s : string) : String.prefix "" s = true.
Proof. destruct s; reflexivity. Qed.

(** The split at the opening fence. *)
Lemma split_opening (pre rest : string) :
  no_backtick pre = true ->
  Py.split (pre ++ "```json" ++ rest) "```json" =
    pre :: Py.split_go "```json" 0 "" rest.
Proof.
  intros Hp. unfold Py.split. rewrite split_go_plain by assumption.
  change ("```json" ++ rest)
    with (String "`" (String "`" (String "`" (String "j" (String "s"
            (String "o" (String "n" rest))))))).
  cbn. rewrite prefix_empty. unfold String.rev. now rewrite rev_app_empty.
Qed.

(** The split at the closing fence: the first piece is the body. *)
Lemma split_closing (body x : string) :
  no_backtick body = true ->
  x = "" \/ (exists p, x = "```" ++ p) ->
  Py.item (Py.split (body ++ x) "```") 0 = Ok body.
Proof.
  intros Hb Hx. unfold Py.split. rewrite split_go_plain by assumption.
  destruct Hx as [->|[p ->]].
  - cbn. unfold String.rev. now rewrite rev_app_empty.
  - change ("```" ++ p) with (String "`" (String "`" (String "`" p))).
    cbn. rewrite prefix_empty. cbn. unfold String.rev. now rewrite rev_app_empty.
Qed.

Lemma split_go_step (sep acc s : string) (c : ascii) :
  Py.split_go sep 0 acc (String c s) =
    if String.prefix sep (String c s)
    then String.rev acc :: Py.split_go sep (Nat.pred (String.length sep)) "" s
    else Py.split_go sep 0 (String c acc) s.
Proof. reflexivity. Qed.

(** Two backticks before another character open no fence. *)
Lemma split_go_two_backticks (acc s : string) (c : ascii) :
  Ascii.eqb c "`" = false ->
  Py.split_go "```json" 0 acc (String "`" (String "`" (String c s))) =
  Py.split_go "```json" 0 (String "`" (String "`" acc)) (String c s).
Proof.
  intros Hc.
  assert (Hne : forall t, String.prefix "```json" (String "`" (String c t)) = false).
  { intros t. cbn [String.prefix].
    destruct (ascii_dec "`" "`") as [_|N]; [|now elim N].
    destruct (ascii_dec "`" c) as [<-|_]; [discriminate|reflexivity]. }
  rewrite split_go_step.
  assert (String.prefix "```json" (String "`" (String "`" (String c s))) = false) as ->.
  { cbn [String.prefix].
    destruct (ascii_dec "`" "`") as [_|N]; [|now elim N].
    destruct (ascii_dec "`" c) as [<-|_]; [discriminate|reflexivity]. }
  rewrite split_go_step. now rewrite Hne.
Qed.

(** What follows the opening fence, cut at the next opening fence, is the
    body, alone or with a closing fence behind it. *)
Lemma split_between (body post : string) :
  no_backtick body = true -> starts_with_backtick post = false ->
  exists x,
    Py.item (Py.split_go "```json" 0 "" (body ++ "```" ++ post)) 0 = Ok (body ++ x) /\
    (x = "" \/ exists p, x = "```" ++ p).
Proof.
  intros Hb Hpost. rewrite split_go_plain by assumption.
  change ("```" ++ post) with (String "`" (String "`" (String "`" post))).
  destruct post as [|c post].
  - exists "```". split; [|right; now exists ""].
    cbn. unfold String.rev. rewrite rev_app_rev_app. reflexivity.
  - cbn in Hpost.
    rewrite split_go_step.
    destruct (String.prefix "```json"
                (String "`" (String "`" (String "`" (String c post))))).
    + exists "". split; [|now left].
      cbn. unfold String.rev. now rewrite rev_app_empty, string_app_empty_r.
    + rewrite split_go_two_backticks by assumption.
      destruct (split_go_head "```json"
                  (String "`" (String "`" (String "`" (String.rev_app body ""))))
                  (String c post)) as (p & tl & ->).
      exists ("```" ++ p). split; [|right; now exists p].
      cbn. now rewrite rev_app_rev_app.
Qed.

(** A reply with a [```json] fence: the text between the fences, without
    the blanks around it, is what gets parsed. *)
Lemma strip_fence_fenced (pre body post : string) :
  no_backtick pre = true -> no_backtick body = true ->
  starts_with_backtick post = false ->
  strip_fence (pre ++ "```json" ++ body ++ "```" ++ post) = Ok (Py.strip body).
Proof.
  intros Hpre Hb Hpost. unfold strip_fence.
  rewrite contains_app
    by (change ("```json" ++ body ++ "```" ++ post)
          with (String "`" (String "`" (String "`" (String "j" (String "s"
                  (String "o" (String "n" (body ++ "```" ++ post))))))));
        cbn; apply prefix_empty).
  rewrite split_opening by assumption.
  destruct (split_between body post Hb Hpost) as (x & Hx & Hshape).
  unfold Py.item in Hx |- *. cbn [nth_error] in Hx |- *.
  destruct (Py.split_go "```json" 0 "" (body ++ "```" ++ post)) as [|after tl];
    [discriminate|].
  cbn in Hx. injection Hx as ->. cbn [and_then].
  pose proof (split_closing body x Hb Hshape) as Hc.
  unfold Py.item in Hc. cbn [nth_error] in Hc.
  destruct (Py.split (body ++ x) "```") as [|inside tl']; [discriminate|].
  cbn in Hc. injection Hc as ->. reflexivity.
Qed.

(** ** The extraction *)

Lemma getitem_dict (d : list (string * pyval)) (k : string) (v : pyval) :
  Py.getitem (PyDict d) k = Ok v <-> Py.assoc k d = Some v.
Proof.
  cbn. destruct (Py.assoc k d); split; intros [= ->]; reflexivity.
Qed.

Lemma getitem_ok_dict (x : pyval) (k : string) (v : pyval) :
  Py.getitem x k = Ok v -> exists d, x = PyDict d.
Proof. destruct x; try discriminate. intros _. now eexists. Qed.

(** The extraction succeeds exactly on a reply whose text, the fence
    removed, decodes to an object that holds the three fields. *)
Lemma extract_ok_iff chain text data fi q u :
  extract chain text = Ok (data, fi, q, u) <->
  exists reply s d,
    chain text = Ok reply /\ strip_fence reply = Ok s /\
    Json.loads s = Ok (PyDict d) /\ data = PyDict d /\
    Py.assoc "food_item" d = Some fi /\ Py.assoc "quantity" d = Some q /\
    Py.assoc "quantity_unit" d = Some u.
Proof.
  unfold extract. split.
  - destruct (chain text) as [reply|e] eqn:Ec; [|discriminate]. cbn [and_then].
    destruct (strip_fence reply) as [s|e] eqn:Es; [|discriminate]. cbn [and_then].
    destruct (Json.loads s) as [x|e] eqn:El; [|discriminate]. cbn [and_then].
    destruct (Py.getitem x "food_item") as [fi'|e] eqn:E1; [|discriminate].
    cbn [and_then].
    destruct (Py.getitem x "quantity") as [q'|e] eqn:E2; [|discriminate].
    cbn [and_then].
    destruct (Py.getitem x "quantity_unit") as [u'|e] eqn:E3; [|discriminate].
    cbn [and_then]. intros [= <- <- <- <-].
    destruct (getitem_ok_dict _ _ _ E1) as (d & ->).
    exists reply, s, d. rewrite getitem_dict in E1, E2, E3.
    repeat split; assumption || reflexivity.
  - intros (reply & s & d & -> & Hs & Hl & -> & H1 & H2 & H3).
    cbn [and_then]. rewrite Hs. cbn [and_then]. rewrite Hl. cbn [and_then].
    rewrite <- getitem_dict in H1, H2, H3. now rewrite H1, H2, H3.
Qed.

(** A run whose extraction fails prints the error and does nothing else. *)
Lemma log_food_extract_fails rt chain text answer now w e :
  extract chain text = Raise e ->
  Main.log_food rt chain text answer now w = (add_stdout (CouldNotProcess e) w, Ok tt).
Proof.
  intros He. unfold Main.log_food, log_food_try, try_except, bind, lift.
  now rewrite He.
Qed.

(** On a miss, an estimate the reply lacks stops the run before anything is
    stored. *)
Lemma resolve_profile_miss_fails rt data s w k :
  cache w !! s = None ->
  In k ["calories_per_100g"; "protein_per_100g"; "carbs_per_100g"; "fat_per_100g"] ->
  (exists e, Py.getitem data k = Raise e) ->
  exists e, resolve_profile rt data (PyStr s) w = (add_executed SelectCache w, Raise e).
Proof.
  intros Hc Hk (e & He). unfold resolve_profile, bind at 1.
  rewrite get_from_cache_text, Hc. cbn [Py.truthy]. unfold bind, lift.
  destruct (Py.getitem data "calories_per_100g") eqn:E1; [|now eexists].
  destruct (Py.getitem data "protein_per_100g") eqn:E2; [|now eexists].
  destruct (Py.getitem data "carbs_per_100g") eqn:E3; [|now eexists].
  destruct (Py.getitem data "fat_per_100g") eqn:E4; [|now eexists].
  cbn in Hk. destruct Hk as [<-|[<-|[<-|[<-|[]]]]]; congruence.
Qed.

(** C8, as the spec states it, fails twice.  A reply wrapped in a fence
    that does not name its language is not stripped: the text inside the
    fence is valid JSON with all seven keys, and yet the run fails to
    decode the reply.  And a reply without any of the four estimates is
    accepted when the label is cached. *)
Lemma adapter_contract_counterexample :
  (plain_fence_reply = "```" ++ String "010" plain_fence_inside ++ String "010" "```" /\
   Json.loads plain_fence_inside = Ok banana_cake_data /\
   extract (fun _ => Ok plain_fence_reply) "175g of banana cake" = Raise JSONDecodeError /\
   stdout (fst (Main.log_food text_of_no_real (fun _ => Ok plain_fence_reply)
                  "175g of banana cake" (Ok "y") morning empty_world)) =
     [CouldNotProcess JSONDecodeError]) /\
  (Py.getitem (PyDict [("food_item", PyStr "banana cake"); ("quantity", PyInt 100);
                       ("quantity_unit", PyStr "g")]) "calories_per_100g" =
     Raise (KeyError "calories_per_100g") /\
   stdout (fst (Main.log_food text_of_no_real (fun _ => Ok bare_reply)
                  "100g of banana cake" (Ok "n") morning cached_world)) =
     (stdout cached_world ++
      [CacheHit;
       Estimation {| food_item := PyStr "banana cake"; quantity := Int 100;
                     quantity_unit := PyStr "g";
                     calories := 300; protein := 4; carbs := 40; fat := 14 |};
       EntryDiscarded])%list).
Proof. vm_compute. repeat split; reflexivity. Qed.

(** C8, amended. The fence is removed from a reply that has the opening
    [```json]: what is parsed is the text up to the next [```], without the
    blanks around it; any other reply, one in a fence without the word
    [json] included, is parsed as it stands.  The extraction succeeds, with
    the decoded draft, exactly when that text decodes to an object holding
    [food_item], [quantity] and [quantity_unit]; when it fails, the run
    prints the error and changes nothing else.  The four estimates are read
    on a cache miss only: there the lack of one stops the run, and on a hit
    the reply is not asked for them. *)
Theorem adapter_contract rt :
  (forall pre body post,
      no_backtick pre = true -> no_backtick body = true ->
      starts_with_backtick post = false ->
      strip_fence (pre ++ "```json" ++ body ++ "```" ++ post) = Ok (Py.strip body)) /\
  (forall reply,
      Py.contains "```json" reply = false -> strip_fence reply = Ok reply) /\
  (forall chain text data fi q u,
      extract chain text = Ok (data, fi, q, u) <->
      exists reply s d,
        chain text = Ok reply /\ strip_fence reply = Ok s /\
        Json.loads s = Ok (PyDict d) /\ data = PyDict d /\
        Py.assoc "food_item" d = Some fi /\ Py.assoc "quantity" d = Some q /\
        Py.assoc "quantity_unit" d = Some u) /\
  (forall chain text answer now w e,
      extract chain text = Raise e ->
      Main.log_food rt chain text answer now w =
        (add_stdout (CouldNotProcess e) w, Ok tt) /\
      Mtracker.log_food rt (Some chain) text answer now w =
        (add_stdout (CouldNotProcess e) w, Ok tt)) /\
  (forall data s w k,
      cache w !! s = None ->
      In k ["calories_per_100g"; "protein_per_100g"; "carbs_per_100g"; "fat_per_100g"] ->
      (exists e, Py.getitem data k = Raise e) ->
      exists e,
        resolve_profile rt data (PyStr s) w = (add_executed SelectCache w, Raise e)) /\
  (forall data s v w,
      cache w !! s = Some v -> Py.truthy v = true ->
      resolve_profile rt data (PyStr s) w =
        (add_stdout CacheHit (add_executed SelectCache w), Ok v)).
Proof.
  split; [exact strip_fence_fenced|].
  split; [intros reply Hc; unfold strip_fence; now rewrite Hc|].
  split; [exact extract_ok_iff|].
  split.
  { intros chain text answer now w e He. rewrite log_food_copies.
    split; now apply log_food_extract_fails. }
  split; [exact (resolve_profile_miss_fails rt)|].
  exact (resolve_profile_hit rt).
Qed.

Lemma adapter_contract_witness :
  strip_fence banana_cake_reply =
    Ok (Py.strip (String "010" plain_fence_inside ++ String "010" "")) /\
  strip_fence plain_fence_reply = Ok plain_fence_reply /\
  (exists e,
      resolve_profile text_of_no_real
        (PyDict [("food_item", PyStr "banana cake"); ("quantity", PyInt 100);
                 ("quantity_unit", PyStr "g")])
        (PyStr "banana cake") empty_world =
      (add_executed SelectCache empty_world, Raise e)) /\
  resolve_profile text_of_no_real (PyDict []) (PyStr "banana cake") cached_world =
    (add_stdout CacheHit (add_executed SelectCache cached_world), Ok banana_cake_profile).
Proof.
  pose proof (adapter_contract text_of_no_real) as (H1 & H2 & _ & _ & H5 & H6).
  split; [|split; [|split]].
  - exact (H1 "Here is the result: "
             (String "010" plain_fence_inside ++ String "010" "") ""
             ltac:(vm_compute; reflexivity) ltac:(vm_compute; reflexivity)
             ltac:(reflexivity)).
  - exact (H2 plain_fence_reply ltac:(vm_compute; reflexivity)).
  - exact (H5 (PyDict [("food_item", PyStr "banana cake"); ("quantity", PyInt 100);
                       ("quantity_unit", PyStr "g")])
             "banana cake" empty_world "calories_per_100g"
             ltac:(vm_compute; reflexivity) ltac:(cbn; auto)
             ltac:(eexists; vm_compute; reflexivity)).
  - exact (H6 (PyDict []) "banana cake" banana_cake_profile cached_world
             ltac:(vm_compute; reflexivity) ltac:(reflexivity)).
Defined.

(** * Further properties *)

(** ** The cache *)

(** The cache step keeps a profile the cache holds for a label, whatever
    label it is run for: a label that has a profile is a hit, and a miss
    writes under another label. *)
Lemma resolve_profile_keeps rt data label w w1 r s v :
  cache w !! s = Some v -> Py.truthy v = true ->
  resolve_profile rt data label w = (w1, r) ->
  cache w1 !! s = Some v.
Proof.
  intros Hc Ht. unfold resolve_profile, get_from_cache, add_to_cache. unfold_prog.
  destruct (adapt label) as [k|e]; cbn -[as_text]; [|now intros [= <- <-]].
  destruct (as_text rt k) as [s'|] eqn:Ek; cbn -[as_text].
  - destruct (cache w !! s') as [v'|] eqn:Ec'; cbn -[as_text].
    + destruct (Py.truthy v') eqn:Et'; cbn -[as_text]; [now intros [= <- <-]|].
      assert (Hne : s' <> s) by (intros ->; congruence).
      repeat (any_step; cbn -[as_text]); intros [= <- <-]; cbn -[as_text];
        try assumption; now rewrite lookup_insert_ne.
    + assert (Hne : s' <> s) by (intros ->; congruence).
      repeat (any_step; cbn -[as_text]); intros [= <- <-]; cbn -[as_text];
        try assumption; now rewrite lookup_insert_ne.
  - repeat (any_step; cbn -[as_text]); intros [= <- <-]; cbn -[as_text];
      assumption.
Qed.

(** The ways a run of [log_food] can go, by the step that ends it. *)
Lemma log_food_cases rt chain text answer now w :
  (exists e, extract chain text = Raise e /\
     Main.log_food rt chain text answer now w = (add_stdout (CouldNotProcess e) w, Ok tt)) \/
  (exists data label q u w1,
     extract chain text = Ok (data, label, q, u) /\
     ((exists e, resolve_profile rt data label w = (w1, Raise e) /\
         Main.log_food rt chain text answer now w =
           (add_stdout (CouldNotProcess e) w1, Ok tt)) \/
      (exists profile, resolve_profile rt data label w = (w1, Ok profile) /\
         ((exists e, calculate label q u profile = Raise e /\
             Main.log_food rt chain text answer now w =
               (add_stdout (CouldNotProcess e) w1, Ok tt)) \/
          (exists c, calculate label q u profile = Ok c /\
             Main.log_food rt chain text answer now w =
               try_except (confirm rt answer now c)
                 (fun e => print (CouldNotProcess e)) w1))))).
Proof.
  destruct (extract chain text) as [[[[data label] q] u]|e] eqn:He.
  - right. exists data, label, q, u.
    destruct (resolve_profile rt data label w) as [w1 [profile|e]] eqn:Hr.
    + exists w1. split; [reflexivity|]. right. exists profile. split; [reflexivity|].
      rewrite (log_food_resolved _ _ _ _ _ _ _ _ _ _ _ _ He Hr).
      destruct (calculate label q u profile) as [c|e] eqn:Hc.
      * right. now exists c.
      * left. now exists e.
    + exists w1. split; [reflexivity|]. left. exists e. split; [reflexivity|].
      unfold Main.log_food, log_food_try, try_except, bind, lift.
      now rewrite He, Hr.
  - left. exists e. split; [reflexivity|]. now apply log_food_extract_fails.
Qed.

Lemma log_food_keeps rt chain text answer now w s v :
  cache w !! s = Some v -> Py.truthy v = true ->
  cache (fst (Main.log_food rt chain text answer now w)) !! s = Some v.
Proof.
  intros Hc Ht.
  destruct (log_food_cases rt chain text answer now w)
    as [(e & _ & ->)|(data & label & q & u & w1 & _ &
         [(e & Hr & ->)|(profile & Hr & [(e & _ & ->)|(c & _ & ->)])])];
    cbn; try assumption;
    try exact (resolve_profile_keeps _ _ _ _ _ _ _ _ Hc Ht Hr).
  destruct (try_except _ _ w1) as [w' r] eqn:Hrun.
  apply confirm_frame in Hrun as (Hk & _). cbn. rewrite Hk.
  exact (resolve_profile_keeps _ _ _ _ _ _ _ _ Hc Ht Hr).
Qed.

(** X1. The cache gives back what was put in: after [add_to_cache] of a
    text label, [get_from_cache] of that label returns the value stored,
    the lookup of any other text label is what it was, and a value put
    under the same label later replaces the earlier one. *)
Theorem cache_round_trip rt s v w :
  let w1 := fst (add_to_cache rt (PyStr s) v w) in
  get_from_cache rt (PyStr s) w1 = (add_executed SelectCache w1, Ok v) /\
  (forall s', s' <> s ->
     snd (get_from_cache rt (PyStr s') w1) = snd (get_from_cache rt (PyStr s') w)) /\
  (forall v2,
     cache (fst (add_to_cache rt (PyStr s) v2 w1)) =
     cache (fst (add_to_cache rt (PyStr s) v2 w))).
Proof.
  intros w1. unfold w1. rewrite add_to_cache_text. cbn [fst].
  split; [|split].
  - rewrite get_from_cache_text. cbn. now rewrite lookup_insert_eq.
  - intros s' Hne. rewrite !get_from_cache_text. cbn.
    now rewrite lookup_insert_ne by congruence.
  - intros v2. rewrite !add_to_cache_text. cbn. apply insert_insert_eq.
Qed.

(** X2. A profile the cache holds is never replaced by [log_food]: when a
    label has a (non-empty) profile before a run, it has the same profile
    after it, whatever the reply, the answer and the outcome of the run,
    in both copies and with or without a chain. *)
Theorem established_profile_is_kept rt chain text answer now w s v :
  cache w !! s = Some v -> Py.truthy v = true ->
  cache (fst (Main.log_food rt chain text answer now w)) !! s = Some v /\
  (forall chain',
     cache (fst (Mtracker.log_food rt chain' text answer now w)) !! s = Some v).
Proof.
  intros Hc Ht. split; [now apply log_food_keeps|].
  intros [chain'|]; [|exact Hc].
  rewrite log_food_copies. now apply log_food_keeps.
Qed.

Lemma established_profile_is_kept_witness :
  cache (fst (Main.log_food text_of_no_real (fun _ => Ok bare_reply)
                "100g of banana cake" (Ok "y") morning cached_world))
    !! "banana cake" = Some banana_cake_profile /\
  (forall chain',
     cache (fst (Mtracker.log_food text_of_no_real chain'
                   "100g of banana cake" (Ok "y") morning cached_world))
       !! "banana cake" = Some banana_cake_profile).
Proof.
  refine (established_profile_is_kept text_of_no_real (fun _ => Ok bare_reply)
            "100g of banana cake" (Ok "y") morning cached_world
            "banana cake" banana_cake_profile _ _);
    vm_compute; reflexivity.
Defined.

(** A profile that is not usable stops every calculation. *)
Lemma calculate_unusable label q u profile :
  usable profile = false -> exists e, calculate label q u profile = Raise e.
Proof.
  unfold usable, field_usable, calculate, Py.mul. intros Hu.
  destruct (Py.truediv q 100) as [m|e]; [|now eexists]. cbn [and_then].
  destruct (Py.as_number q) as [n|e]; [|now eexists]. cbn [and_then].
  destruct (Py.getitem profile "calories") as [vc|e]; [|now eexists]. cbn [and_then].
  destruct (Py.as_float vc) as [pc|e]; [|now eexists]. cbn [and_then].
  destruct (Py.getitem profile "protein") as [vp|e]; [|now eexists]. cbn [and_then].
  destruct (Py.as_float vp) as [pp|e]; [|now eexists]. cbn [and_then].
  destruct (Py.getitem profile "carbs") as [vcb|e]; [|now eexists]. cbn [and_then].
  destruct (Py.as_float vcb) as [pcb|e]; [|now eexists]. cbn [and_then].
  destruct (Py.getitem profile "fat") as [vf|e]; [|now eexists]. cbn [and_then].
  destruct (Py.as_float vf) as [pf|e]; [|now eexists].
  discriminate Hu.
Qed.

(** X3. A profile in the cache that lacks a macro field, or holds
    something that is not a number in one, blocks its label: every run
    whose reply names the label is a cache hit that ends in an error,
    whatever estimates and quantity the reply holds and whatever the
    answer; nothing is logged and the cache stays as it is. *)
Theorem unusable_profile_blocks_label rt chain text answer now w s profile
    data q u :
  cache w !! s = Some profile -> Py.truthy profile = true ->
  usable profile = false ->
  extract chain text = Ok (data, PyStr s, q, u) ->
  exists e,
    Main.log_food rt chain text answer now w =
      (add_stdout (CouldNotProcess e)
         (add_stdout CacheHit (add_executed SelectCache w)), Ok tt) /\
    Mtracker.log_food rt (Some chain) text answer now w =
      Main.log_food rt chain text answer now w.
Proof.
  intros Hc Ht Hu He.
  destruct (calculate_unusable (PyStr s) q u profile Hu) as (e & Hcalc).
  exists e. split; [|reflexivity].
  rewrite (log_food_resolved _ _ _ _ _ _ _ _ _ _ _ _ He
             (resolve_profile_hit rt data s profile w Hc Ht)).
  now rewrite Hcalc.
Qed.

Lemma unusable_profile_blocks_label_witness :
  exists e,
    Main.log_food text_of_no_real (fun _ => Ok banana_cake_reply)
      "175g of banana cake" (Ok "y") evening worded_world =
      (add_stdout (CouldNotProcess e)
         (add_stdout CacheHit (add_executed SelectCache worded_world)), Ok tt) /\
    Mtracker.log_food text_of_no_real (Some (fun _ => Ok banana_cake_reply))
      "175g of banana cake" (Ok "y") evening worded_world =
    Main.log_food text_of_no_real (fun _ => Ok banana_cake_reply)
      "175g of banana cake" (Ok "y") evening worded_world.
Proof.
  refine (unusable_profile_blocks_label text_of_no_real (fun _ => Ok banana_cake_reply)
            "175g of banana cake" (Ok "y") evening worded_world
            "banana cake" worded_profile banana_cake_data (PyInt 175) (PyStr "g")
            _ _ _ _);
    vm_compute; reflexivity.
Defined.

(** X4. The estimates are stored before they are used: on a miss, a reply
    that holds the four estimates has them stored under its label even
    when the calculation that follows fails (a quantity or an estimate that
    is not a number); the run prints the error and logs nothing. *)
Theorem failed_run_still_caches rt chain text answer now w
    data s q u vc vp vcb vf e :
  extract chain text = Ok (data, PyStr s, q, u) ->
  cache w !! s = None ->
  Py.getitem data "calories_per_100g" = Ok vc ->
  Py.getitem data "protein_per_100g" = Ok vp ->
  Py.getitem data "carbs_per_100g" = Ok vcb ->
  Py.getitem data "fat_per_100g" = Ok vf ->
  let profile :=
    PyDict [("calories", vc); ("protein", vp); ("carbs", vcb); ("fat", vf)] in
  calculate (PyStr s) q u profile = Raise e ->
  let w' := fst (Main.log_food rt chain text answer now w) in
  cache w' !! s = Some profile /\
  food_log w' = food_log w /\
  stdout w' = (stdout w ++ [CouldNotProcess e])%list /\
  Mtracker.log_food rt (Some chain) text answer now w =
    Main.log_food rt chain text answer now w.
Proof.
  intros He Hc H1 H2 H3 H4 profile Hcalc w'.
  pose proof (resolve_profile_miss rt data s w vc vp vcb vf Hc H1 H2 H3 H4) as Hr.
  cbv zeta in Hr. fold profile in Hr.
  assert (Hrun : Main.log_food rt chain text answer now w =
                   (add_stdout (CouldNotProcess e)
                      (set_cache (<[s := profile]> (cache w)) (cache_null w)
                         (add_executed ReplaceCache (add_executed SelectCache w))),
                    Ok tt)).
  { now rewrite (log_food_resolved _ _ _ _ _ _ _ _ _ _ _ _ He Hr), Hcalc. }
  unfold w'. split; [|split; [|split]]; [| | |reflexivity]; rewrite Hrun; cbn.
  - apply lookup_insert_eq.
  - reflexivity.
  - reflexivity.
Qed.

Lemma failed_run_still_caches_witness :
  let w' := fst (Main.log_food text_of_no_real (fun _ => Ok worded_reply)
                   "175g of banana cake" (Ok "y") morning empty_world) in
  cache w' !! "banana cake" = Some worded_profile /\
  food_log w' = food_log empty_world /\
  stdout w' = (stdout empty_world ++ [CouldNotProcess TypeError])%list /\
  Mtracker.log_food text_of_no_real (Some (fun _ => Ok worded_reply))
    "175g of banana cake" (Ok "y") morning empty_world =
  Main.log_food text_of_no_real (fun _ => Ok worded_reply)
    "175g of banana cake" (Ok "y") morning empty_world.
Proof.
  refine (failed_run_still_caches text_of_no_real (fun _ => Ok worded_reply)
            "175g of banana cake" (Ok "y") morning empty_world
            worded_data "banana cake" (PyInt 175) (PyStr "g")
            (PyStr "300 kcal") (PyInt 4) (PyInt 40) (PyInt 14) TypeError
            _ _ _ _ _ _ _);
    vm_compute; reflexivity.
Defined.

(** ** The keys of the log *)

Lemma increasing_snoc (ids : list Z) (i : Z) :
  increasing ids -> Forall (fun j => j < i) ids -> increasing (ids ++ [i])%list.
Proof.
  induction ids as [|x ids IH]; cbn; [auto|].
  intros [Hx Hinc] Hall. inversion Hall as [|? ? Hxi Hrest]; subst.
  split; [|now apply IH].
  apply Forall_app. split; [assumption|]. now constructor.
Qed.

Lemma increasing_filter (p : LogRow -> bool) (rows : list LogRow) :
  increasing (map row_id rows) -> increasing (map row_id (List.filter p rows)).
Proof.
  induction rows as [|x rows IH]; cbn; [auto|].
  intros [Hx Hinc]. destruct (p x); cbn; [|now apply IH].
  split; [|now apply IH].
  rewrite List.Forall_forall in Hx |- *. intros j Hj. apply Hx.
  rewrite in_map_iff in Hj |- *. destruct Hj as (r & <- & Hr).
  exists r. split; [reflexivity|]. apply filter_In in Hr. tauto.
Qed.

Lemma increasing_NoDup (ids : list Z) : increasing ids -> List.NoDup ids.
Proof.
  induction ids as [|x ids IH]; cbn; [intros _; constructor|].
  intros [Hx Hinc]. constructor; [|now apply IH].
  rewrite List.Forall_forall in Hx. intros Hin. specialize (Hx x Hin). lia.
Qed.

Lemma well_keyed_same (w w' : World) :
  food_log w' = food_log w -> food_log_seq w' = food_log_seq w ->
  well_keyed w -> well_keyed w'.
Proof. unfold well_keyed. now intros -> ->. Qed.

Lemma well_keyed_append (w w' : World) (row : LogRow) :
  food_log w' = (food_log w ++ [row])%list ->
  row_id row = fresh_id w -> food_log_seq w' = fresh_id w ->
  well_keyed w -> well_keyed w'.
Proof.
  unfold well_keyed. intros -> Hid -> [Hinc Hall].
  assert (Hlt : food_log_seq w < fresh_id w) by (unfold fresh_id; lia).
  split.
  - rewrite map_app. cbn. apply increasing_snoc; [assumption|].
    rewrite List.Forall_forall in Hall |- *. intros j Hj.
    apply in_map_iff in Hj as (r & <- & Hr).
    specialize (Hall r Hr). cbn in Hall. lia.
  - apply Forall_app. split.
    + rewrite List.Forall_forall in Hall |- *. intros r Hr. specialize (Hall r Hr).
      cbn in Hall. lia.
    + constructor; [lia|constructor].
Qed.

Lemma well_keyed_without (w w' : World) (i : Z) :
  food_log w' = without_id i (food_log w) -> food_log_seq w' = food_log_seq w ->
  well_keyed w -> well_keyed w'.
Proof.
  unfold well_keyed, without_id. intros -> -> [Hinc Hall]. split.
  - now apply increasing_filter.
  - rewrite List.Forall_forall in Hall |- *. intros r Hr. apply Hall.
    apply filter_In in Hr. tauto.
Qed.

(** [save_entry] either fails and leaves the log as it is, or appends one
    row under a fresh id. *)
Lemma save_entry_cases rt now c w w' r :
  save_entry rt now c w = (w', r) ->
  (food_log w' = food_log w /\ food_log_seq w' = food_log_seq w /\
   (exists e, r = Raise e) /\
   (executed w' = executed w \/ executed w' = (executed w ++ [InsertFoodLog])%list)) \/
  (exists row,
     food_log w' = (food_log w ++ [row])%list /\ row_id row = fresh_id w /\
     food_log_seq w' = fresh_id w /\ row_timestamp row = isoformat now /\
     r = Ok tt /\ executed w' = (executed w ++ [InsertFoodLog])%list).
Proof.
  unfold save_entry. unfold_prog. cbn.
  repeat (any_step; cbn); intros [= <- <-]; cbn;
    try (left; repeat split; eauto; fail).
  right. eexists. repeat split; reflexivity.
Qed.

(** The last step of [log_food], from the estimation on: it returns, and
    either logs nothing or appends one row under a fresh id. *)
Lemma confirm_cases rt answer now c w w' r :
  try_except (confirm rt answer now c) (fun e => print (CouldNotProcess e)) w = (w', r) ->
  r = Ok tt /\
  ((food_log w' = food_log w /\ food_log_seq w' = food_log_seq w /\
    (executed w' = executed w \/ executed w' = (executed w ++ [InsertFoodLog])%list)) \/
   (exists row,
      food_log w' = (food_log w ++ [row])%list /\ row_id row = fresh_id w /\
      food_log_seq w' = fresh_id w /\ row_timestamp row = isoformat now /\
      affirmative answer = true /\
      executed w' = (executed w ++ [InsertFoodLog])%list)).
Proof.
  destruct (affirmative answer) eqn:Ha.
  - destruct answer as [a|e]; [|discriminate]. cbn in Ha.
    unfold confirm, try_except, bind at 1. unfold print at 1, modify.
    unfold bind at 1, lift. rewrite Ha. unfold bind at 1.
    destruct (save_entry rt now c (add_stdout (Estimation c) w)) as [w2 r2] eqn:Hs.
    apply save_entry_cases in Hs
      as [(H1 & H2 & (e & ->) & H3)|(row & H1 & H2 & H3 & H4 & -> & H5)];
      intros [= <- <-]; cbn; (split; [reflexivity|]).
    + left. rewrite H1, H2. cbn. repeat split. exact H3.
    + right. exists row. rewrite H1, H3. cbn. repeat split; assumption.
  - destruct (confirm_rejected rt answer now c w Ha) as (l & -> & _).
    intros [= <- <-]. cbn. split; [reflexivity|]. left. auto.
Qed.

(** What a run of [log_food] does to the log. *)
Lemma log_food_log_cases rt chain text answer now w :
  let w' := fst (Main.log_food rt chain text answer now w) in
  (food_log w' = food_log w /\ food_log_seq w' = food_log_seq w) \/
  (exists row,
     food_log w' = (food_log w ++ [row])%list /\ row_id row = fresh_id w /\
     food_log_seq w' = fresh_id w /\ row_timestamp row = isoformat now /\
     affirmative answer = true).
Proof.
  intros w'. unfold w'.
  destruct (log_food_cases rt chain text answer now w)
    as [(e & _ & ->)|(data & label & q & u & w1 & _ &
         [(e & Hr & ->)|(profile & Hr & [(e & _ & ->)|(c & _ & ->)])])];
    cbn [fst]; try (left; split; reflexivity);
    apply resolve_profile_frame in Hr as (Hl & Hs & _);
    try (left; cbn; split; assumption).
  destruct (try_except _ _ w1) as [w2 r] eqn:Hrun.
  apply confirm_cases in Hrun
    as (_ & [(H1 & H2 & _)|(row & H1 & H2 & H3 & H4 & H5 & _)]); cbn [fst].
  - left. rewrite H1, H2. auto.
  - right. exists row. unfold fresh_id in *. rewrite H1, H2, H3, Hl, Hs. auto.
Qed.

(** What a removal does to the log. *)
Lemma remove_last_cases sql_sum now now_summary now_save w :
  let w' := fst (Mtracker.remove_last_entry sql_sum now now_summary now_save w) in
  food_log_seq w' = food_log_seq w /\ cache w' = cache w /\
  (food_log w' = food_log w \/
   exists tomorrow r,
     next_day (on now) = Ok tomorrow /\
     last_by_id (todays_rows now tomorrow w) = Some r /\
     food_log w' = without_id (row_id r) (food_log w)).
Proof.
  intros w'. unfold w'.
  destruct (next_day (on now)) as [tomorrow|e] eqn:Hn.
  - destruct (last_by_id (todays_rows now tomorrow w)) as [r|] eqn:Hlast.
    + rewrite (remove_last_some _ _ _ _ _ _ _ Hn Hlast).
      destruct (Mtracker.get_todays_summary _ _ _ _) as [w2 r2] eqn:Hsum.
      apply summary_frame in Hsum as (H1 & H2 & H3). cbn [fst].
      rewrite H1, H2, H3. cbn. split; [reflexivity|]. split; [reflexivity|].
      right. exists tomorrow, r. auto.
    + assert (Hrun : Mtracker.remove_last_entry sql_sum now now_summary now_save w =
                       (add_stdout NoEntriesToRemove (add_executed SelectLast w), Ok tt)).
      { unfold Mtracker.remove_last_entry. unfold_prog. rewrite Hn. cbn.
        unfold todays_rows, rows_in in Hlast. unfold rows_in. cbn. now rewrite Hlast. }
      rewrite Hrun. cbn. auto.
  - unfold Mtracker.remove_last_entry. unfold_prog. rewrite Hn. cbn. auto.
Qed.

Lemma log_food_well_keyed rt chain text answer now w :
  well_keyed w ->
  well_keyed (fst (Main.log_food rt chain text answer now w)) /\
  food_log_seq w <= food_log_seq (fst (Main.log_food rt chain text answer now w)).
Proof.
  intros Hw.
  destruct (log_food_log_cases rt chain text answer now w)
    as [(H1 & H2)|(row & H1 & H2 & H3 & _)].
  - split; [exact (well_keyed_same _ _ H1 H2 Hw)|lia].
  - split; [exact (well_keyed_append _ _ _ H1 H2 H3 Hw)|].
    rewrite H3. unfold fresh_id. lia.
Qed.

Lemma remove_last_well_keyed sql_sum now now_summary now_save w :
  well_keyed w ->
  well_keyed (fst (Mtracker.remove_last_entry sql_sum now now_summary now_save w)).
Proof.
  intros Hw.
  destruct (remove_last_cases sql_sum now now_summary now_save w)
    as (Hs & _ & [Hl|(tomorrow & r & _ & _ & Hl)]).
  - exact (well_keyed_same _ _ Hl Hs Hw).
  - exact (well_keyed_without _ _ _ Hl Hs Hw).
Qed.

(** X5. The ids of the log are never reused.  In a log whose ids grow
    along the table and stay below the counter, no two rows share an id;
    [save_entry] keeps the log so and gives a row it adds an id above the
    counter, hence above every id handed out before, removed or not;
    [log_food] and [remove_last_entry] keep the log so as well, and the
    removal leaves the counter where it was. *)
Theorem ids_are_never_reused w :
  well_keyed w ->
  List.NoDup (map row_id (food_log w)) /\
  (forall rt now c,
     let w' := fst (save_entry rt now c w) in
     well_keyed w' /\ food_log_seq w <= food_log_seq w' /\
     forall row, In row (food_log w') ->
       In row (food_log w) \/ food_log_seq w < row_id row) /\
  (forall rt chain text answer now,
     well_keyed (fst (Main.log_food rt chain text answer now w)) /\
     forall chain',
       well_keyed (fst (Mtracker.log_food rt chain' text answer now w))) /\
  (forall sql_sum now now_summary now_save,
     let w' := fst (Mtracker.remove_last_entry sql_sum now now_summary now_save w) in
     well_keyed w' /\ food_log_seq w' = food_log_seq w).
Proof.
  intros Hw. split; [|split; [|split]].
  - apply increasing_NoDup, Hw.
  - intros rt now c w'. unfold w'.
    destruct (save_entry rt now c w) as [w1 r] eqn:Hs. cbn [fst].
    apply save_entry_cases in Hs
      as [(H1 & H2 & _)|(row & H1 & H2 & H3 & _)].
    + split; [exact (well_keyed_same _ _ H1 H2 Hw)|]. split; [lia|].
      intros row Hin. left. now rewrite <- H1.
    + split; [exact (well_keyed_append _ _ _ H1 H2 H3 Hw)|].
      assert (Hlt : food_log_seq w < fresh_id w) by (unfold fresh_id; lia).
      split; [lia|].
      intros row' Hin. rewrite H1 in Hin. apply in_app_or in Hin as [Hin|[<-|[]]].
      * now left.
      * right. lia.
  - intros rt chain text answer now. split.
    + now apply log_food_well_keyed.
    + intros [chain'|]; [|exact Hw].
      rewrite log_food_copies. now apply log_food_well_keyed.
  - intros sql_sum now now_summary now_save w'. unfold w'. split.
    + now apply remove_last_well_keyed.
    + apply remove_last_cases.
Qed.

Lemma ids_are_never_reused_witness :
  List.NoDup (map row_id (food_log two_meals_world)) /\
  (forall rt now c,
     let w' := fst (save_entry rt now c two_meals_world) in
     well_keyed w' /\ food_log_seq two_meals_world <= food_log_seq w' /\
     forall row, In row (food_log w') ->
       In row (food_log two_meals_world) \/ food_log_seq two_meals_world < row_id row) /\
  (forall rt chain text answer now,
     well_keyed (fst (Main.log_food rt chain text answer now two_meals_world)) /\
     forall chain',
       well_keyed (fst (Mtracker.log_food rt chain' text answer now two_meals_world))) /\
  (forall sql_sum now now_summary now_save,
     let w' := fst (Mtracker.remove_last_entry sql_sum now now_summary now_save
                      two_meals_world) in
     well_keyed w' /\ food_log_seq w' = food_log_seq two_meals_world).
Proof.
  refine (ids_are_never_reused two_meals_world _).
  split; cbn; repeat (first [apply conj | apply Forall_nil | apply Forall_cons | exact I]);
    cbn; lia.
Defined.

(** ** Removing the last entry, again *)

Lemma last_by_id_max (rows : list LogRow) (r : LogRow) :
  last_by_id rows = Some r ->
  In r rows /\ forall r', In r' rows -> row_id r' <= row_id r.
Proof.
  revert r. induction rows as [|x rows IH]; intros r; [discriminate|].
  cbn. destruct (last_by_id rows) as [r0|] eqn:Hl.
  - destruct (IH r0 eq_refl) as (Hin & Hmax).
    destruct (row_id x <? row_id r0) eqn:Hlt; intros [= <-].
    + apply Z.ltb_lt in Hlt. split; [now right|].
      intros r' [<-|Hr']; [lia|now apply Hmax].
    + apply Z.ltb_ge in Hlt. split; [now left|].
      intros r' [<-|Hr']; [lia|]. specialize (Hmax r' Hr'). lia.
  - intros [= <-]. destruct rows as [|y rows].
    + split; [now left|]. intros r' [<-|[]]. lia.
    + cbn in Hl. destruct (last_by_id rows); [destruct (_ <? _)|]; discriminate.
Qed.

Lemma increasing_app (a b : list Z) :
  increasing (a ++ b)%list ->
  increasing b /\ forall x y, In x a -> In y b -> x < y.
Proof.
  induction a as [|i a IH]; cbn; [intros H; split; [exact H|intros ? ? []]|].
  intros [Hi Hinc]. destruct (IH Hinc) as (Hb & Hab). split; [exact Hb|].
  intros x y [<-|Hx] Hy; [|now apply Hab].
  rewrite List.Forall_forall in Hi. apply Hi, in_or_app. now right.
Qed.

(** In a log whose ids grow, the row of an id is the only row that
    [DELETE ... WHERE id = ?] takes out. *)
Lemma without_id_split (before after : list LogRow) (r : LogRow) :
  increasing (map row_id (before ++ r :: after)%list) ->
  without_id (row_id r) (before ++ r :: after)%list = (before ++ after)%list.
Proof.
  intros Hinc. rewrite map_app in Hinc. cbn in Hinc.
  destruct (increasing_app _ _ Hinc) as ((Hafter & _) & Hbefore).
  unfold without_id. rewrite List.filter_app. cbn. rewrite Z.eqb_refl. cbn.
  f_equal.
  - apply forallb_filter_id. apply forallb_forall. intros x Hx.
    apply negb_true_iff, Z.eqb_neq.
    assert (row_id x < row_id r); [|lia].
    apply Hbefore; [now apply in_map|now left].
  - apply forallb_filter_id. apply forallb_forall. intros x Hx.
    apply negb_true_iff, Z.eqb_neq.
    rewrite List.Forall_forall in Hafter.
    assert (row_id r < row_id x); [|lia].
    apply Hafter. now apply in_map.
Qed.

(** X6. A removal takes out one row, the newest of the day.  When the log
    is well keyed and today has an entry, [remove_last_entry] deletes the
    row of today's range that has the highest id and no other: the rows
    before it and the rows after it, of this day or of another, stay in
    their order. *)
Theorem removal_takes_one_row sql_sum now now_summary now_save tomorrow w r :
  well_keyed w ->
  next_day (on now) = Ok tomorrow ->
  last_by_id (todays_rows now tomorrow w) = Some r ->
  let w' := fst (Mtracker.remove_last_entry sql_sum now now_summary now_save w) in
  in_range (isoformat (midnight (on now))) (isoformat (midnight tomorrow)) r = true /\
  (forall r', In r' (todays_rows now tomorrow w) -> row_id r' <= row_id r) /\
  exists before after,
    food_log w = (before ++ r :: after)%list /\
    food_log w' = (before ++ after)%list.
Proof.
  intros [Hinc _] Hn Hlast w'.
  destruct (last_by_id_max _ _ Hlast) as (Hin & Hmax).
  unfold todays_rows, rows_in in Hin. apply filter_In in Hin as (Hin & Hrange).
  split; [exact Hrange|]. split; [exact Hmax|].
  destruct (in_split _ _ Hin) as (before & after & Hsplit).
  exists before, after. split; [exact Hsplit|].
  unfold w'. rewrite (remove_last_some _ _ _ _ _ _ _ Hn Hlast).
  destruct (Mtracker.get_todays_summary _ _ _ _) as [w2 r2] eqn:Hsum.
  apply summary_frame in Hsum as (H1 & _). cbn [fst]. rewrite H1. cbn.
  rewrite Hsplit in Hinc |- *. now apply without_id_split.
Qed.

Lemma removal_takes_one_row_witness :
  let w' := fst (Mtracker.remove_last_entry running_sum evening evening evening
                   two_meals_world) in
  in_range (isoformat (midnight (on evening)))
    (isoformat (midnight {| year := 2024; month := 3; day := 1 |})) rice_row = true /\
  (forall r', In r' (todays_rows evening {| year := 2024; month := 3; day := 1 |}
                       two_meals_world) ->
     row_id r' <= row_id rice_row) /\
  exists before after,
    food_log two_meals_world = (before ++ rice_row :: after)%list /\
    food_log w' = (before ++ after)%list.
Proof.
  refine (removal_takes_one_row running_sum evening evening evening
            {| year := 2024; month := 3; day := 1 |} two_meals_world rice_row _ _ _).
  - split; cbn; repeat (first [apply conj | apply Forall_nil | apply Forall_cons | exact I]);
    cbn; lia.
  - vm_compute; reflexivity.
  - vm_compute; reflexivity.
Defined.

(** X7. A removal that leaves entries behind refreshes the summary of the
    day: when the clock stays within the day and the sums over the rows
    that remain are numbers, the row of [daily_summary] for today holds
    those sums after [remove_last_entry]. *)
Theorem removal_refreshes_summary sql_sum now now_summary now_save tomorrow w
    r r1 rows :
  next_day (on now) = Ok tomorrow ->
  on now_summary = on now -> on now_save = on now ->
  last_by_id (todays_rows now tomorrow w) = Some r ->
  without_id (row_id r) (todays_rows now tomorrow w) = r1 :: rows ->
  PrimFloat.is_nan (sql_sum (map row_calories (r1 :: rows))) = false ->
  PrimFloat.is_nan (sql_sum (map row_protein (r1 :: rows))) = false ->
  PrimFloat.is_nan (sql_sum (map row_carbs (r1 :: rows))) = false ->
  PrimFloat.is_nan (sql_sum (map row_fat (r1 :: rows))) = false ->
  let w' := fst (Mtracker.remove_last_entry sql_sum now now_summary now_save w) in
  food_log w' = without_id (row_id r) (food_log w) /\
  todays_rows now tomorrow w' = r1 :: rows /\
  daily_summary w' !! date_isoformat (on now) =
    Some {| total_calories := sql_sum (map row_calories (r1 :: rows));
            total_protein := sql_sum (map row_protein (r1 :: rows));
            total_carbs := sql_sum (map row_carbs (r1 :: rows));
            total_fat := sql_sum (map row_fat (r1 :: rows)) |}.
Proof.
  intros Hn Hs Hsave Hlast Hrest Hc Hp Hcb Hf w'.
  set (w1 := add_stdout UpdatingSummary
       (add_stdout EntryRemoved
          (set_food_log (without_id (row_id r) (food_log w)) (food_log_seq w)
             (add_executed DeleteFoodLog
                (add_stdout
                   (RemovingLastEntry (row_food_item r) (row_quantity r)
                      (row_quantity_unit r))
                   (add_executed SelectLast w)))))).
  assert (Hrows : todays_rows now_summary tomorrow w1 = r1 :: rows).
  { unfold todays_rows, rows_in, w1. cbn [food_log add_stdout set_food_log].
    unfold without_id in *. rewrite Hs, filter_filter_comm. exact Hrest. }
  assert (Hw' : w' = fst (Mtracker.get_todays_summary sql_sum now_summary now_save w1)).
  { unfold w'. now rewrite (remove_last_some _ _ _ _ _ _ _ Hn Hlast). }
  rewrite <- Hs in Hn.
  rewrite (summary_totals sql_sum now_summary now_save tomorrow w1 _ _ _ _ Hn) in Hw'
    by (rewrite Hrows; now apply sum_of_cons).
  cbn in Hw'. rewrite Hw'. cbn. split; [reflexivity|]. split.
  - unfold todays_rows, rows_in in Hrows |- *. cbn in Hrows |- *.
    now rewrite <- Hs.
  - unfold strftime_Ymd. rewrite Hsave. apply lookup_insert_eq.
Qed.

Lemma removal_refreshes_summary_witness :
  let w' := fst (Mtracker.remove_last_entry running_sum evening evening evening
                   two_meals_world) in
  food_log w' = without_id (row_id rice_row) (food_log two_meals_world) /\
  todays_rows evening {| year := 2024; month := 3; day := 1 |} w' =
    [{| row_id := 2; row_timestamp := "2024-02-29T09:05:00.001500";
        row_food_item := "banana cake"; row_quantity := 175;
        row_quantity_unit := "g";
        row_calories := 525; row_protein := 7; row_carbs := 70;
        row_fat := 24.5 |}] /\
  daily_summary w' !! date_isoformat (on evening) =
    Some {| total_calories := 525; total_protein := 7;
            total_carbs := 70; total_fat := 24.5 |}.
Proof.
  refine (removal_refreshes_summary running_sum evening evening evening
            {| year := 2024; month := 3; day := 1 |} two_meals_world rice_row
            {| row_id := 2; row_timestamp := "2024-02-29T09:05:00.001500";
               row_food_item := "banana cake"; row_quantity := 175;
               row_quantity_unit := "g";
               row_calories := 525; row_protein := 7; row_carbs := 70;
               row_fat := 24.5 |}
            [] _ _ _ _ _ _ _ _ _);
    vm_compute; reflexivity.
Defined.

(** ** Dates *)

(** [strptime] returns days that exist only. *)
Lemma strptime_valid (s : string) (d : date) :
  strptime_Ymd s = Ok d -> valid_date d = true.
Proof.
  unfold strptime_Ymd.
  destruct (Py.split s "-") as [|y [|m [|dd [|x l]]]]; try discriminate.
  destruct (field_Y y) as [yy|]; [|discriminate].
  destruct (field_m m) as [mm|]; [|discriminate].
  destruct (field_d dd) as [ddd|]; [|discriminate].
  destruct (valid_date _) eqn:Hv; [|discriminate].
  now intros [= <-].
Qed.

(** X8. A date is read in any spelling [strptime] accepts and used in one:
    when the text typed parses as a day, that day exists, its ISO spelling
    parses as the same day, and the summary for a date and the meals for a
    date do for the text typed what they do for the ISO spelling, since
    the key and the range they query are built from the day, not from the
    text. *)
Theorem accepted_date_is_normalised s d w :
  strptime_Ymd s = Ok d ->
  valid_date d = true /\
  strptime_Ymd (date_isoformat d) = Ok d /\
  Mtracker.get_summary_for_date s w =
    Mtracker.get_summary_for_date (date_isoformat d) w /\
  History.get_meals_for_date s w =
    History.get_meals_for_date (date_isoformat d) w.
Proof.
  intros Hs. pose proof (strptime_valid s d Hs) as Hv.
  pose proof (strptime_isoformat d Hv) as Hiso.
  split; [exact Hv|]. split; [exact Hiso|].
  unfold Mtracker.get_summary_for_date, History.get_meals_for_date.
  now rewrite Hs, Hiso.
Qed.

Lemma accepted_date_is_normalised_witness :
  valid_date leap_day = true /\
  strptime_Ymd (date_isoformat leap_day) = Ok leap_day /\
  Mtracker.get_summary_for_date "2024-2-29" summed_world =
    Mtracker.get_summary_for_date (date_isoformat leap_day) summed_world /\
  History.get_meals_for_date "2024-2-29" summed_world =
    History.get_meals_for_date (date_isoformat leap_day) summed_world.
Proof.
  refine (accepted_date_is_normalised "2024-2-29" leap_day summed_world _).
  vm_compute; reflexivity.
Defined.

(** ** The range of the meals *)

(** An instant is written before the last instant of its day, unless it is
    that instant. *)
Lemma before_last_instant (t : datetime) :
  valid t = true ->
  String.ltb (isoformat t) (isoformat (last_instant (on t))) =
    negb (is_last_instant t).
Proof.
  intros Hv. unfold valid in Hv.
  repeat (apply andb_prop in Hv as [Hv ?]).
  unfold is_last_instant, String.ltb, isoformat, last_instant.
  cbn [on hour minute second microsecond].
  rewrite string_compare_app by reflexivity. rewrite string_compare_refl.
  rewrite (string_compare_app "T" "T") by reflexivity. simpl (String.compare "T" "T").
  rewrite string_compare_app by (now rewrite !pad_length).
  rewrite pad_compare by (simpl; lia).
  rewrite (string_compare_app ":" ":") by reflexivity. simpl (String.compare ":" ":").
  rewrite string_compare_app by (now rewrite !pad_length).
  rewrite pad_compare by (simpl; lia).
  rewrite (string_compare_app ":" ":") by reflexivity. simpl (String.compare ":" ":").
  rewrite string_compare_app by (now rewrite !pad_length).
  rewrite pad_compare by (simpl; lia).
  change (999999 =? 0) with false. cbv iota.
  destruct (Z.compare_spec (hour t) 23) as [Eh|Lh|Gh]; [|
    assert ((hour t =? 23) = false) as -> by (apply Z.eqb_neq; lia); reflexivity|lia].
  destruct (Z.compare_spec (minute t) 59) as [Em|Lm|Gm]; [|
    assert ((minute t =? 59) = false) as -> by (apply Z.eqb_neq; lia);
    now rewrite andb_false_r|lia].
  destruct (Z.compare_spec (second t) 59) as [Es|Ls|Gs]; [|
    assert ((second t =? 59) = false) as -> by (apply Z.eqb_neq; lia);
    now rewrite andb_false_r|lia].
  rewrite Eh, Em, Es. cbn [Z.eqb Pos.eqb andb].
  destruct (microsecond t =? 0) eqn:E0.
  - apply Z.eqb_eq in E0. rewrite E0. reflexivity.
  - rewrite (string_compare_app "." ".") by reflexivity. simpl (String.compare "." ".").
    rewrite pad_compare by (simpl; lia).
    destruct (Z.compare_spec (microsecond t) 999999) as [Eu|Lu|Gu]; [| |lia].
    + now rewrite Eu.
    + assert ((microsecond t =? 999999) = false) as -> by (apply Z.eqb_neq; lia).
      reflexivity.
Qed.

(** ** The order of the meals *)

Lemma leb_total (a b : string) : String.leb a b = false -> String.leb b a = true.
Proof.
  unfold String.leb. rewrite (String.compare_antisym b a).
  destruct (String.compare a b); cbn; congruence.
Qed.

Lemma insert_by_timestamp_perm (x : LogRow) (rows : list LogRow) :
  Permutation (insert_by_timestamp x rows) (x :: rows).
Proof.
  induction rows as [|y rows IH]; cbn; [reflexivity|].
  destruct (String.leb (row_timestamp x) (row_timestamp y)); [reflexivity|].
  rewrite IH. apply perm_swap.
Qed.

Lemma order_by_timestamp_perm (rows : list LogRow) :
  Permutation (order_by_timestamp rows) rows.
Proof.
  induction rows as [|x rows IH]; cbn; [reflexivity|].
  rewrite insert_by_timestamp_perm. now apply perm_skip.
Qed.

Lemma insert_by_timestamp_sorted (x : LogRow) (rows : list LogRow) :
  by_timestamp rows -> by_timestamp (insert_by_timestamp x rows).
Proof.
  induction rows as [|y rows IH]; [cbn; auto|].
  intros Hs. cbn [insert_by_timestamp].
  destruct (String.leb (row_timestamp x) (row_timestamp y)) eqn:Hxy.
  - cbn. cbn in Hs. auto.
  - cbn [by_timestamp] in Hs |- *. destruct Hs as [Hy Hs].
    split; [|now apply IH].
    destruct rows as [|z rows]; cbn [insert_by_timestamp].
    + now apply leb_total.
    + destruct (String.leb (row_timestamp x) (row_timestamp z));
        [now apply leb_total|exact Hy].
Qed.

Lemma order_by_timestamp_sorted (rows : list LogRow) :
  by_timestamp (order_by_timestamp rows).
Proof.
  induction rows as [|x rows IH]; [exact I|].
  cbn [order_by_timestamp fold_right]. now apply insert_by_timestamp_sorted.
Qed.

(** X9. The meals of a day are listed once each and oldest first: for a day
    that exists, what [get_meals_for_date] hands to the pager is the
    heading and the rows of the range, each row once, no timestamp before
    the one that precedes it; a day without rows gets the line that says
    so. *)
Theorem meals_are_listed_in_order d w :
  valid_date d = true ->
  History.get_meals_for_date (date_isoformat d) w =
    match meals_of d w with
    | [] => (add_stdout (NoMealsFound d) (add_executed SelectMeals w), Ok tt)
    | meals =>
        (add_stdout (Paged (MealsFor d :: map Meal meals))
           (add_executed SelectMeals w), Ok tt)
    end /\
  by_timestamp (meals_of d w) /\
  Permutation (meals_of d w)
    (rows_in (isoformat (midnight d)) (isoformat (last_instant d)) w).
Proof.
  intros Hv. split; [now apply get_meals_for_date_today|]. split.
  - apply order_by_timestamp_sorted.
  - apply order_by_timestamp_perm.
Qed.

Lemma meals_are_listed_in_order_witness :
  History.get_meals_for_date (date_isoformat leap_day) two_meals_world =
    match meals_of leap_day two_meals_world with
    | [] => (add_stdout (NoMealsFound leap_day)
               (add_executed SelectMeals two_meals_world), Ok tt)
    | meals =>
        (add_stdout (Paged (MealsFor leap_day :: map Meal meals))
           (add_executed SelectMeals two_meals_world), Ok tt)
    end /\
  by_timestamp (meals_of leap_day two_meals_world) /\
  Permutation (meals_of leap_day two_meals_world)
    (rows_in (isoformat (midnight leap_day)) (isoformat (last_instant leap_day))
       two_meals_world).
Proof.
  refine (meals_are_listed_in_order leap_day two_meals_world _).
  reflexivity.
Defined.

(** A row of the log stamped at an instant is among the meals of its day
    unless the instant is the last of the day. *)
Lemma in_meals_iff t r w :
  valid t = true -> stamped t r -> In r (food_log w) ->
  (In r (meals_of (on t) w) <-> is_last_instant t = false).
Proof.
  unfold stamped. intros Hv Hr Hin.
  pose proof (before_last_instant t Hv) as Hlast.
  assert (Hlo : String.leb (isoformat (midnight (on t))) (isoformat t) = true).
  { unfold valid in Hv. repeat (apply andb_prop in Hv as [Hv ?]).
    unfold String.leb, isoformat, midnight. cbn [on hour minute second microsecond].
    rewrite string_compare_app by reflexivity. rewrite string_compare_refl.
    rewrite (string_compare_app "T" "T") by reflexivity. simpl (String.compare "T" "T").
    rewrite string_compare_app by (now rewrite !pad_length).
    rewrite pad_compare by (simpl; lia).
    rewrite (string_compare_app ":" ":") by reflexivity. simpl (String.compare ":" ":").
    rewrite string_compare_app by (now rewrite !pad_length).
    rewrite pad_compare by (simpl; lia).
    rewrite (string_compare_app ":" ":") by reflexivity. simpl (String.compare ":" ":").
    rewrite string_compare_app by (now rewrite !pad_length).
    rewrite pad_compare by (simpl; lia).
    destruct (Z.compare_spec 0 (hour t)); try lia; try reflexivity.
    destruct (Z.compare_spec 0 (minute t)); try lia; try reflexivity.
    destruct (Z.compare_spec 0 (second t)); try lia; try reflexivity.
    simpl (0 =? 0).
    destruct (microsecond t =? 0); reflexivity. }
  unfold meals_of. split.
  - intros Hm. apply (Permutation_in _ (order_by_timestamp_perm _)) in Hm.
    unfold rows_in in Hm. apply filter_In in Hm as (_ & Hrange).
    unfold in_range in Hrange. rewrite Hr, Hlast in Hrange.
    apply andb_prop in Hrange as (_ & Hrange). now apply negb_true_iff.
  - intros Hnot.
    apply (Permutation_in _ (Permutation_sym (order_by_timestamp_perm _))).
    unfold rows_in. apply filter_In. split; [exact Hin|].
    unfold in_range. rewrite Hr, Hlo, Hlast, Hnot. reflexivity.
Qed.

(** X10. The meals of a day leave out its last microsecond.  An entry
    stamped at an instant of a day is among the rows today's summary and
    the removal select for that day; it is among the meals listed for the
    day exactly when the instant is not 23:59:59.999999, the end of the
    range, which the query excludes. *)
Theorem meals_miss_the_last_instant t tomorrow r w :
  valid t = true -> next_day (on t) = Ok tomorrow ->
  stamped t r -> In r (food_log w) ->
  In r (todays_rows t tomorrow w) /\
  (In r (meals_of (on t) w) <-> is_last_instant t = false).
Proof.
  intros Hv Hn Hr Hin.
  destruct (instant_in_its_day t tomorrow Hv Hn) as (Hlo & Hhi).
  split.
  - unfold todays_rows, rows_in. apply filter_In. split; [exact Hin|].
    unfold stamped in Hr. unfold in_range. now rewrite Hr, Hlo, Hhi.
  - now apply in_meals_iff.
Qed.

Lemma meals_miss_the_last_instant_witness :
  In late_row (todays_rows before_midnight first_of_march late_world) /\
  (In late_row (meals_of (on before_midnight) late_world) <->
   is_last_instant before_midnight = false).
Proof.
  refine (meals_miss_the_last_instant before_midnight first_of_march late_row
            late_world _ _ _ _).
  - vm_compute; reflexivity.
  - vm_compute; reflexivity.
  - vm_compute; reflexivity.
  - now left.
Defined.

(** ** An entry saved today *)

(** X20. An entry saved today counts today.  When [save_entry] stores a
    computation at an instant of a day, the row it adds is the last of the
    rows that today's summary and the removal select at any instant of
    that day; it is among the meals listed for the day unless it was
    stamped at 23:59:59.999999; and when the sums over the day's rows are
    numbers and the clock stays within the day, today's summary stores
    the sums over the rows the day had and the new row. *)
Theorem saved_entry_counts_today rt c fi qu now later tomorrow w :
  valid now = true ->
  next_day (on now) = Ok tomorrow ->
  on later = on now ->
  food_item c = PyStr fi -> quantity_unit c = PyStr qu ->
  number_fits (quantity c) = true ->
  PrimFloat.is_nan (calories c) = false -> PrimFloat.is_nan (protein c) = false ->
  PrimFloat.is_nan (carbs c) = false -> PrimFloat.is_nan (fat c) = false ->
  let e := row_of (fresh_id w) now fi qu c in
  let w1 := fst (save_entry rt now c w) in
  let rows := (todays_rows now tomorrow w ++ [e])%list in
  todays_rows later tomorrow w1 = rows /\
  (In e (meals_of (on now) w1) <-> is_last_instant now = false) /\
  (forall sql_sum now_save,
     on now_save = on now ->
     PrimFloat.is_nan (sql_sum (map row_calories rows)) = false ->
     PrimFloat.is_nan (sql_sum (map row_protein rows)) = false ->
     PrimFloat.is_nan (sql_sum (map row_carbs rows)) = false ->
     PrimFloat.is_nan (sql_sum (map row_fat rows)) = false ->
     daily_summary (fst (Mtracker.get_todays_summary sql_sum later now_save w1))
       !! date_isoformat (on now) =
       Some {| total_calories := sql_sum (map row_calories rows);
               total_protein := sql_sum (map row_protein rows);
               total_carbs := sql_sum (map row_carbs rows);
               total_fat := sql_sum (map row_fat rows) |}).
Proof.
  intros Hv Hn Hl Hfi Hqu Hq H1 H2 H3 H4 e w1 rows.
  assert (Hw1 : food_log w1 = (food_log w ++ [e])%list).
  { unfold w1. now rewrite (save_entry_ok rt now c w fi qu). }
  destruct (instant_in_its_day now tomorrow Hv Hn) as (Hlo & Hhi).
  assert (Hin : in_range (isoformat (midnight (on now)))
                  (isoformat (midnight tomorrow)) e = true).
  { unfold in_range, e, row_of. cbn. now rewrite Hlo, Hhi. }
  assert (Hrows : todays_rows later tomorrow w1 = rows).
  { unfold rows, todays_rows, rows_in. rewrite Hw1, Hl, List.filter_app. cbn.
    now rewrite Hin. }
  split; [exact Hrows|]. split.
  - apply in_meals_iff; [exact Hv|reflexivity|].
    rewrite Hw1. apply in_or_app. right. now left.
  - intros sql_sum now_save Hs Hc Hp Hcb Hf.
    assert (Hne : exists r rest, rows = r :: rest).
    { unfold rows. destruct (todays_rows now tomorrow w) as [|r rest]; cbn; eauto. }
    destruct Hne as (r & rest & Hcons).
    assert (Hsum : forall col,
               PrimFloat.is_nan (sql_sum (map col rows)) = false ->
               sum_of sql_sum col (todays_rows later tomorrow w1) =
                 Some (sql_sum (map col rows))).
    { intros col. rewrite Hrows, Hcons. apply sum_of_cons. }
    rewrite <- Hl in Hn.
    rewrite (summary_totals sql_sum later now_save tomorrow w1 _ _ _ _ Hn
               (Hsum _ Hc) (Hsum _ Hp) (Hsum _ Hcb) (Hsum _ Hf)).
    cbn. unfold strftime_Ymd. rewrite Hs. apply lookup_insert_eq.
Qed.

Lemma saved_entry_counts_today_witness :
  let c := {| food_item := PyStr "rice"; quantity := Int 200;
              quantity_unit := PyStr "g";
              calories := 260; protein := 5.5; carbs := 56.5; fat := 0.5 |} in
  let e := row_of (fresh_id water_world) evening "rice" "g" c in
  let w1 := fst (save_entry text_of_no_real evening c water_world) in
  let rows := (todays_rows evening first_of_march water_world ++ [e])%list in
  todays_rows evening first_of_march w1 = rows /\
  (In e (meals_of (on evening) w1) <-> is_last_instant evening = false) /\
  (forall sql_sum now_save,
     on now_save = on evening ->
     PrimFloat.is_nan (sql_sum (map row_calories rows)) = false ->
     PrimFloat.is_nan (sql_sum (map row_protein rows)) = false ->
     PrimFloat.is_nan (sql_sum (map row_carbs rows)) = false ->
     PrimFloat.is_nan (sql_sum (map row_fat rows)) = false ->
     daily_summary (fst (Mtracker.get_todays_summary sql_sum evening now_save w1))
       !! date_isoformat (on evening) =
       Some {| total_calories := sql_sum (map row_calories rows);
               total_protein := sql_sum (map row_protein rows);
               total_carbs := sql_sum (map row_carbs rows);
               total_fat := sql_sum (map row_fat rows) |}).
Proof.
  exact (saved_entry_counts_today text_of_no_real
           {| food_item := PyStr "rice"; quantity := Int 200;
              quantity_unit := PyStr "g";
              calories := 260; protein := 5.5; carbs := 56.5; fat := 0.5 |}
           "rice" "g" evening evening first_of_march water_world
           eq_refl eq_refl eq_refl eq_refl eq_refl eq_refl eq_refl
           eq_refl eq_refl eq_refl).
Defined.

(** ** What the reads leave alone *)

Lemma get_summary_for_date_same date_str w :
  same_tables w (fst (Mtracker.get_summary_for_date date_str w)).
Proof.
  unfold Mtracker.get_summary_for_date. unfold_prog.
  destruct (strptime_Ymd date_str); cbn; [|repeat split].
  destruct (daily_summary w !! _); cbn; repeat split.
Qed.

Lemma get_meals_for_date_same date_str w :
  same_tables w (fst (History.get_meals_for_date date_str w)).
Proof.
  unfold History.get_meals_for_date. unfold_prog.
  destruct (strptime_Ymd date_str); cbn; [|repeat split].
  match goal with
  | |- context [match ?l with [] => _ | _ :: _ => _ end] => destruct l
  end; cbn; repeat split.
Qed.

Lemma simple_summary_same sql_sum now w :
  same_tables w (fst (Main.get_todays_summary sql_sum now w)).
Proof.
  unfold Main.get_todays_summary. unfold_prog. cbn.
  repeat (any_step; cbn); repeat split.
Qed.

(** X11. The functions that read change no table: the summary for a date,
    the meals for a date and the simple copy of today's summary leave the
    log, its counter, the summaries and the cache as they are, whatever
    they are given; the extended copy of today's summary leaves the log
    and the cache as they are, and of the summaries it can change only the
    one of the date its second reading of the clock gives. *)
Theorem reads_change_no_table w :
  (forall date_str,
     same_tables w (fst (Mtracker.get_summary_for_date date_str w)) /\
     same_tables w (fst (History.get_meals_for_date date_str w))) /\
  (forall sql_sum now,
     same_tables w (fst (Main.get_todays_summary sql_sum now w))) /\
  (forall sql_sum now now_save,
     let w' := fst (Mtracker.get_todays_summary sql_sum now now_save w) in
     food_log w' = food_log w /\ food_log_seq w' = food_log_seq w /\
     cache w' = cache w /\ cache_null w' = cache_null w /\
     forall k, k <> strftime_Ymd now_save ->
       daily_summary w' !! k = daily_summary w !! k).
Proof.
  split; [|split].
  - intros date_str. split.
    + apply get_summary_for_date_same.
    + apply get_meals_for_date_same.
  - intros sql_sum now. apply simple_summary_same.
  - intros sql_sum now now_save w'. unfold w'.
    unfold Mtracker.get_todays_summary, Mtracker.save_todays_summary. unfold_prog.
    cbn. repeat (any_step; cbn); repeat split; try reflexivity;
      intros k Hk; now rewrite lookup_insert_ne by congruence.
Qed.

(** ** The clock is read twice *)

(** X12. Today's summary is stored under the date of the second reading
    of the clock.  When midnight passes between the reading that selects
    the rows and the reading that dates the summary, the totals of the day
    that ended are stored as the summary of the day that begins, and the
    summary of the day that ended stays as it was. *)
Theorem summary_is_dated_by_the_second_reading sql_sum now now_save tomorrow w
    r rows :
  valid_date (on now) = true ->
  next_day (on now) = Ok tomorrow ->
  on now_save = tomorrow ->
  todays_rows now tomorrow w = r :: rows ->
  PrimFloat.is_nan (sql_sum (map row_calories (r :: rows))) = false ->
  PrimFloat.is_nan (sql_sum (map row_protein (r :: rows))) = false ->
  PrimFloat.is_nan (sql_sum (map row_carbs (r :: rows))) = false ->
  PrimFloat.is_nan (sql_sum (map row_fat (r :: rows))) = false ->
  let w' := fst (Mtracker.get_todays_summary sql_sum now now_save w) in
  daily_summary w' !! date_isoformat tomorrow =
    Some {| total_calories := sql_sum (map row_calories (r :: rows));
            total_protein := sql_sum (map row_protein (r :: rows));
            total_carbs := sql_sum (map row_carbs (r :: rows));
            total_fat := sql_sum (map row_fat (r :: rows)) |} /\
  daily_summary w' !! date_isoformat (on now) =
    daily_summary w !! date_isoformat (on now).
Proof.
  intros Hv Hn Hs Hrows Hc Hp Hcb Hf w'. unfold w'.
  rewrite (summary_totals sql_sum now now_save tomorrow w _ _ _ _ Hn)
    by (rewrite Hrows; now apply sum_of_cons).
  cbn. unfold strftime_Ymd. rewrite Hs. split.
  - apply lookup_insert_eq.
  - apply lookup_insert_ne. intros Heq.
    pose proof (next_day_later _ _ Hv Hn) as Hlt.
    rewrite Heq, string_compare_refl in Hlt. discriminate.
Qed.

Lemma summary_is_dated_by_the_second_reading_witness :
  let w' := fst (Mtracker.get_todays_summary running_sum before_midnight
                   after_midnight late_world) in
  daily_summary w' !! date_isoformat first_of_march =
    Some {| total_calories := 2; total_protein := 0;
            total_carbs := 0.5; total_fat := 0 |} /\
  daily_summary w' !! date_isoformat (on before_midnight) =
    daily_summary late_world !! date_isoformat (on before_midnight).
Proof.
  refine (summary_is_dated_by_the_second_reading running_sum before_midnight
            after_midnight first_of_march late_world late_row [] _ _ _ _ _ _ _ _);
    vm_compute; reflexivity.
Defined.

(** ** The answer at the confirmation *)

Lemma lower_ascii_y (c : ascii) :
  Py.lower_ascii c = "y"%char -> c = "y"%char \/ c = "Y"%char.
Proof.
  destruct c as [[] [] [] [] [] [] [] []]; vm_compute; intros H;
    try discriminate H; auto.
Qed.

Lemma lower_y (a : string) : Py.lower a = "y" -> a = "y" \/ a = "Y".
Proof.
  destruct a as [|c [|c' a']]; cbn; try discriminate.
  intros [= H]. apply lower_ascii_y in H as [->| ->]; auto.
Qed.

(** X13. The answers that confirm are the two texts [y] and [Y]: the
    answer is lowered and compared with [y], nothing is stripped from it,
    so a longer word or a blank beside the letter is a no, and the run
    leaves the log as it was. *)
Theorem only_y_confirms rt chain text a now w :
  (affirmative (Ok a) = true <-> a = "y" \/ a = "Y") /\
  (String.eqb a "y" || String.eqb a "Y" = false ->
   food_log (fst (Main.log_food rt chain text (Ok a) now w)) = food_log w /\
   forall chain',
     food_log (fst (Mtracker.log_food rt chain' text (Ok a) now w)) = food_log w).
Proof.
  assert (Hiff : affirmative (Ok a) = true <-> a = "y" \/ a = "Y").
  { cbn. rewrite String.eqb_eq. split; [apply lower_y|].
    intros [->| ->]; reflexivity. }
  split; [exact Hiff|].
  intros Hno. apply orb_false_elim in Hno as (H1 & H2).
  apply String.eqb_neq in H1, H2.
  assert (Ha : affirmative (Ok a) = false).
  { destruct (affirmative (Ok a)) eqn:E; [|reflexivity].
    destruct (proj1 Hiff eq_refl); contradiction. }
  split; [now apply log_food_rejected|].
  intros [chain'|]; [|reflexivity].
  rewrite log_food_copies. now apply log_food_rejected.
Qed.

Lemma only_y_confirms_witness :
  food_log (fst (Main.log_food text_of_no_real (fun _ => Ok banana_cake_reply)
                   "175g of banana cake" (Ok "yes") morning empty_world)) =
    food_log empty_world /\
  forall chain',
    food_log (fst (Mtracker.log_food text_of_no_real chain'
                     "175g of banana cake" (Ok "yes") morning empty_world)) =
      food_log empty_world.
Proof.
  refine (proj2 (only_y_confirms text_of_no_real (fun _ => Ok banana_cake_reply)
                   "175g of banana cake" "yes" morning empty_world) _).
  reflexivity.
Defined.

(** ** A fence that is not closed *)

(** A text without a backtick is one piece for a separator that begins
    with one. *)
Lemma split_go_whole (sep' body : string) :
  no_backtick body = true ->
  Py.split_go (String "`" sep') 0 "" body = [body].
Proof.
  intros Hb. rewrite <- (string_app_empty_r body) at 1.
  rewrite split_go_plain by assumption. cbn. unfold String.rev.
  now rewrite rev_app_empty.
Qed.

(** X14. A fence that is opened and never closed is accepted: when the
    reply has the opening [```json] and no backtick before or after it,
    what is parsed is all the text after the opening, without the blanks
    around it. *)
Theorem unclosed_fence_is_accepted pre body :
  no_backtick pre = true -> no_backtick body = true ->
  strip_fence (pre ++ "```json" ++ body) = Ok (Py.strip body).
Proof.
  intros Hpre Hb. unfold strip_fence.
  rewrite contains_app
    by (change ("```json" ++ body)
          with (String "`" (String "`" (String "`" (String "j" (String "s"
                  (String "o" (String "n" body)))))));
        cbn; apply prefix_empty).
  rewrite split_opening by assumption.
  rewrite split_go_whole by assumption. cbn [Py.item nth_error and_then].
  unfold Py.split. rewrite split_go_whole by assumption. reflexivity.
Qed.

Lemma unclosed_fence_is_accepted_witness :
  strip_fence ("Here is the result: " ++ "```json" ++ String "010" plain_fence_inside) =
    Ok (Py.strip (String "010" plain_fence_inside)).
Proof.
  refine (unclosed_fence_is_accepted "Here is the result: "
            (String "010" plain_fence_inside) _ _);
    vm_compute; reflexivity.
Defined.

(** ** The statements of a run *)

(** The statements the cache step executes. *)
Lemma resolve_profile_executed rt data label w w1 r :
  resolve_profile rt data label w = (w1, r) ->
  (executed w1 = executed w /\ exists e, r = Raise e) \/
  executed w1 = (executed w ++ [SelectCache])%list \/
  executed w1 = (executed w ++ [SelectCache; ReplaceCache])%list.
Proof.
  unfold resolve_profile, get_from_cache, add_to_cache. unfold_prog.
  destruct (adapt label) as [k|e]; cbn -[as_text];
    [|intros [= <- <-]; left; eauto].
  repeat (any_step; cbn -[as_text]); intros [= <- <-]; cbn -[as_text];
    rewrite <- ?app_assoc; cbn; auto.
Qed.

(** No run of [log_food] touches a summary. *)
Lemma log_food_daily_summary rt chain text answer now w :
  daily_summary (fst (Main.log_food rt chain text answer now w)) = daily_summary w.
Proof.
  destruct (log_food_cases rt chain text answer now w)
    as [(e & _ & ->)|(data & label & q & u & w1 & _ &
         [(e & Hr & ->)|(profile & Hr & [(e & _ & ->)|(c & _ & ->)])])];
    cbn [fst]; try reflexivity;
    apply resolve_profile_frame in Hr as (_ & _ & Hd); try exact Hd.
  destruct (try_except _ _ w1) as [w2 r] eqn:Hrun.
  apply confirm_frame in Hrun as (_ & Hd2 & _). cbn. now rewrite Hd2.
Qed.

(** X15. What [log_food] sends to the databases: the lookup in the cache,
    then the write to the cache on a miss, then the insertion into the log
    on a yes, each at most once and in that order, and nothing else; no
    run deletes a row or touches a summary.  The extended copy does the
    same when it has a chain, and sends nothing at all when it has none. *)
Theorem log_food_statements rt chain text answer now w :
  let w' := fst (Main.log_food rt chain text answer now w) in
  daily_summary w' = daily_summary w /\
  (exists sent,
     executed w' = (executed w ++ sent)%list /\
     In sent [[]; [SelectCache]; [SelectCache; ReplaceCache];
              [SelectCache; InsertFoodLog];
              [SelectCache; ReplaceCache; InsertFoodLog]]) /\
  Mtracker.log_food rt (Some chain) text answer now w =
    Main.log_food rt chain text answer now w /\
  same_tables w (fst (Mtracker.log_food rt None text answer now w)) /\
  executed (fst (Mtracker.log_food rt None text answer now w)) = executed w.
Proof.
  intros w'. split; [|split].
  - apply log_food_daily_summary.
  - unfold w'.
    destruct (log_food_cases rt chain text answer now w)
      as [(e & _ & ->)|(data & label & q & u & w1 & _ &
           [(e & Hr & ->)|(profile & Hr & [(e & _ & ->)|(c & _ & ->)])])];
      cbn [fst].
    + exists []. cbn. rewrite app_nil_r. auto.
    + apply resolve_profile_executed in Hr as [(Hx & _)|[Hx|Hx]]; cbn; rewrite Hx.
      * exists []. rewrite app_nil_r. cbn. auto.
      * eexists. split; [reflexivity|]. cbn. auto.
      * eexists. split; [reflexivity|]. cbn. auto.
    + apply resolve_profile_executed in Hr as [(_ & e' & [=])|[Hx|Hx]];
        cbn; rewrite Hx; eexists; (split; [reflexivity|]); cbn; auto.
    + destruct (try_except _ _ w1) as [w2 r] eqn:Hrun.
      apply confirm_cases in Hrun
        as (_ & [(_ & _ & [Hy|Hy])|(row & _ & _ & _ & _ & _ & Hy)]);
        apply resolve_profile_executed in Hr as [(_ & e' & [=])|[Hx|Hx]];
        cbn [fst]; rewrite Hy, Hx, <- ?app_assoc;
        eexists; (split; [reflexivity|]); cbn; auto 10.
  - repeat split.
Qed.

(** ** The pager *)

Section Pager.

Local Open Scope nat_scope.

Lemma split_go_not_nil (sep : string) (skip : nat) (acc s : string) :
  Py.split_go sep skip acc s <> [].
Proof.
  revert skip acc. induction s as [|c s IH]; intros skip acc; cbn [Py.split_go];
    [easy|].
  destruct skip; [|apply IH].
  destruct (String.prefix sep (String c s)); [easy|apply IH].
Qed.

Lemma rev_app_app (a b t : string) :
  (String.rev_app a b ++ t)%string = String.rev_app a (b ++ t)%string.
Proof.
  revert b. induction a as [|c a IH]; intros b; [reflexivity|].
  cbn [String.rev_app]. now rewrite IH.
Qed.

Lemma join_cons (sep x : string) (l : list string) :
  l <> [] -> String.concat sep (x :: l) = (x ++ sep ++ String.concat sep l)%string.
Proof. destruct l; [congruence|reflexivity]. Qed.

(** Joining what a one-character separator has split gives the text back. *)
Lemma join_split_go (c : ascii) (acc s : string) :
  String.concat (String c "") (Py.split_go (String c "") 0 acc s) =
    String.rev_app acc s.
Proof.
  revert acc. induction s as [|x s IH]; intros acc; [reflexivity|].
  rewrite split_go_step. cbn [String.prefix].
  destruct (ascii_dec c x) as [<-|Hne].
  - rewrite prefix_empty. cbn [String.length Nat.pred].
    rewrite join_cons by apply split_go_not_nil.
    rewrite IH. cbn [String.rev_app]. unfold String.rev.
    rewrite rev_app_app. reflexivity.
  - rewrite IH. reflexivity.
Qed.

Lemma join_split (text : string) :
  String.concat Utils.newline (Py.split text Utils.newline) = text.
Proof. unfold Py.split, Utils.newline. now rewrite join_split_go. Qed.

Lemma string_app_assoc (a b c : string) :
  ((a ++ b) ++ c)%string = (a ++ b ++ c)%string.
Proof.
  induction a as [|x a IH]; [reflexivity|].
  rewrite !string_app_cons. now rewrite IH.
Qed.

Lemma join_app (sep : string) (a b : list string) :
  a <> [] -> b <> [] ->
  String.concat sep (a ++ b) =
    (String.concat sep a ++ sep ++ String.concat sep b)%string.
Proof.
  intros Ha Hb. induction a as [|x a IH]; [congruence|].
  destruct a as [|y a].
  - cbn [app]. now rewrite join_cons.
  - change ((x :: y :: a) ++ b)%list with (x :: ((y :: a) ++ b))%list.
    rewrite join_cons by discriminate.
    rewrite IH by discriminate.
    rewrite (join_cons sep x (y :: a)) by discriminate.
    rewrite !string_app_assoc. reflexivity.
Qed.

Lemma firstn_plus {A} (n m : nat) (l : list A) :
  firstn (n + m) l = (firstn n l ++ firstn m (skipn n l))%list.
Proof.
  revert l. induction n as [|n IH]; intros l; [reflexivity|].
  destruct l as [|x l]; cbn; [now destruct m|]. now rewrite IH.
Qed.

Lemma firstn_not_nil {A} (n : nat) (l : list A) :
  0 < n -> l <> [] -> firstn n l <> [].
Proof. destruct n; [lia|]. destruct l; [congruence|discriminate]. Qed.

Lemma skipn_not_nil {A} (n : nat) (l : list A) :
  n < length l -> skipn n l <> [].
Proof.
  intros Hn Hnil. apply (f_equal (@length A)) in Hnil.
  rewrite length_skipn in Hnil. cbn in Hnil. lia.
Qed.

(** Past the end of the lines the loop shows nothing. *)
Lemma pages_done (fuel i : nat) (lines stdin : list string) :
  length lines <= i -> Utils.pages fuel i lines stdin = ([], stdin).
Proof.
  intros Hi. destruct fuel; [reflexivity|]. cbn [Utils.pages].
  assert ((i <? length lines) = false) as -> by (apply Nat.ltb_ge; lia).
  reflexivity.
Qed.

Lemma waits_step (i : nat) (lines : list string) :
  i + 10 < length lines ->
  waits_from i lines = S (waits_from (i + 10) lines).
Proof.
  intros Hi. unfold waits_from.
  replace (length lines - i - 1) with ((length lines - (i + 10) - 1) + 1 * 10) by lia.
  rewrite Nat.div_add by lia. lia.
Qed.

Lemma waits_last (i : nat) (lines : list string) :
  length lines <= i + 10 -> waits_from i lines = 0.
Proof. intros Hi. unfold waits_from. apply Nat.div_small. lia. Qed.

(** What the loop shows from index [i] on: the lines up to the page at
    which the keyboard has nothing more to give, a prompt after each page
    but the last, and one line of the keyboard taken at each prompt. *)
Lemma pages_shown (fuel i : nat) (lines stdin : list string) :
  length lines <= i + fuel ->
  String.concat Utils.newline (page_texts (fst (Utils.pages fuel i lines stdin))) =
    String.concat Utils.newline
      (firstn (10 * S (length stdin)) (skipn i lines)) /\
  prompts (fst (Utils.pages fuel i lines stdin)) =
    Nat.min (S (length stdin)) (waits_from i lines) /\
  snd (Utils.pages fuel i lines stdin) = skipn (waits_from i lines) stdin.
Proof.
  revert i stdin. induction fuel as [|fuel IH]; intros i stdin Hfuel.
  - rewrite pages_done by lia. cbn [fst snd page_texts prompts].
    rewrite skipn_all2 by lia. rewrite firstn_nil.
    rewrite waits_last by lia. rewrite Nat.min_0_r. auto.
  - destruct (Nat.ltb_spec i (length lines)) as [Hi|Hi];
      [|rewrite pages_done by lia; cbn [fst snd page_texts prompts];
        rewrite skipn_all2 by lia; rewrite firstn_nil;
        rewrite waits_last by lia; rewrite Nat.min_0_r; auto].
    cbn [Utils.pages]. apply Nat.ltb_lt in Hi as Hi'. rewrite Hi'.
    unfold Utils.page_length.
    destruct (Nat.ltb_spec (i + 10) (length lines)) as [Hmore|Hlast].
    + rewrite (waits_step i lines Hmore).
      destruct stdin as [|typed stdin].
      * cbn [fst snd page_texts prompts length]. repeat split.
      * specialize (IH (i + 10) stdin ltac:(lia)).
        destruct (Utils.pages fuel (i + 10) lines stdin) as [outs left] eqn:Hp.
        cbn [fst snd] in IH. destruct IH as (IH1 & IH2 & IH3).
        cbn [fst snd page_texts prompts length]. split; [|split].
        -- assert (Hne : page_texts outs <> []).
           { destruct fuel as [|fuel]; [lia|]. cbn [Utils.pages] in Hp.
             assert ((i + 10 <? length lines) = true) as Hlt by (apply Nat.ltb_lt; lia).
             rewrite Hlt in Hp.
             destruct (i + 10 + Utils.page_length <? length lines).
             - destruct stdin; [injection Hp as <- _; discriminate|].
               destruct (Utils.pages fuel _ lines stdin).
               injection Hp as <- _. discriminate.
             - destruct (Utils.pages fuel _ lines _).
               injection Hp as <- _. discriminate. }
           rewrite join_cons by assumption. rewrite IH1.
           replace (10 * S (S (length stdin))) with (10 + 10 * S (length stdin)) by lia.
           rewrite firstn_plus, skipn_skipn.
           replace (10 + i) with (i + 10) by lia.
           rewrite join_app; [reflexivity| |].
           ++ apply firstn_not_nil; [lia|]. apply skipn_not_nil. lia.
           ++ apply firstn_not_nil; [lia|]. apply skipn_not_nil. lia.
        -- rewrite IH2. lia.
        -- exact IH3.
    + rewrite (waits_last i lines Hlast).
      rewrite pages_done by lia.
      cbn [fst snd page_texts prompts]. rewrite Nat.min_0_r. repeat split.
      rewrite (firstn_all2 (n := 10 * _)) by (rewrite length_skipn; lia).
      rewrite firstn_all2 by (rewrite length_skipn; lia). reflexivity.
Qed.

End Pager.

(** X16. The pager shows the whole text, in order, when Enter is pressed at
    each of its prompts: the pages, put one under the other, are the text
    it was given; it prompts once after each page that has lines behind
    it and takes one line of the keyboard at each prompt, leaving the
    rest.  A text of at most ten lines is one page and no prompt. *)
Theorem pager_shows_the_text text stdin :
  (waits text <= length stdin)%nat ->
  let run := Utils.paginate_output text stdin in
  String.concat Utils.newline (page_texts (fst run)) = text /\
  prompts (fst run) = waits text /\
  snd run = skipn (waits text) stdin.
Proof.
  intros Hw run. unfold run, Utils.paginate_output.
  destruct (pages_shown (length (Py.split text Utils.newline)) 0
              (Py.split text Utils.newline) stdin ltac:(lia)) as (H1 & H2 & H3).
  unfold waits, lines_of, waits_from in *.
  rewrite Nat.sub_0_r in *.
  split; [|split].
  - rewrite H1, skipn_O.
    rewrite firstn_all2.
    + apply join_split.
    + pose proof (Nat.div_mod_eq (length (Py.split text Utils.newline) - 1) 10).
      pose proof (Nat.mod_upper_bound (length (Py.split text Utils.newline) - 1) 10).
      lia.
  - rewrite H2. lia.
  - exact H3.
Qed.

Lemma pager_shows_the_text_witness :
  let run := Utils.paginate_output twelve_lines [""; "next"] in
  String.concat Utils.newline (page_texts (fst run)) = twelve_lines /\
  prompts (fst run) = waits twelve_lines /\
  snd run = skipn (waits twelve_lines) [""; "next"].
Proof.
  refine (pager_shows_the_text twelve_lines [""; "next"] _).
  vm_compute. lia.
Defined.

(** X17. The pager stops at the end of the input: when the keyboard gives
    fewer lines than there are prompts, the pages shown are the first ten
    lines for the first prompt and ten more for each line the keyboard
    gave, the last thing shown is a prompt, and the rest of the text is
    not shown. *)
Theorem pager_stops_at_the_end_of_input text stdin :
  (length stdin < waits text)%nat ->
  let run := Utils.paginate_output text stdin in
  String.concat Utils.newline (page_texts (fst run)) =
    String.concat Utils.newline
      (firstn (10 * S (length stdin)) (lines_of text)) /\
  prompts (fst run) = S (length stdin) /\
  snd run = [] /\
  (10 * S (length stdin) < length (lines_of text))%nat.
Proof.
  intros Hw run. unfold run, Utils.paginate_output.
  destruct (pages_shown (length (Py.split text Utils.newline)) 0
              (Py.split text Utils.newline) stdin ltac:(lia)) as (H1 & H2 & H3).
  unfold waits, lines_of, waits_from in *.
  rewrite Nat.sub_0_r in *.
  split; [|split; [|split]].
  - now rewrite H1, skipn_O.
  - rewrite H2. lia.
  - rewrite H3. apply skipn_all2. lia.
  - pose proof (Nat.div_mod_eq (length (Py.split text Utils.newline) - 1) 10).
    pose proof (Nat.mod_upper_bound (length (Py.split text Utils.newline) - 1) 10).
    lia.
Qed.

Lemma pager_stops_at_the_end_of_input_witness :
  let run := Utils.paginate_output twelve_lines [] in
  String.concat Utils.newline (page_texts (fst run)) =
    String.concat Utils.newline (firstn (10 * S (length (@nil string))) (lines_of twelve_lines)) /\
  prompts (fst run) = S (length (@nil string)) /\
  snd run = [] /\
  (10 * S (length (@nil string)) < length (lines_of twelve_lines))%nat.
Proof.
  refine (pager_stops_at_the_end_of_input twelve_lines [] _).
  vm_compute. lia.
Defined.

(** ** Whole sessions *)

Import Console.

Lemma grown_refl (w : World) : grown w w.
Proof. exists []. now rewrite app_nil_r. Qed.

Lemma grown_trans (w1 w2 w3 : World) : grown w1 w2 -> grown w2 w3 -> grown w1 w3.
Proof.
  intros (a & Ha) (b & Hb). exists (a ++ b)%list.
  now rewrite Hb, Ha, app_assoc.
Qed.

Lemma kept_refl (w : World) : kept w w.
Proof. split; auto. Qed.

Lemma kept_trans (w1 w2 w3 : World) : kept w1 w2 -> kept w2 w3 -> kept w1 w3.
Proof. intros (A1 & A2) (B1 & B2). split; eauto. Qed.

Lemma same_tables_grown (w w' : World) : same_tables w w' -> grown w w'.
Proof. intros (Hl & _). exists []. now rewrite app_nil_r. Qed.

Lemma same_tables_kept (w w' : World) : same_tables w w' -> kept w w'.
Proof.
  intros (Hl & Hs & _ & Hc & _). split.
  - now apply well_keyed_same.
  - intros s v. now rewrite Hc.
Qed.

Lemma log_food_grown rt chain text answer now w :
  grown w (fst (Main.log_food rt chain text answer now w)).
Proof.
  destruct (log_food_log_cases rt chain text answer now w)
    as [(H1 & _)|(row & H1 & _)].
  - exists []. now rewrite app_nil_r.
  - now exists [row].
Qed.

Lemma log_food_kept rt chain text answer now w :
  kept w (fst (Main.log_food rt chain text answer now w)).
Proof.
  split.
  - intros Hw. now apply log_food_well_keyed.
  - intros s v. apply log_food_keeps.
Qed.

Lemma extended_log_food_grown rt chain text answer now w :
  grown w (fst (Mtracker.log_food rt chain text answer now w)).
Proof.
  destruct chain as [chain|]; [|exists []; cbn; now rewrite app_nil_r].
  rewrite log_food_copies. apply log_food_grown.
Qed.

Lemma extended_log_food_kept rt chain text answer now w :
  kept w (fst (Mtracker.log_food rt chain text answer now w)).
Proof.
  destruct chain as [chain|]; [|split; [now apply well_keyed_same|auto]].
  rewrite log_food_copies. apply log_food_kept.
Qed.

Lemma summary_grown sql_sum now now_save w :
  grown w (fst (Mtracker.get_todays_summary sql_sum now now_save w)).
Proof.
  destruct (Mtracker.get_todays_summary _ _ _ _) as [w' r] eqn:Hs.
  apply summary_frame in Hs as (Hl & _). exists []. cbn. now rewrite app_nil_r.
Qed.

Lemma summary_kept sql_sum now now_save w :
  kept w (fst (Mtracker.get_todays_summary sql_sum now now_save w)).
Proof.
  destruct (Mtracker.get_todays_summary _ _ _ _) as [w' r] eqn:Hs.
  apply summary_frame in Hs as (Hl & Hq & Hc). cbn. split.
  - now apply well_keyed_same.
  - intros s v. now rewrite Hc.
Qed.

Lemma remove_last_kept sql_sum now now_summary now_save w :
  kept w (fst (Mtracker.remove_last_entry sql_sum now now_summary now_save w)).
Proof.
  split.
  - apply remove_last_well_keyed.
  - intros s v.
    destruct (remove_last_cases sql_sum now now_summary now_save w) as (_ & Hc & _).
    now rewrite Hc.
Qed.

(** A call, then the rest: a relation that every step respects is
    respected by the whole. *)
Lemma and_on_call (P : World -> World -> Prop) (f : M unit)
    (k : Session -> Session * ending) (s : Session) :
  (forall w1 w2 w3, P w1 w2 -> P w2 w3 -> P w1 w3) ->
  P (world s) (fst (f (world s))) ->
  (forall s', P (world s') (world (fst (k s')))) ->
  P (world s) (world (fst (and_on (call f s) k))).
Proof.
  intros Htrans Hf Hk. unfold call.
  destruct (f (world s)) as [w1 [[]|e]]; cbn in *.
  - eapply Htrans; [exact Hf|]. apply (Hk {| world := w1 |}).
  - exact Hf.
Qed.

Lemma simple_safe_refl (w : World) : simple_safe w w.
Proof. split; [apply grown_refl|]. split; [apply kept_refl|reflexivity]. Qed.

Lemma simple_safe_trans (w1 w2 w3 : World) :
  simple_safe w1 w2 -> simple_safe w2 w3 -> simple_safe w1 w3.
Proof.
  intros (A1 & A2 & A3) (B1 & B2 & B3).
  split; [eapply grown_trans; eauto|]. split; [eapply kept_trans; eauto|].
  now rewrite B3.
Qed.

Lemma safe_refl (w : World) : safe w w.
Proof. split; [apply grown_refl|apply kept_refl]. Qed.

Lemma safe_trans (w1 w2 w3 : World) : safe w1 w2 -> safe w2 w3 -> safe w1 w3.
Proof.
  intros (A1 & A2) (B1 & B2).
  split; [eapply grown_trans; eauto|eapply kept_trans; eauto].
Qed.

Lemma menu_safe rt sql_sum configured turns s :
  safe (world s) (world (fst (MtrackerMenu.menu rt sql_sum configured turns s))).
Proof.
  revert s. induction turns as [|t turns IH]; intros s; cbn [MtrackerMenu.menu].
  - apply safe_refl.
  - destruct (choice t) as [c|e]; [|apply safe_refl].
    destruct (String.eqb c "1").
    { destruct (typed t) as [food|e]; [|apply safe_refl].
      change (world s) with (world (say Menu s)) at 1.
      apply (and_on_call safe); [exact safe_trans| |intros s'; apply IH].
      split; [apply extended_log_food_grown|apply extended_log_food_kept]. }
    destruct (String.eqb c "2").
    { change (world s) with (world (say Menu s)) at 1.
      apply (and_on_call safe); [exact safe_trans| |intros s'; apply IH].
      split; [apply summary_grown|apply summary_kept]. }
    destruct (String.eqb c "3").
    { destruct (typed t) as [date_input|e]; [|apply safe_refl].
      change (world s) with (world (say Menu s)) at 1.
      apply (and_on_call safe); [exact safe_trans| |intros s'; apply IH].
      pose proof (get_summary_for_date_same date_input (world (say Menu s))) as Hsame.
      split; [now apply same_tables_grown|now apply same_tables_kept]. }
    destruct (String.eqb c "4").
    { destruct (typed t) as [date_input|e]; [|apply safe_refl].
      change (world s) with (world (say Menu s)) at 1.
      apply (and_on_call safe); [exact safe_trans| |intros s'; apply IH].
      pose proof (get_meals_for_date_same date_input (world (say Menu s))) as Hsame.
      split; [now apply same_tables_grown|now apply same_tables_kept]. }
    destruct (String.eqb c "5"); [apply safe_refl|].
    apply (IH (say InvalidChoice (say Menu s))).
Qed.

(** [setup_environment] touches no table. *)
Lemma setup_environment_world keys s :
  world (fst (MtrackerMenu.setup_environment keys s)) = world s.
Proof.
  unfold MtrackerMenu.setup_environment.
  destruct (env_file s); [reflexivity|].
  destruct (api_key keys); [|reflexivity].
  destruct (base_url keys); [|reflexivity].
  destruct (model_name keys); reflexivity.
Qed.

(** X18. A session of the simple copy undoes nothing.  Whatever is typed
    at the menu of [src/main.py], whatever the chain replies and whenever
    the session stops: the rows the log had are still there, in their
    order, at the head of the log; the log stays well keyed; a profile the
    cache held is still the profile of its label; and no summary is
    written. *)
Theorem simple_session_undoes_nothing rt sql_sum turns s :
  let w' := world (fst (MainMenu.main rt sql_sum turns s)) in
  grown (world s) w' /\ kept (world s) w' /\
  daily_summary w' = daily_summary (world s).
Proof.
  intros w'. unfold w', MainMenu.main. clear w'.
  change (simple_safe (world s) (world (fst (MainMenu.menu rt sql_sum turns s)))).
  revert s. induction turns as [|t turns IH]; intros s; cbn [MainMenu.menu].
  - apply simple_safe_refl.
  - destruct (choice t) as [c|e]; [|apply simple_safe_refl].
    destruct (String.eqb c "1").
    { destruct (typed t) as [food|e]; [|apply simple_safe_refl].
      change (world s) with (world (say Menu s)) at 1.
      apply (and_on_call simple_safe); [exact simple_safe_trans| |].
      - cbn [world say]. split; [apply log_food_grown|].
        split; [apply log_food_kept|].
        apply log_food_daily_summary.
      - intros s'. apply IH. }
    destruct (String.eqb c "2").
    { change (world s) with (world (say Menu s)) at 1.
      apply (and_on_call simple_safe); [exact simple_safe_trans| |].
      - cbn [world say].
        pose proof (simple_summary_same sql_sum (reading1 (outside t)) (world s)) as Hsame.
        split; [now apply same_tables_grown|].
        split; [now apply same_tables_kept|]. apply Hsame.
      - intros s'. apply IH. }
    destruct (String.eqb c "3"); [apply simple_safe_refl|].
    apply (IH (say InvalidChoice (say Menu s))).
Qed.

(** X19. A run of the extended copy undoes nothing it was not asked to.
    Whatever the command line, what is typed and what the chain replies,
    [main] leaves the log well keyed and the profiles of the cache in
    place.  Unless the command line asks for the removal of the last
    entry, the rows the log had are still there, in their order, at its
    head: no choice of the menu removes or changes an entry.  With
    [--setup], and with a [--remove] argument other than [last], no table
    changes at all, whether or not a food entry is given as well. *)
Theorem session_undoes_nothing rt sql_sum configured args keys o turns s :
  let w' := world (fst (MtrackerMenu.main rt sql_sum configured args keys o turns s)) in
  kept (world s) w' /\
  (setup args = true \/ given (remove args) <> Some "last" -> grown (world s) w') /\
  (setup args = true \/
   (exists item, given (remove args) = Some item /\ item <> "last") ->
   w' = world s).
Proof.
  intros w'. unfold w', MtrackerMenu.main.
  destruct (setup args).
  { rewrite setup_environment_world.
    split; [apply kept_refl|]. split; [intros _; apply grown_refl|reflexivity]. }
  destruct (given (remove args)) as [item|] eqn:Hr.
  - destruct (String.eqb item "last") eqn:Hlast.
    + apply String.eqb_eq in Hlast. subst item. split; [|split].
      * unfold call.
        pose proof (remove_last_kept sql_sum (reading1 o) (reading2 o) (reading3 o)
                      (world s)) as Hk.
        destruct (Mtracker.remove_last_entry _ _ _ _ _) as [w1 [[]|e]]; exact Hk.
      * intros [H|H]; [discriminate|congruence].
      * intros [H|(item & [= <-] & Hne)]; [discriminate|congruence].
    + cbn. split; [apply kept_refl|]. split; [intros _; apply grown_refl|reflexivity].
  - destruct (given (food_input args)) as [text|].
    + unfold call.
      pose proof (extended_log_food_kept rt (MtrackerMenu.chain configured o) text
                    (answer o) (reading1 o) (world s)) as Hk.
      pose proof (extended_log_food_grown rt (MtrackerMenu.chain configured o) text
                    (answer o) (reading1 o) (world s)) as Hg.
      destruct (Mtracker.log_food _ _ _ _ _ _) as [w1 [[]|e]]; cbn in *;
        (split; [exact Hk|]); (split; [intros _; exact Hg|]);
        intros [H|(item & H & _)]; discriminate.
    + destruct (menu_safe rt sql_sum configured turns s) as (Hg & Hk).
      split; [exact Hk|]. split; [intros _; exact Hg|].
      intros [H|(item & H & _)]; discriminate.
Qed.
